(** * WarmLeggs backend: catalog, checkout and order construction

    A shallow embedding of [src/main.py] and [src/schemas.py].

    - Python [float] is IEEE 754 binary64; it is modelled by the Standard
      Library's executable specification [spec_float] at precision 53 and
      maximal exponent 1024, so that sums and products round as in Python.
    - A stored MongoDB document is a dictionary from field names to values
      ([gmap string value]) together with the identifier the store gave it.
    - The schemas are pydantic (version 2) models: a model built from
      stored values validates them in lax mode, where a string field takes
      bytes and a number field takes text.
    - Handlers run in a state-and-exception monad over the [world]: the
      database handle and the log of the operations sent to the store. *)

From Stdlib Require Import ZArith String Ascii List Bool Lia.
From Stdlib Require Import Floats.SpecFloat.
From stdpp Require Import base option list gmap strings pretty.

Local Open Scope string_scope.
Local Open Scope Z_scope.
Local Open Scope list_scope.

(** ** Python floats *)

Module Float.

Definition prec : Z := 53.
Definition emax : Z := 1024.

Definition t : Type := spec_float.

Definition add (x y : t) : t := SFadd prec emax x y.
Definition mul (x y : t) : t := SFmul prec emax x y.

(** [x >= y] is [leb y x]; any comparison with a NaN is false. *)
Definition leb (x y : t) : bool := SFleb x y.
Definition ltb (x y : t) : bool := SFltb x y.
Definition eqb (x y : t) : bool := SFeqb x y.

(** The float nearest to an integer (ties to even); integers beyond the
    largest finite float round to an infinity. *)
Definition of_Z (n : Z) : t := binary_normalize prec emax n 0 false.

Definition zero : t := S754_zero false.

(** Neither negative nor NaN; [-0.0] counts as non-negative, as in
    Python's [-0.0 >= 0]. *)
Definition nonneg (x : t) : bool := leb zero x.

(** The sum of the terms taken from the left, starting from [0.0], the way
    [s = 0.0; for x in xs: s += x] computes it. *)
Definition sum (xs : list t) : t := fold_left add xs zero.

End Float.

Notation float := Float.t.

(** ** Values held by documents *)

(** The values a stored document can hold under a field.  A [str] is kept
    as the UTF-8 encoding of its text, [bytes] as they are.  [VOther] stands
    for any value of another kind (a date, an identifier, a sub-document, a
    [Decimal128]), kept by its printed form: such a value is neither a
    number, nor text, nor bytes, nor a list. *)
Inductive value :=
| VNone
| VBool (b : bool)
| VInt (n : Z)
| VFloat (f : float)
| VStr (s : string)
| VBytes (b : string)
| VList (l : list value)
| VOther (repr : string).

(** A Python [dict] with string keys. *)
Notation dict := (gmap string value).

(** [d.get(k)]: the value under [k], [None] when the key is absent. *)
Definition dict_get (d : dict) (k : string) : value :=
  default VNone (d !! k).

(** [d.get(k, v)]. *)
Definition dict_get_default (d : dict) (k : string) (v : value) : value :=
  default v (d !! k).

(** ** Object identifiers *)

(** A [bson.ObjectId] is represented by the text [str] prints for it: the
    bytes it holds, two lower-case hexadecimal digits each.  The identifiers
    the store hands out hold twelve bytes, hence 24 digits. *)
Definition oid : Type := string.

Definition is_hex (c : ascii) : bool :=
  let n := N_of_ascii c in
  ((48 <=? n) && (n <=? 57) || (97 <=? n) && (n <=? 102)
   || (65 <=? n) && (n <=? 70))%N.

Definition to_lower (c : ascii) : ascii :=
  let n := N_of_ascii c in
  if ((65 <=? n) && (n <=? 90))%N then ascii_of_N (n + 32) else c.

Fixpoint string_forallb (p : ascii -> bool) (s : string) : bool :=
  match s with
  | EmptyString => true
  | String c r => p c && string_forallb p r
  end.

Fixpoint string_map (f : ascii -> ascii) (s : string) : string :=
  match s with
  | EmptyString => EmptyString
  | String c r => String (f c) (string_map f r)
  end.

Fixpoint string_filter (p : ascii -> bool) (s : string) : string :=
  match s with
  | EmptyString => EmptyString
  | String c r =>
      if p c then String c (string_filter p r) else string_filter p r
  end.

Definition str_oid (i : oid) : string := i.

(** ASCII whitespace: tab, line feed, vertical tab, form feed, carriage
    return and space. *)
Definition is_space (c : ascii) : bool :=
  let n := N_of_ascii c in
  ((9 <=? n) && (n <=? 13) || (n =? 32))%N.

(** [bytes.fromhex(s)], the bytes written out by their lower-case
    hexadecimal digits: each byte is two adjacent hexadecimal digits, ASCII
    whitespace before a byte is skipped; [None] where [fromhex] raises
    [ValueError]. *)
Fixpoint fromhex (s : string) : option string :=
  match s with
  | EmptyString => Some EmptyString
  | String c r =>
      if is_space c then fromhex r
      else
        match r with
        | String c' r' =>
            if is_hex c && is_hex c'
            then (fun t => String (to_lower c) (String (to_lower c') t))
                   <$> fromhex r'
            else None
        | EmptyString => None
        end
  end.

(** ** Exceptions *)

Inductive exn :=
| HTTPException (status_code : Z) (detail : detail)
| TypeError
| ValueError
| OverflowError
| InvalidId (s : string)
| ValidationError (model : string)
| StorageError
with detail :=
| Msg (s : string)
| StrOf (e : exn).

Inductive result (A : Type) :=
| Ok (a : A)
| Raise (e : exn).
Arguments Ok {A} a.
Arguments Raise {A} e.

#[global] Instance result_ret : MRet result := @Ok.
#[global] Instance result_bind : MBind result := fun A B f r =>
  match r with
  | Ok a => f a
  | Raise e => Raise e
  end.

(** [ObjectId(s)]: a string of 24 characters that [bytes.fromhex] reads,
    else [InvalidId].  The length is counted in bytes here and in characters
    by Python; the two differ only for a string that is not ASCII, which
    [fromhex] refuses in any case. *)
Definition ObjectId (s : string) : result oid :=
  if (String.length s =? 24)%nat
  then match fromhex s with
       | Some i => Ok i
       | None => Raise (InvalidId s)
       end
  else Raise (InvalidId s).

(** ** Conversions between Python numbers *)

(** [float(n)] for an [int]: [OverflowError] when [n] is too large for a
    finite float. *)
Definition float_of_int (n : Z) : result float :=
  match Float.of_Z n with
  | S754_infinity _ => Raise OverflowError
  | f => Ok f
  end.

(** [x * n] for a [float] and an [int]: the integer is converted first. *)
Definition float_mul_int (x : float) (n : Z) : result float :=
  y ← float_of_int n; Ok (Float.mul x y).

(** [x >= n] for a [float] and an [int] that a float represents exactly. *)
Definition float_ge_int (x : float) (n : Z) : bool :=
  Float.leb (Float.of_Z n) x.

(** ** Schemas ([src/schemas.py]) *)

(** A pydantic model checks its declared constraints when it is built; a
    violated constraint raises [ValidationError]. *)
Definition check (model : string) (b : bool) : result unit :=
  if b then Ok tt else Raise (ValidationError model).

Definition byte_in (lo hi : N) (c : ascii) : bool :=
  let n := N_of_ascii c in ((lo <=? n) && (n <=? hi))%N.

(** Well-formed UTF-8: what [bytes.decode] and pydantic accept, with no
    overlong form, no surrogate and nothing above U+10FFFF. *)
Fixpoint utf8_valid (s : string) : bool :=
  match s with
  | EmptyString => true
  | String a r =>
      if byte_in 0 127 a then utf8_valid r
      else
        match r with
        | EmptyString => false
        | String b r2 =>
            if byte_in 194 223 a then byte_in 128 191 b && utf8_valid r2
            else
              match r2 with
              | EmptyString => false
              | String c r3 =>
                  if byte_in 224 239 a
                  then (if byte_in 224 224 a then byte_in 160 191 b
                        else if byte_in 237 237 a then byte_in 128 159 b
                        else byte_in 128 191 b)
                       && byte_in 128 191 c && utf8_valid r3
                  else
                    match r3 with
                    | EmptyString => false
                    | String d r4 =>
                        byte_in 240 244 a
                        && (if byte_in 240 240 a then byte_in 144 191 b
                            else if byte_in 244 244 a then byte_in 128 143 b
                            else byte_in 128 191 b)
                        && byte_in 128 191 c && byte_in 128 191 d
                        && utf8_valid r4
                    end
              end
        end
  end.

(** The text of a value that is a string, or bytes that decode. *)
Definition text (v : value) : option string :=
  match v with
  | VStr s => Some s
  | VBytes b => if utf8_valid b then Some b else None
  | _ => None
  end.

(** In lax mode pydantic reads a number or a boolean field from text with
    parsers of its own, which are not Python's [float], [int] and [bool];
    they are taken as parameters. *)
Record parsers := {
  str_as_float : string -> option float;
  str_as_int : string -> option Z;
  str_as_bool : string -> option bool
}.

(** The integer a float equals, for a float without fractional part and
    strictly between [-2^63] and [2^63]. *)
Definition float_as_int (f : float) : option Z :=
  let in_range (n : Z) :=
    if (- 2 ^ 63 <? n) && (n <? 2 ^ 63) then Some n else None in
  match f with
  | S754_zero _ => Some 0
  | S754_finite s m e =>
      if 0 <=? e then in_range (cond_Zopp s (Z.pos m * 2 ^ e))
      else if Z.pos m mod 2 ^ (- e) =? 0
      then in_range (cond_Zopp s (Z.pos m / 2 ^ (- e)))
      else None
  | _ => None
  end.

Definition from_opt {A : Type} (model : string) (o : option A) : result A :=
  match o with
  | Some a => Ok a
  | None => Raise (ValidationError model)
  end.

(** A field declared [str]: a string, or bytes that decode as UTF-8. *)
Definition as_str (model : string) (v : value) : result string :=
  from_opt model (text v).

(** A field declared [Optional[str]]. *)
Definition as_opt_str (model : string) (v : value) : result (option string) :=
  match v with
  | VNone => Ok None
  | _ => s ← as_str model v; Ok (Some s)
  end.

(** A field declared [bool]: a boolean, text that reads as one, or a
    number equal to 0 or 1. *)
Definition as_bool (P : parsers) (model : string) (v : value)
  : result bool :=
  let of_int (n : Z) : option bool :=
    if n =? 0 then Some false else if n =? 1 then Some true else None in
  match v with
  | VBool b => Ok b
  | VStr _ | VBytes _ => from_opt model (text v ≫= str_as_bool P)
  | VInt n => from_opt model (of_int n)
  | VFloat f => from_opt model (float_as_int f ≫= of_int)
  | _ => Raise (ValidationError model)
  end.

(** A field declared [float]: a float, text that reads as one, or an
    integer or boolean that converts. *)
Definition as_float (P : parsers) (model : string) (v : value)
  : result float :=
  match v with
  | VFloat f => Ok f
  | VStr _ | VBytes _ => from_opt model (text v ≫= str_as_float P)
  | VInt n =>
      match float_of_int n with
      | Ok f => Ok f
      | Raise _ => Raise (ValidationError model)
      end
  | VBool b => Ok (Float.of_Z (if b then 1 else 0))
  | _ => Raise (ValidationError model)
  end.

(** A field declared [Optional[int]]: [None], an integer or a boolean, text
    that reads as an integer, or a float equal to one. *)
Definition as_opt_int (P : parsers) (model : string) (v : value)
  : result (option Z) :=
  match v with
  | VNone => Ok None
  | VInt n => Ok (Some n)
  | VBool b => Ok (Some (if b then 1 else 0))
  | VStr _ | VBytes _ =>
      n ← from_opt model (text v ≫= str_as_int P); Ok (Some n)
  | VFloat f => n ← from_opt model (float_as_int f); Ok (Some n)
  | _ => Raise (ValidationError model)
  end.

(** A field declared [List[str]]. *)
Fixpoint strs_of_values (model : string) (l : list value)
  : result (list string) :=
  match l with
  | [] => Ok []
  | v :: r =>
      s ← as_str model v; ss ← strs_of_values model r; Ok (s :: ss)
  end.

Definition as_str_list (model : string) (v : value) : result (list string) :=
  match v with
  | VList l => strs_of_values model l
  | _ => Raise (ValidationError model)
  end.

Module Product.

Record t := {
  title : string;
  description : option string;
  price : float;
  category : string;
  in_stock : bool;
  images : list string;
  colors : list string;
  sizes : list string;
  featured : bool;
  warmth_rating : option Z;
  fabric : option string;
  sku : option string
}.

(** [price: ge=0]. *)
Definition price_ok (p : float) : bool := Float.nonneg p.

(** [warmth_rating: Optional[int], ge=1, le=5]. *)
Definition warmth_rating_ok (w : option Z) : bool :=
  match w with
  | None => true
  | Some n => (1 <=? n) && (n <=? 5)
  end.

Definition valid (p : t) : bool :=
  price_ok (price p) && warmth_rating_ok (warmth_rating p).

(** Building the model, or the subclass named [model], from fields of the
    declared types. *)
Definition validate (model : string) (p : t) : result t :=
  _ ← check model (valid p); Ok p.

(** What a failed [validate] reports: the input of each violated field. *)
Definition rejected_inputs (p : t) : list value :=
  (if price_ok (price p) then [] else [VFloat (price p)])
  ++ (if warmth_rating_ok (warmth_rating p) then []
      else match warmth_rating p with
           | Some n => [VInt n]
           | None => []
           end).

(** The model, or the subclass named [model], built from the entries of a
    dictionary: absent fields take their defaults, entries outside the
    schema are ignored, each value is read in lax mode, then the
    constraints are checked. *)
Definition of_dict (P : parsers) (model : string) (d : dict) : result t :=
  title ← from_option (as_str model)
            (Raise (ValidationError model)) (d !! "title");
  description ← as_opt_str model (dict_get d "description");
  price ← from_option (as_float P model)
            (Raise (ValidationError model)) (d !! "price");
  category ← as_str model (dict_get_default d "category" (VStr "leggings"));
  in_stock ← as_bool P model (dict_get_default d "in_stock" (VBool true));
  images ← as_str_list model (dict_get_default d "images" (VList []));
  colors ← as_str_list model (dict_get_default d "colors" (VList []));
  sizes ← as_str_list model (dict_get_default d "sizes" (VList []));
  featured ← as_bool P model
               (dict_get_default d "featured" (VBool false));
  warmth_rating ← as_opt_int P model
                    (dict_get_default d "warmth_rating" (VInt 5));
  fabric ← as_opt_str model (dict_get d "fabric");
  sku ← as_opt_str model (dict_get d "sku");
  validate model
    {| title := title; description := description; price := price;
       category := category; in_stock := in_stock;
       images := images; colors := colors; sizes := sizes;
       featured := featured; warmth_rating := warmth_rating;
       fabric := fabric; sku := sku |}.

End Product.

(** [class ProductResponse(Product): id: str]. *)
Module ProductResponse.

Record t := { id : string; product : Product.t }.

(** The model built from the keywords [id=i] and the entries of [d]. *)
Definition of_dict (P : parsers) (i : string) (d : dict) : result t :=
  p ← Product.of_dict P "ProductResponse" d; Ok {| id := i; product := p |}.

End ProductResponse.

Module OrderItem.

Record t := {
  product_id : string;
  title : string;
  price : float;
  color : option string;
  size : option string;
  quantity : Z
}.

(** [OrderItem(product_id=.., title=.., price=.., color=.., size=..,
    quantity=..)]: [title] must be a string or bytes that decode,
    [price >= 0] and [quantity >= 1]. *)
Definition new (product_id : string) (title : value) (price : float)
    (color size : option string) (quantity : Z) : result t :=
  title ← as_str "OrderItem" title;
  _ ← check "OrderItem" (Float.nonneg price && (1 <=? quantity));
  Ok {| product_id := product_id; title := title; price := price;
        color := color; size := size; quantity := quantity |}.

End OrderItem.

Module Order.

Record t := {
  items : list OrderItem.t;
  customer_name : string;
  customer_email : string;
  shipping_address : string;
  subtotal : float;
  shipping_cost : float;
  total : float;
  status : string;
  notes : option string
}.

(** [Order(items=.., .., subtotal=.., shipping_cost=.., total=..,
    status=.., notes=..)]: the three amounts are declared [ge=0]; the
    integer passed as [shipping_cost] is stored as a float. *)
Definition new (items : list OrderItem.t)
    (customer_name customer_email shipping_address : string)
    (subtotal : float) (shipping_cost : Z) (total : float)
    (status : string) (notes : option string) : result t :=
  let shipping_cost := Float.of_Z shipping_cost in
  _ ← check "Order" (Float.nonneg subtotal && Float.nonneg shipping_cost
                      && Float.nonneg total);
  Ok {| items := items; customer_name := customer_name;
        customer_email := customer_email;
        shipping_address := shipping_address;
        subtotal := subtotal; shipping_cost := shipping_cost;
        total := total; status := status; notes := notes |}.

End Order.

(** ** Request bodies ([src/main.py]) *)

Module CartItem.

Record t := {
  product_id : string;
  quantity : Z;
  color : option string;
  size : option string
}.

(** The model declares types and a default for [quantity], and no
    constraint: every well-typed cart line is accepted. *)
Definition validate (c : t) : result t := Ok c.

End CartItem.

Module CheckoutRequest.

Record t := {
  items : list CartItem.t;
  customer_name : string;
  customer_email : string;
  shipping_address : string;
  notes : option string
}.

Fixpoint validate_items (l : list CartItem.t) : result (list CartItem.t) :=
  match l with
  | [] => Ok []
  | c :: r =>
      c' ← CartItem.validate c; r' ← validate_items r; Ok (c' :: r')
  end.

Definition validate (r : t) : result t :=
  its ← validate_items (items r);
  Ok {| items := its; customer_name := customer_name r;
        customer_email := customer_email r;
        shipping_address := shipping_address r; notes := notes r |}.

End CheckoutRequest.

(** ** The store and the handlers' monad *)

(** A stored document: its [_id] and the rest of its entries. *)
Record document := { _id : oid; fields : dict }.

(** The operations a handler sends to the store. *)
Inductive store_op :=
| Find (collection : string) (i : oid)
| FindMany (collection : string) (query : dict)
| InsertOne (collection : string) (i : oid).

(** The database: the two collections in storage order, and the source of
    the identifiers given to new documents ([fresh n] is the identifier of
    the [n]-th insertion). *)
Record database := {
  product : list document;
  order : list (oid * Order.t);
  issued : nat;
  fresh : nat -> oid
}.

(** [db] is [None] when no database is configured (see [test_database]). *)
Record world := {
  db : option database;
  log : list store_op
}.

Definition M (A : Type) : Type := world -> result A * world.

#[global] Instance M_ret : MRet M := fun A a w => (Ok a, w).
#[global] Instance M_bind : MBind M := fun A B f m w =>
  match m w with
  | (Ok a, w') => f a w'
  | (Raise e, w') => (Raise e, w')
  end.

Definition raise {A : Type} (e : exn) : M A := fun w => (Raise e, w).

Definition lift {A : Type} (r : result A) : M A := fun w => (r, w).

(** [try: m except e: h e]. *)
Definition try_except {A : Type} (m : M A) (h : exn -> M A) : M A :=
  fun w =>
    match m w with
    | (Ok a, w') => (Ok a, w')
    | (Raise e, w') => h e w'
    end.

Definition record (op : store_op) (w : world) : world :=
  {| db := db w; log := log w ++ [op] |}.

(** [db[name]]: subscripting [None] raises [TypeError]. *)
Definition db_getitem (name : string) : M string :=
  fun w =>
    match db w with
    | None => (Raise TypeError, w)
    | Some _ => (Ok name, w)
    end.

(** [next(iter(db["product"].find({"_id": i})), None)]: the first stored
    product whose [_id] is [i]. *)
Definition find_product (i : oid) : M (option document) :=
  fun w =>
    match db w with
    | None => (Raise TypeError, w)
    | Some d =>
        (Ok (List.find (fun x => String.eqb (_id x) i) (product d)),
         record (Find "product" i) w)
    end.

Fixpoint value_eqb (a b : value) : bool :=
  match a, b with
  | VNone, VNone => true
  | VBool x, VBool y => Bool.eqb x y
  | VInt x, VInt y => x =? y
  | VFloat x, VFloat y => Float.eqb x y
  | VStr x, VStr y => String.eqb x y
  | VBytes x, VBytes y => String.eqb x y
  | VList x, VList y =>
      (fix go (x y : list value) : bool :=
         match x, y with
         | [], [] => true
         | a :: x', b :: y' => value_eqb a b && go x' y'
         | _, _ => false
         end) x y
  | VOther x, VOther y => String.eqb x y
  | _, _ => false
  end.

(** A document matches a query when it holds an equal value under every
    field the query names. *)
Definition matches (query : dict) (d : document) : bool :=
  forallb (fun kv => match fields d !! kv.1 with
                     | Some v => value_eqb kv.2 v
                     | None => false
                     end)
          (map_to_list query).

(** What [model_dump] makes of a product: one entry per field. *)
Definition opt_str_value (o : option string) : value :=
  match o with
  | None => VNone
  | Some s => VStr s
  end.

Definition opt_int_value (o : option Z) : value :=
  match o with
  | None => VNone
  | Some n => VInt n
  end.

Definition Product_to_dict (p : Product.t) : dict :=
  <["title" := VStr (Product.title p)]>
  (<["description" := opt_str_value (Product.description p)]>
  (<["price" := VFloat (Product.price p)]>
  (<["category" := VStr (Product.category p)]>
  (<["in_stock" := VBool (Product.in_stock p)]>
  (<["images" := VList (VStr <$> Product.images p)]>
  (<["colors" := VList (VStr <$> Product.colors p)]>
  (<["sizes" := VList (VStr <$> Product.sizes p)]>
  (<["featured" := VBool (Product.featured p)]>
  (<["warmth_rating" := opt_int_value (Product.warmth_rating p)]>
  (<["fabric" := opt_str_value (Product.fabric p)]>
  (<["sku" := opt_str_value (Product.sku p)]> ∅))))))))))).

(** Modelled from the spec: [database.create_document] on the catalog, whose
    module is not among the sources.  Catalog Store [insert]: persists a new
    product, to which the store assigns an opaque identifier, and returns
    that identifier; fails with a storage error when the persistence layer
    is not available. *)
Definition create_document_product (p : Product.t) : M string :=
  fun w =>
    match db w with
    | None => (Raise StorageError, w)
    | Some d =>
        let i := fresh d (issued d) in
        (Ok (str_oid i),
         {| db := Some {| product := product d ++
                            [{| _id := i; fields := Product_to_dict p |}];
                          order := order d;
                          issued := S (issued d);
                          fresh := fresh d |};
            log := log w ++ [InsertOne "product" i] |})
    end.

(** Modelled from the spec: [database.create_document] on the orders, whose
    module is not among the sources.  Order Store [insert]: persists a new
    order as one write and returns the identifier the store assigns to it;
    fails with a storage error when the persistence layer is not
    available. *)
Definition create_document_order (o : Order.t) : M string :=
  fun w =>
    match db w with
    | None => (Raise StorageError, w)
    | Some d =>
        let i := fresh d (issued d) in
        (Ok (str_oid i),
         {| db := Some {| product := product d;
                          order := order d ++ [(i, o)];
                          issued := S (issued d);
                          fresh := fresh d |};
            log := log w ++ [InsertOne "order" i] |})
    end.

(** Modelled from the spec: [database.get_documents] on the catalog, whose
    module is not among the sources.  Catalog Store [list]: all products
    matching an optional equality filter, in storage order. *)
Definition get_documents_product (query : dict) : M (list document) :=
  fun w =>
    match db w with
    | None => (Raise StorageError, w)
    | Some d =>
        (Ok (List.filter (matches query) (product d)),
         record (FindMany "product" query) w)
    end.

(** ** Handlers ([src/main.py]) *)

(** [except Exception as e: raise HTTPException(status_code=500,
    detail=str(e))]. *)
Definition internal_error {A : Type} (e : exn) : M A :=
  raise (HTTPException 500 (StrOf e)).

(** The body of the loop of [list_products]: [d["id"] = str(d.pop("_id"))],
    then the response model built from the entries of [d]. *)
Fixpoint list_products_loop (P : parsers) (docs : list document)
    (items : list ProductResponse.t) : M (list ProductResponse.t) :=
  match docs with
  | [] => mret items
  | d :: docs' =>
      r ← lift (ProductResponse.of_dict P (str_oid (_id d)) (fields d));
      list_products_loop P docs' (items ++ [r])
  end.

(** The handler of [GET /products]: the list it returns, or the exception
    it raises. *)
Definition list_products (P : parsers) (featured : option bool)
  : M (list ProductResponse.t) :=
  try_except
    (let query : dict :=
       match featured with
       | Some b => <["featured" := VBool b]> ∅
       | None => ∅
       end in
     docs ← get_documents_product query;
     list_products_loop P docs [])
    internal_error.

Definition create_product (product : Product.t) : M string :=
  try_except (create_document_product product) internal_error.

(** [json.dumps(v, allow_nan=False)] succeeds: no NaN and no infinity in
    [v]. *)
Definition is_finite (f : float) : bool :=
  match f with
  | S754_zero _ | S754_finite _ _ _ => true
  | _ => false
  end.

Fixpoint json_compliant (v : value) : bool :=
  match v with
  | VFloat f => is_finite f
  | VList l => forallb json_compliant l
  | _ => true
  end.

(** A request body that fails its model's validation never reaches the
    handler: the framework answers 422 with a JSON report of the violated
    fields, each with the input it was given.  Rendering the report raises
    [ValueError] when an input holds a NaN or an infinity; nothing catches
    it, and the server answers 500. *)
Definition unprocessable {A : Type} (e : exn) (inputs : list value) : M A :=
  if forallb json_compliant inputs
  then raise (HTTPException 422 (StrOf e))
  else raise ValueError.

(** The status of the answer to a request whose handling raised [e]: the
    status of an [HTTPException], 500 for an exception that escapes. *)
Definition status_of (e : exn) : Z :=
  match e with
  | HTTPException status_code _ => status_code
  | _ => 500
  end.

(** [POST /products]: the body, with its fields at their declared types, is
    validated as a [ProductCreate], which adds nothing to [Product], then
    handed to [create_product]. *)
Definition post_products (body : Product.t) : M string :=
  match Product.validate "ProductCreate" body with
  | Ok product => create_product product
  | Raise e => unprocessable e (Product.rejected_inputs body)
  end.

Section Checkout.

(** Python's [float] on a string: the number it denotes, [None] where
    [float] raises [ValueError]. *)
Variable float_of_str : string -> option float.

(** Python's [float] on bytes: ASCII bytes are read as the string of the
    same characters, and bytes that are not ASCII denote no number. *)
Definition float_of_bytes (b : string) : option float :=
  if string_forallb (byte_in 0 127) b then float_of_str b else None.

(** [float(v)]. *)
Definition float_of_value (v : value) : result float :=
  match v with
  | VFloat f => Ok f
  | VInt n => float_of_int n
  | VBool b => Ok (Float.of_Z (if b then 1 else 0))
  | VStr s =>
      match float_of_str s with
      | Some f => Ok f
      | None => Raise ValueError
      end
  | VBytes b =>
      match float_of_bytes b with
      | Some f => Ok f
      | None => Raise ValueError
      end
  | VNone | VList _ | VOther _ => Raise TypeError
  end.

(** The message of the 404 answer. *)
Definition not_found (product_id : string) : exn :=
  HTTPException 404 (Msg ("Product " +:+ product_id +:+ " not found")).

(** One turn of the loop of [checkout] over [payload.items]; the state is
    the pair of [order_items] and [subtotal]. *)
Definition checkout_line (item : CartItem.t)
    (st : list OrderItem.t * float) : M (list OrderItem.t * float) :=
  let '(order_items, subtotal) := st in
  _ ← db_getitem "product";
  i ← lift (ObjectId (CartItem.product_id item));
  prod ← find_product i;
  match prod with
  | None => raise (not_found (CartItem.product_id item))
  | Some prod =>
      price ← lift (float_of_value
                      (dict_get_default (fields prod) "price" (VInt 0)));
      amount ← lift (float_mul_int price (CartItem.quantity item));
      let subtotal := Float.add subtotal amount in
      order_item ← lift (OrderItem.new (CartItem.product_id item)
                           (dict_get (fields prod) "title") price
                           (CartItem.color item) (CartItem.size item)
                           (CartItem.quantity item));
      mret (order_items ++ [order_item], subtotal)
  end.

Fixpoint checkout_loop (items : list CartItem.t)
    (st : list OrderItem.t * float) : M (list OrderItem.t * float) :=
  match items with
  | [] => mret st
  | item :: items' =>
      st' ← checkout_line item st; checkout_loop items' st'
  end.

(** [0 if subtotal >= 100 else 10]. *)
Definition shipping_cost_of (subtotal : float) : Z :=
  if float_ge_int subtotal 100 then 0 else 10.

(** The [try] block of [checkout]. *)
Definition checkout_body (payload : CheckoutRequest.t) : M string :=
  '(order_items, subtotal) ←
     checkout_loop (CheckoutRequest.items payload) ([], Float.zero);
  let shipping_cost := shipping_cost_of subtotal in
  let total := Float.add subtotal (Float.of_Z shipping_cost) in
  order ← lift (Order.new order_items
                  (CheckoutRequest.customer_name payload)
                  (CheckoutRequest.customer_email payload)
                  (CheckoutRequest.shipping_address payload)
                  subtotal shipping_cost total "pending"
                  (CheckoutRequest.notes payload));
  create_document_order order.

(** [except HTTPException: raise], then
    [except Exception as e: raise HTTPException(500, str(e))]. *)
Definition checkout_handler {A : Type} (e : exn) : M A :=
  match e with
  | HTTPException _ _ => raise e
  | _ => internal_error e
  end.

Definition checkout (payload : CheckoutRequest.t) : M string :=
  try_except (checkout_body payload) checkout_handler.

(** [POST /checkout]: the body is validated as a [CheckoutRequest], then
    handed to [checkout]. *)
Definition post_checkout (body : CheckoutRequest.t) : M string :=
  match CheckoutRequest.validate body with
  | Ok payload => checkout payload
  | Raise e => unprocessable e []
  end.

End Checkout.

(** ** The diagnostic endpoint ([test_database]) *)

Module Health.

(** The database handle as [test_database] uses it: its [name] attribute,
    when it has one, and what [list_collection_names()] does, either the
    names, or the text [str(e)] of the exception it raises. *)
Record handle := {
  name : option string;
  list_collection_names : string + list string
}.

(** The dictionary the endpoint answers with, one field per key. *)
Record response := {
  backend : string;
  database : string;
  database_url : option string;
  database_name : option string;
  connection_status : string;
  collections : list string
}.

(** The truth value of [os.getenv(key)]: set, and not the empty string. *)
Definition getenv_set (environ : gmap string string) (key : string) : bool :=
  match environ !! key with
  | Some v => negb (String.eqb v "")
  | None => false
  end.

(** [s[:n]] for a text kept as its UTF-8 encoding: the bytes of its first
    [n] characters.  A character starts at every byte that is not a
    continuation byte. *)
Fixpoint take_chars (n : nat) (s : string) : string :=
  match s with
  | EmptyString => EmptyString
  | String c r =>
      if byte_in 128 191 c then String c (take_chars n r)
      else
        match n with
        | O => EmptyString
        | S k => String c (take_chars k r)
        end
  end.

(** [s[:50]]. *)
Definition first_50 (s : string) : string := take_chars 50 s.

(** The [try] block: what the handle makes of the initial response. *)
Definition probe (db : option handle) (r : response) : response :=
  match db with
  | Some h =>
      let r :=
        {| backend := backend r;
           database := "✅ Available";
           database_url := Some "✅ Configured";
           database_name := Some (default "✅ Connected" (name h));
           connection_status := "Connected";
           collections := collections r |} in
      match list_collection_names h with
      | inr names =>
          {| backend := backend r;
             database := "✅ Connected & Working";
             database_url := database_url r;
             database_name := database_name r;
             connection_status := connection_status r;
             collections := take 10 names |}
      | inl e =>
          {| backend := backend r;
             database := "⚠️  Connected but Error: " +:+ first_50 e;
             database_url := database_url r;
             database_name := database_name r;
             connection_status := connection_status r;
             collections := collections r |}
      end
  | None =>
      {| backend := backend r;
         database := "⚠️  Available but not initialized";
         database_url := database_url r;
         database_name := database_name r;
         connection_status := connection_status r;
         collections := collections r |}
  end.

Definition set_or_not (b : bool) : string :=
  if b then "✅ Set" else "❌ Not Set".

Definition test_database (db : option handle)
    (environ : gmap string string) : response :=
  let response :=
    {| backend := "✅ Running";
       database := "❌ Not Available";
       database_url := None;
       database_name := None;
       connection_status := "Not Connected";
       collections := [] |} in
  let response := probe db response in
  {| backend := backend response;
     database := database response;
     database_url :=
       Some (set_or_not (getenv_set environ "DATABASE_URL"));
     database_name :=
       Some (set_or_not (getenv_set environ "DATABASE_NAME"));
     connection_status := connection_status response;
     collections := collections response |}.

End Health.

(** ** Reading the outcome of a checkout *)

(** The product a cart line resolves to in database [d]: the first stored
    product whose [_id] is the identifier the line's [product_id] denotes. *)
Definition resolve (d : database) (product_id : string) : option document :=
  match ObjectId product_id with
  | Ok i => List.find (fun x => String.eqb (_id x) i) (product d)
  | Raise _ => None
  end.

Definition resolve_in (w : world) (product_id : string) : option document :=
  d ← db w; resolve d product_id.

(** The amount of an order line, [price * quantity] in floats. *)
Definition amount (it : OrderItem.t) : float :=
  Float.mul (OrderItem.price it) (Float.of_Z (OrderItem.quantity it)).

Definition is_find (op : store_op) : bool :=
  match op with
  | Find _ _ => true
  | _ => false
  end.

(** From world [w] to world [w'] the order [o] was persisted under the
    identifier [s], and nothing else changed in the collections. *)
Definition placed (w w' : world) (s : string) (o : Order.t) : Prop :=
  exists d d',
    db w = Some d /\ db w' = Some d' /\
    product d' = product d /\ order d' = order d ++ [(s, o)].

(** The identifiers of the stored products. *)
Definition product_ids (d : database) : list oid := _id <$> product d.

(** The response [list_products] builds for a stored document. *)
Definition response_of (P : parsers) (x : document)
  : result ProductResponse.t :=
  ProductResponse.of_dict P (str_oid (_id x)) (fields x).

(** A client that creates the products of a list one after the other, and
    collects the identifiers returned. *)
Fixpoint create_all (ps : list Product.t) : M (list string) :=
  match ps with
  | [] => mret []
  | p :: ps' => s ← post_products p; ss ← create_all ps'; mret (s :: ss)
  end.

(** The document stored for a product under an identifier, and the entry
    listed for it. *)
Definition stored_as (s : string) (p : Product.t) : document :=
  {| _id := s; fields := Product_to_dict p |}.

Definition listed_as (s : string) (p : Product.t) : ProductResponse.t :=
  {| ProductResponse.id := s; ProductResponse.product := p |}.

(** The identifiers of the catalog are unique, as the specification has
    them ("assigned an opaque unique identifier by the store upon
    insertion"): the store never hands out an identifier twice, no two
    stored products carry the same identifier, and each carries one the
    store has handed out. *)
Definition unique_ids (d : database) : Prop :=
  (forall m n, fresh d m = fresh d n -> m = n) /\
  NoDup (product_ids d) /\
  Forall (fun x => exists k, (k < issued d)%nat /\ _id x = fresh d k)
         (product d).

(** *** What a stored product says, read off the document

    The title and the price the specification speaks of, stated on the
    stored values themselves and not through the functions the handlers
    read them with. *)

(** The text a stored value holds: a string holds its text, bytes hold the
    text they encode when they are well-formed UTF-8. *)
Inductive text_of : value -> string -> Prop :=
| text_of_str s : text_of (VStr s) s
| text_of_bytes b : utf8_valid b = true -> text_of (VBytes b) b.

(** The number a stored value stands for: a float stands for itself, an
    integer for the nearest float when that is finite, a boolean for 1 or
    0, and text for the number written there, which for bytes must be
    ASCII. *)
Inductive number_of (float_of_str : string -> option float)
  : value -> float -> Prop :=
| number_of_float f : number_of float_of_str (VFloat f) f
| number_of_int n :
    is_finite (Float.of_Z n) = true ->
    number_of float_of_str (VInt n) (Float.of_Z n)
| number_of_bool b :
    number_of float_of_str (VBool b) (Float.of_Z (if b then 1 else 0))
| number_of_str s f :
    float_of_str s = Some f -> number_of float_of_str (VStr s) f
| number_of_bytes b f :
    string_forallb (byte_in 0 127) b = true ->
    float_of_str b = Some f -> number_of float_of_str (VBytes b) f.

(** The title of a stored product. *)
Definition title_of (prod : document) (title : string) : Prop :=
  exists v, fields prod !! "title" = Some v /\ text_of v title.

(** The price of a stored product; a product stored without a price is
    priced at 0. *)
Definition price_of (float_of_str : string -> option float)
    (prod : document) (price : float) : Prop :=
  match fields prod !! "price" with
  | Some v => number_of float_of_str v price
  | None => price = Float.zero
  end.

(** The order line [it] is the snapshot of the cart line [item] in database
    [d]: the identifier, colour, size and quantity are the cart line's; the
    title and the price are those of the product the line resolves to. *)
Definition snapshot (float_of_str : string -> option float) (d : database)
    (item : CartItem.t) (it : OrderItem.t) : Prop :=
  exists prod,
    resolve d (CartItem.product_id item) = Some prod /\
    title_of prod (OrderItem.title it) /\
    price_of float_of_str prod (OrderItem.price it) /\
    OrderItem.product_id it = CartItem.product_id item /\
    OrderItem.color it = CartItem.color item /\
    OrderItem.size it = CartItem.size item /\
    OrderItem.quantity it = CartItem.quantity item.

(** The amount of a cart line at a given price, [price * quantity] in
    floats. *)
Definition line_amount (item : CartItem.t) (price : float) : float :=
  Float.mul price (Float.of_Z (CartItem.quantity item)).

(** The cart line [item] can be processed in database [d]: it resolves to a
    product that has a title and whose price, 0 when absent, is a number
    that is not negative, and its quantity is at least 1 and converts to a
    float. *)
Definition ready (float_of_str : string -> option float) (d : database)
    (item : CartItem.t) : Prop :=
  exists prod title price q,
    resolve d (CartItem.product_id item) = Some prod /\
    title_of prod title /\
    price_of float_of_str prod price /\
    Float.nonneg price = true /\
    1 <= CartItem.quantity item /\
    float_of_int (CartItem.quantity item) = Ok q.

(** The exceptions [checkout] lets through as they are. *)
Definition is_http (e : exn) : bool :=
  match e with
  | HTTPException _ _ => true
  | _ => false
  end.

(** The hexadecimal digits of a string, in lower case, its whitespace
    left out. *)
Definition hex_text (s : string) : string :=
  string_map to_lower (string_filter (fun c => negb (is_space c)) s).

(** The query a turn of the loop sends for a cart line: the identifier its
    [product_id] writes out. *)
Definition lookup_of (item : CartItem.t) : store_op :=
  Find "product" (hex_text (CartItem.product_id item)).

(** The orders a world holds, none without a database. *)
Definition orders_of (w : world) : list (oid * Order.t) :=
  match db w with
  | Some d => order d
  | None => []
  end.

(** The stored products a world holds, none without a database. *)
Definition products_of (w : world) : list document :=
  match db w with
  | Some d => product d
  | None => []
  end.

(** What [checkout] leaves of an exception. *)
Definition answer_of (e : exn) : exn :=
  if is_http e then e else HTTPException 500 (StrOf e).

(** The bounds the schema puts on an order line. *)
Definition item_in_bounds (it : OrderItem.t) : Prop :=
  Float.nonneg (OrderItem.price it) = true /\ 1 <= OrderItem.quantity it.

(** The outcomes of one turn of the loop on cart line [item] in database
    [d], from state [(its, sub)]: what it returns or raises, and what it
    sends to the store. *)
Inductive line_outcome (float_of_str : string -> option float)
    (d : database) (item : CartItem.t)
    (its : list OrderItem.t) (sub : float)
  : result (list OrderItem.t * float) -> list store_op -> Prop :=
| line_bad_id :
    ObjectId (CartItem.product_id item)
      = Raise (InvalidId (CartItem.product_id item)) ->
    line_outcome float_of_str d item its sub
      (Raise (InvalidId (CartItem.product_id item))) []
| line_missing i :
    ObjectId (CartItem.product_id item) = Ok i ->
    resolve d (CartItem.product_id item) = None ->
    line_outcome float_of_str d item its sub
      (Raise (not_found (CartItem.product_id item))) [lookup_of item]
| line_bad_price prod e :
    resolve d (CartItem.product_id item) = Some prod ->
    float_of_value float_of_str
      (dict_get_default (fields prod) "price" (VInt 0)) = Raise e ->
    line_outcome float_of_str d item its sub (Raise e) [lookup_of item]
| line_overflow prod price :
    resolve d (CartItem.product_id item) = Some prod ->
    float_of_value float_of_str
      (dict_get_default (fields prod) "price" (VInt 0)) = Ok price ->
    float_of_int (CartItem.quantity item) = Raise OverflowError ->
    line_outcome float_of_str d item its sub
      (Raise OverflowError) [lookup_of item]
| line_bad_item prod price q :
    resolve d (CartItem.product_id item) = Some prod ->
    float_of_value float_of_str
      (dict_get_default (fields prod) "price" (VInt 0)) = Ok price ->
    float_of_int (CartItem.quantity item) = Ok q ->
    ((forall title, ~ title_of prod title) \/
     Float.nonneg price = false \/ CartItem.quantity item < 1) ->
    line_outcome float_of_str d item its sub
      (Raise (ValidationError "OrderItem")) [lookup_of item]
| line_ok prod price q it :
    resolve d (CartItem.product_id item) = Some prod ->
    float_of_value float_of_str
      (dict_get_default (fields prod) "price" (VInt 0)) = Ok price ->
    float_of_int (CartItem.quantity item) = Ok q ->
    OrderItem.new (CartItem.product_id item)
      (dict_get (fields prod) "title") price
      (CartItem.color item) (CartItem.size item) (CartItem.quantity item)
      = Ok it ->
    line_outcome float_of_str d item its sub
      (Ok (its ++ [it], Float.add sub (Float.mul price q))) [lookup_of item].

(** ** Fixtures: a small catalog and requests over it *)

Module Fixtures.

Definition idA : oid := "aaaaaaaaaaaaaaaaaaaaaaaa".
Definition idB : oid := "bbbbbbbbbbbbbbbbbbbbbbbb".
Definition idC : oid := "cccccccccccccccccccccccc".
Definition idD : oid := "dddddddddddddddddddddddd".
Definition idE : oid := "eeeeeeeeeeeeeeeeeeeeeeee".

Definition entry (title : string) (price : Z) : Product.t :=
  {| Product.title := title; Product.description := None;
     Product.price := Float.of_Z price; Product.category := "leggings";
     Product.in_stock := true; Product.images := [];
     Product.colors := ["black"; "grey"]; Product.sizes := ["S"; "M"];
     Product.featured := false; Product.warmth_rating := Some 4;
     Product.fabric := Some "fleece"; Product.sku := None |}.

(** Product A at 30 and product B at 50, as the catalog stores them. *)
Definition docA : document :=
  {| _id := idA; fields := Product_to_dict (entry "A" 30) |}.
Definition docB : document :=
  {| _id := idB; fields := Product_to_dict (entry "B" 50) |}.

(** A product at 20. *)
Definition docC : document :=
  {| _id := idC; fields := Product_to_dict (entry "C" 20) |}.

(** A stored document with a title and no price. *)
Definition docD : document :=
  {| _id := idD; fields := <["title" := VStr "D"]> ∅ |}.

(** A stored document with a price and no title. *)
Definition docE : document :=
  {| _id := idE; fields := <["price" := VInt 5]> ∅ |}.

(** Identifiers handed out by the store: 24 digits ending in the count. *)
Definition fresh_id (n : nat) : oid :=
  "00000000000000000000000" +:+
  String (ascii_of_nat (48 + n mod 10)) EmptyString.

Definition base (ps : list document) : world :=
  {| db := Some {| product := ps; order := []; issued := 0;
                   fresh := fresh_id |};
     log := [] |}.

Definition shop : world := base [docA; docB; docC].

(** A catalog holding, between A and B, a product without a price. *)
Definition catalog_ab : database :=
  {| product := [docA; docD; docB]; order := []; issued := 0;
     fresh := fresh_id |}.
Definition odd_shop_ab : world := {| db := Some catalog_ab; log := [] |}.
Definition odd_shop : world := base [docA; docD; docE].
Definition no_database : world := {| db := None; log := [] |}.

Definition line (product_id : string) (quantity : Z) : CartItem.t :=
  {| CartItem.product_id := product_id; CartItem.quantity := quantity;
     CartItem.color := Some "black"; CartItem.size := None |}.

Definition request (lines : list CartItem.t) : CheckoutRequest.t :=
  {| CheckoutRequest.items := lines;
     CheckoutRequest.customer_name := "Ada";
     CheckoutRequest.customer_email := "ada@example.org";
     CheckoutRequest.shipping_address := "1 Main Street";
     CheckoutRequest.notes := None |}.

(** A reading of strings as floats that accepts none; the fixtures hold
    no price stored as a string. *)
Definition no_str : string -> option float := fun _ => None.

(** An identifier no stored product has. *)
Definition missing : string := "ffffffffffffffffffffffff".

(** Two of A and one of B: 110.  One of C: 20. *)
Definition cart_110 : CheckoutRequest.t :=
  request [line idA 2; line idB 1].
Definition cart_20 : CheckoutRequest.t := request [line idC 1].

(** The identifier the store hands out first. *)
Definition first_id : string := "000000000000000000000000".

(** The order built for a cart of the fixtures. *)
Definition order_of (items : list OrderItem.t) (subtotal shipping_cost
    total : Z) : Order.t :=
  {| Order.items := items; Order.customer_name := "Ada";
     Order.customer_email := "ada@example.org";
     Order.shipping_address := "1 Main Street";
     Order.subtotal := Float.of_Z subtotal;
     Order.shipping_cost := Float.of_Z shipping_cost;
     Order.total := Float.of_Z total;
     Order.status := "pending"; Order.notes := None |}.

Definition item_of (product_id title : string) (price quantity : Z)
  : OrderItem.t :=
  {| OrderItem.product_id := product_id; OrderItem.title := title;
     OrderItem.price := Float.of_Z price; OrderItem.color := Some "black";
     OrderItem.size := None; OrderItem.quantity := quantity |}.

(** The orders a world holds, [None] without a database. *)
Definition orders (w : world) : option (list (oid * Order.t)) :=
  order <$> db w.

(** The world a handler leaves. *)
Definition after {A : Type} (r : result A * world) : world := r.2.

(** Identifiers that never repeat: the count in decimal after the letter
    [a], filled up with zeros on the left to 24 digits. *)
Fixpoint zeros (k : nat) : string :=
  match k with
  | O => EmptyString
  | S k' => String "0" (zeros k')
  end.

Definition numbered (n : nat) : oid :=
  let digits := String "a" (pretty n) in
  zeros (24 - String.length digits) +:+ digits.

(** A store with nothing in it yet, and the one that holds A and B after
    they were created through [post_products]. *)
Definition empty_store : world :=
  {| db := Some {| product := []; order := []; issued := 0;
                   fresh := numbered |};
     log := [] |}.

Definition store_a : world := after (post_products (entry "A" 30) empty_store).
Definition store_ab : world := after (post_products (entry "B" 50) store_a).

(** A store whose second document was edited into one without a title,
    by the database viewer the schemas are exposed for. *)
Definition store_odd : world :=
  {| db := Some {| product := [{| _id := numbered 0;
                                  fields := Product_to_dict (entry "A" 30) |};
                               {| _id := numbered 1;
                                  fields := <["price" := VInt 5]> ∅ |};
                               {| _id := numbered 2;
                                  fields := Product_to_dict (entry "B" 50) |}];
                   order := []; issued := 3; fresh := numbered |};
     log := [] |}.

(** Parsers that read no text as a number or a boolean; the fixtures hold
    no number and no boolean stored as text. *)
Definition no_text : parsers :=
  {| str_as_float := fun _ => None; str_as_int := fun _ => None;
     str_as_bool := fun _ => None |}.

End Fixtures.

(** Further stored documents and carts, for the instances of the further
    properties. *)
Module MoreFixtures.

Import Fixtures.

Definition idN : oid := "111111111111111111111111".
Definition idM : oid := "222222222222222222222222".

(** A stored document whose price is null. *)
Definition docN : document :=
  {| _id := idN;
     fields := <["title" := VStr "N"]> (<["price" := VNone]> ∅) |}.

(** A stored document whose price is negative. *)
Definition docM : document :=
  {| _id := idM;
     fields := <["title" := VStr "M"]> (<["price" := VInt (-5)]> ∅) |}.

(** A stored document whose title is bytes, and one whose price is. *)
Definition idT : oid := "333333333333333333333333".
Definition idP : oid := "444444444444444444444444".

Definition docT : document :=
  {| _id := idT;
     fields := <["title" := VBytes "T"]> (<["price" := VInt 7]> ∅) |}.

Definition docP : document :=
  {| _id := idP;
     fields := <["title" := VStr "P"]> (<["price" := VBytes "12.5"]> ∅) |}.

Definition bytes_world : world := base [docT; docP].

(** A stored document whose price is the text of a number. *)
Definition idS : oid := "555555555555555555555555".

Definition docS : document :=
  {| _id := idS;
     fields := <["title" := VStr "S"]> (<["price" := VStr "12.5"]> ∅) |}.

(** The float 12.5, and a reading of strings as floats that knows "12.5"
    only. *)
Definition twelve_and_a_half : float :=
  binary_normalize Float.prec Float.emax 25 (-1) false.

Definition reads_12_5 (s : string) : option float :=
  if String.eqb s "12.5" then Some twelve_and_a_half else None.

(** Twenty-two digits and two spaces: 24 characters that [bytes.fromhex]
    reads as eleven bytes. *)
Definition spaced : string := "aaaaaaaaaaaaaaaaaaaaaa  ".

(** Parsers that read "12.5" as a float and no other text. *)
Definition reads_price : parsers :=
  {| str_as_float := reads_12_5; str_as_int := fun _ => None;
     str_as_bool := fun _ => None |}.

(** A product body at a given price. *)
Definition priced (price : float) : Product.t :=
  {| Product.title := "X"; Product.description := None;
     Product.price := price; Product.category := "leggings";
     Product.in_stock := true; Product.images := [];
     Product.colors := []; Product.sizes := [];
     Product.featured := false; Product.warmth_rating := Some 9;
     Product.fabric := None; Product.sku := None |}.

(** The database of [shop], and one with the odd documents after A. *)
Definition catalog : database :=
  {| product := [docA; docB; docC]; order := []; issued := 0;
     fresh := fresh_id |}.

Definition odd_catalog : database :=
  {| product := [docA; docD; docE; docN; docM]; order := []; issued := 0;
     fresh := fresh_id |}.

Definition odd_world : world := {| db := Some odd_catalog; log := [] |}.

(** A cart line as [line], in another colour and size. *)
Definition line' (product_id : string) (quantity : Z) : CartItem.t :=
  {| CartItem.product_id := product_id; CartItem.quantity := quantity;
     CartItem.color := Some "pink"; CartItem.size := Some "XXL" |}.

End MoreFixtures.

(** * Properties *)

(** ** The monad *)

Lemma bind_Ok_inv {A B : Type} (m : M A) (f : A -> M B) w b w' :
  (m ≫= f) w = (Ok b, w') ->
  exists a w1, m w = (Ok a, w1) /\ f a w1 = (Ok b, w').
Proof.
  unfold mbind, M_bind. destruct (m w) as [[a|e] w1]; intros H.
  - exists a, w1. split; [reflexivity | exact H].
  - discriminate H.
Qed.

Lemma bind_Ok {A B : Type} (m : M A) (f : A -> M B) w a w1 :
  m w = (Ok a, w1) -> (m ≫= f) w = f a w1.
Proof. unfold mbind, M_bind. intros ->. reflexivity. Qed.

Lemma bind_Raise {A B : Type} (m : M A) (f : A -> M B) w e w1 :
  m w = (Raise e, w1) -> (m ≫= f) w = (Raise e, w1).
Proof. unfold mbind, M_bind. intros ->. reflexivity. Qed.

Lemma lift_Ok_inv {A : Type} (r : result A) w a w' :
  lift r w = (Ok a, w') -> r = Ok a /\ w' = w.
Proof. unfold lift. intros H. injection H as -> ->. split; reflexivity. Qed.

Lemma check_Ok_inv model b u : check model b = Ok u -> b = true.
Proof. destruct b; [reflexivity | discriminate]. Qed.

(** ** Building the models *)

(** A string field takes exactly the values that hold a text. *)
Lemma as_str_text_of model v s : as_str model v = Ok s <-> text_of v s.
Proof.
  unfold as_str, from_opt.
  destruct v as [|b|n|f|s0|b|l|r]; simpl;
    try (split; intros H; [discriminate H | inversion H]).
  - split; intros H; [injection H as <-; constructor |].
    inversion H. reflexivity.
  - destruct (utf8_valid b) eqn:Hb; split; intros H;
      first [discriminate H | injection H as <-; constructor; exact Hb
            | inversion H; congruence].
Qed.

Lemma title_of_dict_get prod title :
  text_of (dict_get (fields prod) "title") title <-> title_of prod title.
Proof.
  unfold title_of, dict_get.
  destruct (fields prod !! "title") as [v|]; simpl; split.
  - intros H. exists v. split; [reflexivity | exact H].
  - intros (v' & Hv & H). injection Hv as <-. exact H.
  - intros H. inversion H.
  - intros (v' & Hv & _). discriminate Hv.
Qed.

Lemma title_of_as_str model prod title :
  as_str model (dict_get (fields prod) "title") = Ok title <->
  title_of prod title.
Proof. rewrite as_str_text_of. apply title_of_dict_get. Qed.

Lemma title_of_str prod title :
  fields prod !! "title" = Some (VStr title) -> title_of prod title.
Proof. intros H. exists (VStr title). split; [exact H | constructor]. Qed.

Lemma OrderItem_new_inv product_id title price color size quantity it :
  OrderItem.new product_id title price color size quantity = Ok it ->
  text_of title (OrderItem.title it) /\
  OrderItem.product_id it = product_id /\
  OrderItem.price it = price /\
  OrderItem.color it = color /\
  OrderItem.size it = size /\
  OrderItem.quantity it = quantity /\
  Float.nonneg price = true /\ 1 <= quantity.
Proof.
  unfold OrderItem.new.
  destruct (as_str "OrderItem" title) as [t|] eqn:Ht; simpl; [| discriminate].
  apply as_str_text_of in Ht.
  destruct (Float.nonneg price) eqn:Hp; simpl; [| discriminate].
  destruct (1 <=? quantity) eqn:Hq; simpl; [| discriminate].
  intros H. injection H as <-. simpl.
  repeat split; try reflexivity; try assumption. apply Z.leb_le, Hq.
Qed.

Lemma Order_new_inv items name email address subtotal shipping_cost total
    status notes o :
  Order.new items name email address subtotal shipping_cost total status
    notes = Ok o ->
  o = {| Order.items := items; Order.customer_name := name;
         Order.customer_email := email; Order.shipping_address := address;
         Order.subtotal := subtotal;
         Order.shipping_cost := Float.of_Z shipping_cost;
         Order.total := total; Order.status := status;
         Order.notes := notes |} /\
  Float.nonneg subtotal = true /\ Float.nonneg total = true.
Proof.
  unfold Order.new.
  destruct (Float.nonneg subtotal) eqn:Hs; simpl; [| discriminate].
  destruct (Float.nonneg (Float.of_Z shipping_cost)); simpl; [| discriminate].
  destruct (Float.nonneg total) eqn:Ht; simpl; [| discriminate].
  intros H. injection H as <-. repeat split; reflexivity.
Qed.

Lemma float_of_int_Ok n f : float_of_int n = Ok f -> f = Float.of_Z n.
Proof.
  unfold float_of_int. destruct (Float.of_Z n); intros H;
    first [discriminate H | injection H as <-; reflexivity].
Qed.

(** ** The threshold *)

Lemma shipping_cost_of_cases subtotal :
  (float_ge_int subtotal 100 = true /\ shipping_cost_of subtotal = 0) \/
  (float_ge_int subtotal 100 = false /\ shipping_cost_of subtotal = 10).
Proof.
  unfold shipping_cost_of. destruct (float_ge_int subtotal 100); auto.
Qed.

Lemma of_Z_0_neq_10 : Float.of_Z 10 <> Float.of_Z 0.
Proof. vm_compute. discriminate. Qed.

(** ** Rounding keeps the sign *)

Lemma shr_1_nonneg mrs : 0 <= shr_m mrs -> 0 <= shr_m (shr_1 mrs).
Proof.
  destruct mrs as [m r s]. destruct m as [|[p|p|]|p]; simpl; lia.
Qed.

Lemma iter_pos_shr_1_nonneg p mrs :
  0 <= shr_m mrs -> 0 <= shr_m (SpecFloat.iter_pos shr_1 p mrs).
Proof.
  revert mrs. induction p as [p IH|p IH|]; intros mrs H; simpl.
  - apply IH, IH, shr_1_nonneg, H.
  - apply IH, IH, H.
  - apply shr_1_nonneg, H.
Qed.

Lemma shr_fexp_nonneg m e l :
  0 <= m -> 0 <= shr_m (shr_fexp Float.prec Float.emax m e l).1.
Proof.
  intros H. unfold shr_fexp, shr.
  assert (Hm : 0 <= shr_m (shr_record_of_loc m l)).
  { destruct l as [|[]]; exact H. }
  destruct (_ - e) as [|p|p]; simpl; try exact Hm.
  apply iter_pos_shr_1_nonneg, Hm.
Qed.

Lemma round_nearest_even_nonneg m l :
  0 <= m -> 0 <= round_nearest_even m l.
Proof.
  intros H. destruct l as [|[]]; simpl; try destruct (Z.even m); lia.
Qed.

(** Rounding a non-negative mantissa gives a zero, a finite float or an
    infinity of the sign asked for, never a NaN. *)
Lemma binary_round_aux_sign sx mx ex lx :
  0 <= mx ->
  match binary_round_aux Float.prec Float.emax sx mx ex lx with
  | S754_zero s | S754_infinity s | S754_finite s _ _ => s = sx
  | S754_nan => False
  end.
Proof.
  intros H. unfold binary_round_aux.
  pose proof (shr_fexp_nonneg mx ex lx H) as H1.
  destruct (shr_fexp Float.prec Float.emax mx ex lx) as [mrs' e'].
  simpl in H1.
  pose proof (shr_fexp_nonneg _ e' loc_Exact
                (round_nearest_even_nonneg _ (loc_of_shr_record mrs') H1))
    as H2.
  destruct (shr_fexp Float.prec Float.emax _ e' loc_Exact) as [mrs'' e''].
  simpl in H2.
  destruct (shr_m mrs'') as [|m|m]; [reflexivity | | lia].
  destruct (e'' <=? _); reflexivity.
Qed.

Lemma shr_1_div2 mrs : 0 <= shr_m mrs -> shr_m (shr_1 mrs) = shr_m mrs / 2.
Proof.
  destruct mrs as [m r s]. destruct m as [|[p|p|]|p]; simpl shr_m; intros H;
    try lia; try reflexivity.
  - apply Z.div_unique with 1; lia.
  - apply Z.div_unique with 0; lia.
Qed.

(** Shifting [k] times divides the mantissa by [2 ^ k]. *)
Lemma iter_pos_shr_1_div k mrs :
  0 <= shr_m mrs ->
  shr_m (SpecFloat.iter_pos shr_1 k mrs) = shr_m mrs / 2 ^ Zpos k.
Proof.
  revert mrs.
  induction k as [k IH|k IH|]; intros mrs H; simpl SpecFloat.iter_pos.
  - assert (H1 : 0 <= shr_m (shr_1 mrs)) by (apply shr_1_nonneg, H).
    assert (H2 : 0 <= shr_m (SpecFloat.iter_pos shr_1 k (shr_1 mrs)))
      by (apply iter_pos_shr_1_nonneg, H1).
    rewrite (IH _ H2), (IH _ H1), (shr_1_div2 _ H).
    rewrite !Z.div_div by (try apply Z.pow_pos_nonneg; lia).
    f_equal. change 2 with (2 ^ 1) at 1.
    rewrite <- !Z.pow_add_r by lia. f_equal. lia.
  - assert (H2 : 0 <= shr_m (SpecFloat.iter_pos shr_1 k mrs))
      by (apply iter_pos_shr_1_nonneg, H).
    rewrite (IH _ H2), (IH _ H).
    rewrite !Z.div_div by (try apply Z.pow_pos_nonneg; lia).
    f_equal. rewrite <- Z.pow_add_r by lia. f_equal. lia.
  - rewrite (shr_1_div2 _ H). reflexivity.
Qed.

Lemma digits2_pos_lower m : 2 ^ (Zpos (digits2_pos m) - 1) <= Zpos m.
Proof.
  induction m as [m IH|m IH|]; simpl digits2_pos.
  - rewrite Pos2Z.inj_succ.
    replace (Z.succ (Z.pos (digits2_pos m)) - 1)
      with (1 + (Z.pos (digits2_pos m) - 1)) by lia.
    rewrite Z.pow_add_r by lia. lia.
  - rewrite Pos2Z.inj_succ.
    replace (Z.succ (Z.pos (digits2_pos m)) - 1)
      with (1 + (Z.pos (digits2_pos m) - 1)) by lia.
    rewrite Z.pow_add_r by lia. lia.
  - simpl. lia.
Qed.

(** Above the smallest exponent, the shift to the target exponent keeps a
    positive mantissa positive: nothing underflows to zero. *)
Lemma shr_fexp_pos m e l :
  0 < m -> emin Float.prec Float.emax <= e ->
  0 < shr_m (shr_fexp Float.prec Float.emax m e l).1 /\
  emin Float.prec Float.emax <= (shr_fexp Float.prec Float.emax m e l).2.
Proof.
  intros Hm He. unfold shr_fexp, shr.
  assert (Hrec : shr_m (shr_record_of_loc m l) = m)
    by (destruct l as [|[]]; reflexivity).
  destruct m as [|p|p]; try lia. simpl Zdigits2.
  destruct (fexp Float.prec Float.emax (Z.pos (digits2_pos p) + e) - e)
    as [|k|k] eqn:Hn; simpl fst; simpl snd;
    try (split; [rewrite Hrec; lia | exact He]).
  split; [| lia].
  rewrite iter_pos_shr_1_div by (rewrite Hrec; lia). rewrite Hrec.
  unfold fexp in Hn.
  assert (Hk : Z.pos k <= Z.pos (digits2_pos p) - 1).
  { unfold emin, Float.prec, Float.emax in *. lia. }
  pose proof (digits2_pos_lower p) as Hlow.
  assert (2 ^ Z.pos k <= 2 ^ (Z.pos (digits2_pos p) - 1))
    by (apply Z.pow_le_mono_r; lia).
  apply Z.div_str_pos. split; [apply Z.pow_pos_nonneg; lia | lia].
Qed.

Lemma round_nearest_even_ge m l : m <= round_nearest_even m l.
Proof. destruct l as [|[]]; simpl; try destruct (Z.even m); lia. Qed.

(** Rounding a positive mantissa above the smallest exponent gives a finite
    float or an infinity of the sign asked for. *)
Lemma binary_round_aux_pos sx mx ex lx :
  0 < mx -> emin Float.prec Float.emax <= ex ->
  match binary_round_aux Float.prec Float.emax sx mx ex lx with
  | S754_infinity s | S754_finite s _ _ => s = sx
  | _ => False
  end.
Proof.
  intros Hm He. unfold binary_round_aux.
  pose proof (shr_fexp_pos mx ex lx Hm He) as [H1 He1].
  destruct (shr_fexp Float.prec Float.emax mx ex lx) as [mrs' e'].
  simpl in H1, He1.
  pose proof (round_nearest_even_ge (shr_m mrs') (loc_of_shr_record mrs'))
    as Hge.
  assert (Hr : 0 < round_nearest_even (shr_m mrs') (loc_of_shr_record mrs'))
    by lia.
  pose proof (shr_fexp_pos _ e' loc_Exact Hr He1) as [H2 _].
  destruct (shr_fexp Float.prec Float.emax _ e' loc_Exact) as [mrs'' e''].
  simpl in H2.
  destruct (shr_m mrs'') as [|m|m]; try lia.
  destruct (e'' <=? _); reflexivity.
Qed.

(** The float of a positive integer is a positive finite float or the
    positive infinity. *)
Lemma of_Z_pos n :
  0 < n ->
  match Float.of_Z n with
  | S754_infinity s | S754_finite s _ _ => s = false
  | _ => False
  end.
Proof.
  intros H. destruct n as [|p|p]; try lia.
  unfold Float.of_Z, binary_normalize, binary_round.
  destruct (shl_align p 0 _) as [mz ez] eqn:Halign.
  apply binary_round_aux_pos; [lia |].
  unfold shl_align in Halign.
  destruct (_ - 0) as [|k|k]; injection Halign as <- <-;
    first [apply Z.le_max_r | unfold emin, Float.prec, Float.emax; lia].
Qed.

(** What [float] makes of a quantity of at least 1. *)
Lemma float_of_quantity n q :
  0 < n -> float_of_int n = Ok q -> exists m e, q = S754_finite false m e.
Proof.
  intros Hn Hq. pose proof (of_Z_pos n Hn) as Hsign.
  unfold float_of_int in Hq.
  destruct (Float.of_Z n) as [s|s| |s m e]; try discriminate; try contradiction.
  injection Hq as <-. subst s. eauto.
Qed.

(** Zero times the float of a positive quantity is zero. *)
Lemma zero_mul_quantity n q :
  0 < n -> float_of_int n = Ok q -> Float.mul Float.zero q = Float.zero.
Proof.
  intros Hn Hq. destruct (float_of_quantity n q Hn Hq) as (m & e & ->).
  reflexivity.
Qed.

(** ** Amounts are never negative *)

Lemma nonneg_inv x :
  Float.nonneg x = true ->
  (exists s, x = S754_zero s) \/ x = S754_infinity false \/
  exists m e, x = S754_finite false m e.
Proof.
  destruct x as [s|[]| |[] m e]; intros H; try discriminate H; eauto.
Qed.

Lemma binary_round_aux_nonneg mx ex lx :
  0 <= mx ->
  Float.nonneg (binary_round_aux Float.prec Float.emax false mx ex lx) = true.
Proof.
  intros H. pose proof (binary_round_aux_sign false mx ex lx H) as Hs.
  destruct (binary_round_aux _ _ _ _ _ _) as [s|s| |s m e];
    try contradiction; subst s; reflexivity.
Qed.

Lemma nonneg_add x y :
  Float.nonneg x = true -> Float.nonneg y = true ->
  Float.nonneg (Float.add x y) = true.
Proof.
  intros Hx Hy.
  destruct (nonneg_inv x Hx) as [[sx ->] | [-> | (mx & ex & ->)]];
    destruct (nonneg_inv y Hy) as [[sy ->] | [-> | (my & ey & ->)]];
    try reflexivity.
  - destruct sx, sy; reflexivity.
  - unfold Float.add, SFadd, binary_normalize, binary_round. cbn [cond_Zopp].
    destruct (shl_align mx ex _) as [mx' ex'].
    destruct (shl_align my ey _) as [my' ey']. cbn [fst].
    change (Z.pos mx' + Z.pos my') with (Z.pos (mx' + my')%positive).
    cbv beta iota.
    destruct (shl_align (mx' + my')%positive _ _) as [mz ez].
    apply binary_round_aux_nonneg. lia.
Qed.

Lemma nonneg_mul_finite x m e :
  Float.nonneg x = true ->
  Float.nonneg (Float.mul x (S754_finite false m e)) = true.
Proof.
  intros Hx.
  destruct (nonneg_inv x Hx) as [[sx ->] | [-> | (mx & ex & ->)]].
  - destruct sx; reflexivity.
  - reflexivity.
  - unfold Float.mul, SFmul. cbn [xorb].
    apply binary_round_aux_nonneg. lia.
Qed.

Lemma nonneg_fold_add l acc :
  Float.nonneg acc = true ->
  Forall (fun x => Float.nonneg x = true) l ->
  Float.nonneg (fold_left Float.add l acc) = true.
Proof.
  intros Hacc Hl. revert acc Hacc.
  induction Hl as [|x l Hx _ IH]; intros acc Hacc; simpl.
  - exact Hacc.
  - apply IH, nonneg_add; assumption.
Qed.

(** Adding [0.0] changes no float but [-0.0], which it turns into its
    equal [0.0]. *)
Lemma add_zero_r x : x <> S754_zero true -> Float.add x Float.zero = x.
Proof.
  destruct x as [[]|[]| |s m e]; intros H; try reflexivity. congruence.
Qed.

(** ** Reading a price *)

Lemma of_Z_not_nan n : Float.of_Z n <> S754_nan.
Proof.
  destruct n as [|p|p]; [discriminate | |];
    unfold Float.of_Z, binary_normalize, binary_round;
    destruct (shl_align p 0 _) as [mz ez].
  - pose proof (binary_round_aux_sign false (Z.pos mz) ez loc_Exact) as H.
    destruct (binary_round_aux _ _ _ _ _ _); try discriminate.
    intros _. apply H. lia.
  - pose proof (binary_round_aux_sign true (Z.pos mz) ez loc_Exact) as H.
    destruct (binary_round_aux _ _ _ _ _ _); try discriminate.
    intros _. apply H. lia.
Qed.

(** [float] of an integer returns exactly when the nearest float is
    finite. *)
Lemma float_of_int_finite n f :
  float_of_int n = Ok f <-> f = Float.of_Z n /\ is_finite (Float.of_Z n) = true.
Proof.
  unfold float_of_int. pose proof (of_Z_not_nan n) as Hnan.
  destruct (Float.of_Z n) as [s|s| |s m e]; simpl; split;
    first [intros H; injection H as <-; split; reflexivity
          | intros [-> _]; reflexivity
          | intros H; discriminate H
          | intros [_ H]; discriminate H
          | congruence].
Qed.

Section Prices.

Variable float_of_str : string -> option float.

(** [float] returns for exactly the values that stand for a number, and
    returns that number. *)
Lemma float_of_value_number_of v p :
  float_of_value float_of_str v = Ok p <-> number_of float_of_str v p.
Proof.
  destruct v as [|b|n|f|s|b|l|r]; simpl;
    try (split; intros H; [discriminate H | inversion H]).
  - split; intros H; [injection H as <-; constructor |].
    inversion H. reflexivity.
  - rewrite float_of_int_finite. split.
    + intros [-> H]. constructor. exact H.
    + intros H. inversion H. split; [reflexivity | assumption].
  - split; intros H; [injection H as <-; constructor |].
    inversion H. reflexivity.
  - destruct (float_of_str s) as [f|] eqn:Hs; split; intros H;
      first [discriminate H | injection H as <-; constructor; exact Hs
            | inversion H; congruence].
  - unfold float_of_bytes.
    destruct (string_forallb (byte_in 0 127) b) eqn:Hascii;
      [destruct (float_of_str b) as [f|] eqn:Hb |]; split; intros H;
      first [discriminate H
            | injection H as <-; constructor; assumption
            | inversion H; congruence].
Qed.

(** What [float(prod.get("price", 0))] returns is the price of the
    product. *)
Lemma price_of_float_of_value prod p :
  float_of_value float_of_str
    (dict_get_default (fields prod) "price" (VInt 0)) = Ok p <->
  price_of float_of_str prod p.
Proof.
  unfold price_of, dict_get_default.
  destruct (fields prod !! "price") as [v|]; simpl.
  - apply float_of_value_number_of.
  - split; intros H; [injection H as <-; reflexivity | rewrite H; reflexivity].
Qed.

(** A product has at most one title and one price. *)
Lemma text_of_unique v s s' : text_of v s -> text_of v s' -> s = s'.
Proof. intros H H'. inversion H; subst; inversion H'; reflexivity. Qed.

Lemma title_of_unique prod t t' : title_of prod t -> title_of prod t' -> t = t'.
Proof.
  intros (v & Hv & H) (v' & Hv' & H').
  assert (v' = v) by congruence. subst v'. exact (text_of_unique _ _ _ H H').
Qed.

Lemma price_of_unique prod p p' :
  price_of float_of_str prod p -> price_of float_of_str prod p' -> p = p'.
Proof.
  intros H H'. apply price_of_float_of_value in H, H'. congruence.
Qed.

(** A line is ready as soon as the functions the loop reads its product
    with return. *)
Lemma ready_of_reads d item prod title price q :
  resolve d (CartItem.product_id item) = Some prod ->
  as_str "OrderItem" (dict_get (fields prod) "title") = Ok title ->
  float_of_value float_of_str
    (dict_get_default (fields prod) "price" (VInt 0)) = Ok price ->
  Float.nonneg price = true ->
  1 <= CartItem.quantity item ->
  float_of_int (CartItem.quantity item) = Ok q ->
  ready float_of_str d item.
Proof.
  intros Hres Htitle Hprice Hnonneg Hqty Hq.
  exists prod, title, price, q.
  split; [exact Hres |].
  split; [apply (title_of_as_str "OrderItem"), Htitle |].
  split; [apply price_of_float_of_value, Hprice |].
  repeat split; assumption.
Qed.

End Prices.

(** ** The loop of [checkout] *)

Section CheckoutFacts.

Variable float_of_str : string -> option float.

(** Whatever a turn of the loop returns, it leaves the database as it was
    and sends the store at most one query. *)
Lemma checkout_line_frame item st w r w' :
  checkout_line float_of_str item st w = (r, w') ->
  db w' = db w /\
  exists ops, log w' = log w ++ ops /\ forallb is_find ops = true.
Proof.
  destruct st as [its sub].
  unfold checkout_line, mbind, M_bind, db_getitem,
    lift, find_product, raise, mret, M_ret.
  destruct (db w) as [d|] eqn:Hd.
  2:{ intros H. injection H as <- <-. split; [exact Hd |].
      exists []. rewrite app_nil_r. split; reflexivity. }
  destruct (ObjectId (CartItem.product_id item)) as [i|e].
  2:{ intros H. injection H as <- <-. split; [exact Hd |].
      exists []. rewrite app_nil_r. split; reflexivity. }
  rewrite Hd.
  assert (Hrec : forall (x : result (list OrderItem.t * float)),
             (x, record (Find "product" i) w) = (r, w') ->
             db w' = Some d /\
             exists ops, log w' = log w ++ ops /\ forallb is_find ops = true).
  { intros x H. injection H as <- <-. split; [exact Hd |].
    exists [Find "product" i]. split; reflexivity. }
  destruct (List.find _ (product d)) as [prod|]; [| apply Hrec].
  destruct (float_of_value _ _); [| apply Hrec].
  destruct (float_mul_int _ _); [| apply Hrec].
  destruct (OrderItem.new _ _ _ _ _ _); apply Hrec.
Qed.

Lemma checkout_loop_frame items st w r w' :
  checkout_loop float_of_str items st w = (r, w') ->
  db w' = db w /\
  exists ops, log w' = log w ++ ops /\ forallb is_find ops = true.
Proof.
  revert st w. induction items as [|item items IH]; intros st w.
  - intros H. injection H as <- <-. split; [reflexivity |].
    exists []. rewrite app_nil_r. split; reflexivity.
  - simpl. unfold mbind, M_bind.
    destruct (checkout_line float_of_str item st w)
      as [[st1|e] w1] eqn:Hline;
      apply checkout_line_frame in Hline as (Hdb & ops & Hlog & Hops).
    + intros H. apply IH in H as (Hdb' & ops' & Hlog' & Hops').
      split; [congruence |].
      exists (ops ++ ops'). rewrite Hlog', Hlog, app_assoc.
      split; [reflexivity |]. rewrite forallb_app, Hops, Hops'. reflexivity.
    + intros H. injection H as <- <-. split; [exact Hdb |].
      exists ops. split; assumption.
Qed.

(** A turn that succeeds appended the snapshot of its line and added the
    line's amount to the subtotal. *)
Lemma checkout_line_Ok item its sub w its' sub' w' d :
  db w = Some d ->
  checkout_line float_of_str item (its, sub) w = (Ok (its', sub'), w') ->
  exists it,
    snapshot float_of_str d item it /\
    Float.nonneg (amount it) = true /\
    its' = its ++ [it] /\ sub' = Float.add sub (amount it).
Proof.
  intros Hd.
  unfold checkout_line, mbind, M_bind, db_getitem,
    lift, find_product, raise, mret, M_ret, snapshot, resolve.
  rewrite Hd. cbn beta iota.
  destruct (ObjectId (CartItem.product_id item)) as [i|e];
    cbn beta iota; [| discriminate].
  rewrite Hd.
  destruct (List.find _ (product d)) as [prod|];
    cbn beta iota; [| discriminate].
  destruct (float_of_value _ _) as [price|] eqn:Hprice;
    cbn beta iota; [| discriminate].
  unfold float_mul_int, mbind, result_bind.
  destruct (float_of_int _) as [q|] eqn:Hq;
    cbn beta iota; [| discriminate].
  destruct (OrderItem.new _ _ _ _ _ _) as [it|] eqn:Hit;
    cbn beta iota; [| discriminate].
  intros H. injection H as <- <- <-.
  apply OrderItem_new_inv in Hit
    as (Htitle & Hid & Hp & Hc & Hs & Hqty & Hnonneg & Hge).
  assert (Hpos : 0 < CartItem.quantity item) by lia.
  assert (Hamount : Float.nonneg (Float.mul price q) = true).
  { destruct (float_of_quantity _ q Hpos Hq) as (m & e & ->).
    apply nonneg_mul_finite, Hnonneg. }
  apply float_of_int_Ok in Hq.
  apply title_of_dict_get in Htitle.
  apply price_of_float_of_value in Hprice.
  exists it. unfold amount. rewrite Hp, Hqty, <- Hq.
  repeat split; try assumption; try reflexivity.
  exists prod. repeat split; try assumption; try reflexivity.
Qed.

Lemma checkout_loop_cons item items st :
  checkout_loop float_of_str (item :: items) st =
  checkout_line float_of_str item st ≫= checkout_loop float_of_str items.
Proof. reflexivity. Qed.

(** The loop run to its end: one snapshot per cart line, in order, and the
    subtotal grown by the amounts from the left. *)
Lemma checkout_loop_Ok items its sub w its' sub' w' d :
  db w = Some d ->
  checkout_loop float_of_str items (its, sub) w = (Ok (its', sub'), w') ->
  exists new,
    Forall2 (snapshot float_of_str d) items new /\
    Forall (fun it => Float.nonneg (amount it) = true) new /\
    its' = its ++ new /\
    sub' = fold_left Float.add (amount <$> new) sub.
Proof.
  revert its sub w. induction items as [|item items IH]; intros its sub w Hd.
  - intros H. injection H as <- <- <-. exists [].
    rewrite app_nil_r. repeat split; constructor.
  - rewrite checkout_loop_cons. intros H.
    apply bind_Ok_inv in H as ([its1 sub1] & w1 & Hline & Hrest).
    pose proof (checkout_line_frame _ _ _ _ _ Hline) as [Hdb _].
    apply (checkout_line_Ok _ _ _ _ _ _ _ d Hd) in Hline
      as (it & Hsnap & Hnonneg & -> & ->).
    apply IH in Hrest as (new & Hsnaps & Hnonnegs & -> & ->);
      [| congruence].
    exists (it :: new). rewrite <- app_assoc. simpl.
    repeat split; try reflexivity; constructor; assumption.
Qed.

Lemma checkout_handler_not_Ok (e : exn) w (s : string) w' :
  checkout_handler e w <> (Ok s, w').
Proof. destruct e; discriminate. Qed.

(** What a checkout that returns an identifier has done. *)
Lemma checkout_Ok payload w s w' :
  checkout float_of_str payload w = (Ok s, w') ->
  exists d new o,
    db w = Some d /\
    Forall2 (snapshot float_of_str d) (CheckoutRequest.items payload) new /\
    Forall (fun it => Float.nonneg (amount it) = true) new /\
    o = (let subtotal := Float.sum (amount <$> new) in
         {| Order.items := new;
            Order.customer_name := CheckoutRequest.customer_name payload;
            Order.customer_email := CheckoutRequest.customer_email payload;
            Order.shipping_address :=
              CheckoutRequest.shipping_address payload;
            Order.subtotal := subtotal;
            Order.shipping_cost := Float.of_Z (shipping_cost_of subtotal);
            Order.total :=
              Float.add subtotal (Float.of_Z (shipping_cost_of subtotal));
            Order.status := "pending";
            Order.notes := CheckoutRequest.notes payload |}) /\
    placed w w' s o.
Proof.
  unfold checkout, try_except.
  destruct (checkout_body float_of_str payload w) as [[s0|e] w0] eqn:Hbody.
  2:{ intros H. apply checkout_handler_not_Ok in H. destruct H. }
  intros H. injection H as -> ->.
  unfold checkout_body in Hbody.
  apply bind_Ok_inv in Hbody as ([its sub] & w1 & Hloop & Hrest).
  apply bind_Ok_inv in Hrest as (o & w2 & Hnew & Hcreate).
  apply lift_Ok_inv in Hnew as [Hnew ->].
  apply Order_new_inv in Hnew as (Ho & _ & _).
  unfold create_document_order in Hcreate.
  destruct (db w1) as [d|] eqn:Hd1; [| discriminate].
  injection Hcreate as <- <-.
  pose proof (checkout_loop_frame _ _ _ _ _ Hloop) as [Hdb _].
  assert (Hd : db w = Some d) by congruence.
  apply (checkout_loop_Ok _ _ _ _ _ _ _ d Hd) in Hloop
    as (new & Hsnaps & Hnonnegs & -> & ->).
  exists d, new, o. simpl in Ho.
  repeat split; try assumption.
  eexists d, _. simpl. repeat split; try reflexivity. exact Hd.
Qed.

End CheckoutFacts.

(** ** Orders built by [checkout] *)

Section CheckoutOrders.

Variable float_of_str : string -> option float.

(** C1.  In the order a checkout persists, the shipping cost is 0 exactly
    when the subtotal is at least 100, and 10 otherwise; a subtotal of
    exactly 100 ships for 0. *)
Theorem shipping_cost_threshold payload w s w' :
  checkout float_of_str payload w = (Ok s, w') ->
  exists o,
    placed w w' s o /\
    (Order.shipping_cost o = Float.of_Z 0 <->
     Float.leb (Float.of_Z 100) (Order.subtotal o) = true) /\
    (Float.leb (Float.of_Z 100) (Order.subtotal o) = false ->
     Order.shipping_cost o = Float.of_Z 10) /\
    (Order.subtotal o = Float.of_Z 100 ->
     Order.shipping_cost o = Float.of_Z 0).
Proof.
  intros H.
  apply checkout_Ok in H as (d & new & o & _ & _ & _ & -> & Hplaced).
  eexists. split; [exact Hplaced |]. cbn beta zeta.
  unfold Order.shipping_cost, Order.subtotal.
  set (subtotal := Float.sum (amount <$> new)).
  destruct (shipping_cost_of_cases subtotal) as [[Hge ->] | [Hge ->]];
    unfold float_ge_int in Hge.
  - repeat split; intros; try reflexivity; try assumption. congruence.
  - repeat split.
    + intros H. destruct (of_Z_0_neq_10 H).
    + intros H. congruence.
    + intros H. rewrite H in Hge. vm_compute in Hge. discriminate Hge.
Qed.

(** The amounts of the order lines are those of the cart lines at the
    prices of the order lines. *)
Lemma snapshot_amounts d items new :
  Forall2 (snapshot float_of_str d) items new ->
  amount <$> new = zip_with line_amount items (OrderItem.price <$> new).
Proof.
  induction 1 as [|item it items new Hsnap _ IH]; [reflexivity |].
  rewrite !fmap_cons. cbn [zip_with]. rewrite <- IH. f_equal.
  destruct Hsnap as (_ & _ & _ & _ & _ & _ & _ & Hqty).
  unfold amount, line_amount. rewrite Hqty. reflexivity.
Qed.

(** C2.  The subtotal of the order a checkout persists is the sum, taken
    in cart order from [0.0], of one amount per cart line: the price of the
    product the line resolves to, as the stored document has it, times the
    line's quantity.  The same sum is read back from the order's own
    items. *)
Theorem subtotal_is_sum_of_line_amounts payload w s w' :
  checkout float_of_str payload w = (Ok s, w') ->
  exists d o prices,
    db w = Some d /\ placed w w' s o /\
    Forall2 (fun item price =>
               exists prod,
                 resolve d (CartItem.product_id item) = Some prod /\
                 price_of float_of_str prod price)
            (CheckoutRequest.items payload) prices /\
    Order.subtotal o
    = Float.sum (zip_with line_amount (CheckoutRequest.items payload)
                   prices) /\
    Order.subtotal o = Float.sum (amount <$> Order.items o).
Proof.
  intros H.
  apply checkout_Ok in H as (d & new & o & Hd & Hsnaps & _ & -> & Hplaced).
  exists d. eexists. exists (OrderItem.price <$> new).
  split; [exact Hd |]. split; [exact Hplaced |].
  cbn [Order.subtotal Order.items].
  split; [| split; [| reflexivity]].
  - apply Forall2_fmap_r. eapply Forall2_impl; [exact Hsnaps |].
    intros item it (prod & Hres & _ & Hprice & _). eauto.
  - rewrite (snapshot_amounts _ _ _ Hsnaps). reflexivity.
Qed.

(** C4.  In the order a checkout persists, the total is the subtotal plus
    the shipping cost. *)
Theorem total_is_subtotal_plus_shipping payload w s w' :
  checkout float_of_str payload w = (Ok s, w') ->
  exists o,
    placed w w' s o /\
    Order.total o = Float.add (Order.subtotal o) (Order.shipping_cost o).
Proof.
  intros H.
  apply checkout_Ok in H as (d & new & o & _ & _ & _ & -> & Hplaced).
  eexists. split; [exact Hplaced | reflexivity].
Qed.

(** C5.  The order a checkout persists has status "pending", carries the
    customer fields of the request, and its items are, position by
    position, the snapshots of the cart lines: identifier, colour, size
    and quantity from the line, title and price from the product the line
    resolves to. *)
Theorem order_items_are_snapshots payload w s w' :
  checkout float_of_str payload w = (Ok s, w') ->
  exists d o,
    db w = Some d /\ placed w w' s o /\
    Order.status o = "pending" /\
    Forall2 (snapshot float_of_str d)
            (CheckoutRequest.items payload) (Order.items o) /\
    Order.customer_name o = CheckoutRequest.customer_name payload /\
    Order.customer_email o = CheckoutRequest.customer_email payload /\
    Order.shipping_address o = CheckoutRequest.shipping_address payload /\
    Order.notes o = CheckoutRequest.notes payload.
Proof.
  intros H.
  apply checkout_Ok in H as (d & new & o & Hd & Hsnaps & _ & -> & Hplaced).
  exists d. eexists. split; [exact Hd |]. split; [exact Hplaced |].
  repeat split; try reflexivity. exact Hsnaps.
Qed.

(** C8, as the code has it.  The order a checkout persists has exactly
    one item per cart line; its list of items is empty exactly when the
    cart is. *)
Theorem order_has_one_item_per_line payload w s w' :
  checkout float_of_str payload w = (Ok s, w') ->
  exists o,
    placed w w' s o /\
    length (Order.items o) = length (CheckoutRequest.items payload) /\
    (Order.items o = [] <-> CheckoutRequest.items payload = []).
Proof.
  intros H.
  apply checkout_Ok in H as (d & new & o & _ & Hsnaps & _ & -> & Hplaced).
  eexists. split; [exact Hplaced |]. cbn beta zeta.
  unfold Order.items.
  pose proof (Forall2_length _ _ _ Hsnaps) as Hlen.
  split; [symmetry; exact Hlen |].
  destruct new, (CheckoutRequest.items payload); simpl in Hlen;
    split; intros; first [reflexivity | discriminate].
Qed.

End CheckoutOrders.

(** ** Checkouts that fail *)

Section CheckoutFailures.

Variable float_of_str : string -> option float.

Lemma checkout_loop_app pre rest st w :
  checkout_loop float_of_str (pre ++ rest) st w =
  (checkout_loop float_of_str pre st ≫= checkout_loop float_of_str rest) w.
Proof.
  revert st w. induction pre as [|item pre IH]; intros st w.
  - reflexivity.
  - simpl app. rewrite !checkout_loop_cons. unfold mbind, M_bind.
    destruct (checkout_line float_of_str item st w) as [[st1|e] w1].
    + rewrite IH. reflexivity.
    + reflexivity.
Qed.

(** A turn on a line whose identifier [ObjectId] accepts and no stored
    product carries raises the 404 naming that identifier. *)
Lemma checkout_line_not_found item st w d i :
  db w = Some d ->
  ObjectId (CartItem.product_id item) = Ok i ->
  resolve d (CartItem.product_id item) = None ->
  checkout_line float_of_str item st w =
  (Raise (not_found (CartItem.product_id item)),
   record (Find "product" i) w).
Proof.
  intros Hd Hi Hres. destruct st as [its sub].
  unfold resolve in Hres. rewrite Hi in Hres.
  unfold checkout_line, mbind, M_bind, db_getitem, lift, find_product, raise.
  rewrite Hd. cbn beta iota. rewrite Hi. cbn beta iota.
  rewrite Hd, Hres. reflexivity.
Qed.

(** A checkout that raises leaves the collections as they were, has sent
    the store nothing but product queries, and raises an HTTP error. *)
Lemma checkout_Raise payload w e w' :
  checkout float_of_str payload w = (Raise e, w') ->
  (exists status detail, e = HTTPException status detail) /\
  db w' = db w /\
  exists ops, log w' = log w ++ ops /\ forallb is_find ops = true.
Proof.
  unfold checkout, try_except.
  destruct (checkout_body float_of_str payload w) as [[s0|e0] w0] eqn:Hbody;
    [discriminate |].
  intros H.
  assert (Hframe : db w0 = db w /\
            exists ops, log w0 = log w ++ ops /\ forallb is_find ops = true).
  { unfold checkout_body, mbind, M_bind in Hbody.
    destruct (checkout_loop float_of_str (CheckoutRequest.items payload)
                ([], Float.zero) w) as [[[its sub]|e1] w1] eqn:Hloop;
      apply checkout_loop_frame in Hloop.
    - unfold lift in Hbody.
      destruct (Order.new _ _ _ _ _ _ _ _ _) as [o|e2].
      + unfold create_document_order in Hbody.
        destruct (db w1) eqn:Hd1; [discriminate |].
        injection Hbody as <- <-. rewrite Hd1. exact Hloop.
      + injection Hbody as <- <-. exact Hloop.
    - injection Hbody as <- <-. exact Hloop. }
  assert (Hw : w' = w0 /\
               exists status detail, e = HTTPException status detail).
  { destruct e0; unfold checkout_handler, internal_error, raise in H;
      injection H as <- <-; split; eauto. }
  destruct Hw as [-> Hhttp]. split; [exact Hhttp | exact Hframe].
Qed.

(** C3, as the code has it.  A checkout with a cart line that resolves to
    no product fails with an HTTP error, persists no order, leaves the
    collections as they were and sends the store nothing but product
    queries.  When the store is available, [ObjectId] accepts the line's
    identifier and the lines before it were processed without error, the
    error is the 404 naming that identifier. *)
Theorem unresolvable_line_fails_checkout payload w pre item post :
  CheckoutRequest.items payload = pre ++ item :: post ->
  resolve_in w (CartItem.product_id item) = None ->
  exists status detail w',
    checkout float_of_str payload w
      = (Raise (HTTPException status detail), w') /\
    db w' = db w /\
    (exists ops, log w' = log w ++ ops /\ forallb is_find ops = true) /\
    (forall st w1 i,
       is_Some (db w) ->
       ObjectId (CartItem.product_id item) = Ok i ->
       checkout_loop float_of_str pre ([], Float.zero) w = (Ok st, w1) ->
       status = 404 /\
       detail = Msg ("Product " +:+ CartItem.product_id item
                     +:+ " not found")).
Proof.
  intros Hitems Hres.
  destruct (checkout float_of_str payload w) as [[s|e] w'] eqn:Hco.
  - exfalso.
    apply checkout_Ok in Hco as (d & new & o & Hd & Hsnaps & _).
    rewrite Hitems in Hsnaps.
    apply Forall2_app_inv_l in Hsnaps as (new1 & new2 & _ & Hsnaps & _).
    apply Forall2_cons_inv_l in Hsnaps as (it & new3 & Hsnap & _).
    destruct Hsnap as (prod & Hprod & _).
    unfold resolve_in in Hres. rewrite Hd in Hres. simpl in Hres.
    congruence.
  - pose proof (checkout_Raise _ _ _ _ Hco)
      as ((status & detail & ->) & Hdb & Hlog).
    exists status, detail, w'.
    split; [reflexivity |]. split; [exact Hdb |]. split; [exact Hlog |].
    intros st w1 i [d Hd] Hi Hpre.
    assert (Hloop : checkout_loop float_of_str (pre ++ item :: post)
                      ([], Float.zero) w
                    = (Raise (not_found (CartItem.product_id item)),
                       record (Find "product" i) w1)).
    { rewrite checkout_loop_app, (bind_Ok _ _ _ _ _ Hpre).
      rewrite checkout_loop_cons. apply bind_Raise.
      apply checkout_loop_frame in Hpre as [Hdb1 _].
      apply (checkout_line_not_found _ _ _ d); [congruence | exact Hi |].
      unfold resolve_in in Hres. rewrite Hd in Hres. exact Hres. }
    unfold checkout, try_except, checkout_body in Hco.
    rewrite Hitems, (bind_Raise _ _ _ _ _ Hloop) in Hco.
    unfold not_found, checkout_handler, raise in Hco.
    injection Hco as <- <- _. split; reflexivity.
Qed.

End CheckoutFailures.

(** ** Request validation *)

Lemma validate_items_id l : CheckoutRequest.validate_items l = Ok l.
Proof.
  induction l as [|c l IH]; [reflexivity |].
  simpl. rewrite IH. reflexivity.
Qed.

Lemma CheckoutRequest_validate_id r : CheckoutRequest.validate r = Ok r.
Proof.
  unfold CheckoutRequest.validate. rewrite validate_items_id.
  destruct r; reflexivity.
Qed.

(** No cart is turned away by the request model: every request reaches the
    handler, whatever the quantities of its lines. *)
Lemma post_checkout_reaches_handler float_of_str body w :
  post_checkout float_of_str body w = checkout float_of_str body w.
Proof.
  unfold post_checkout. rewrite CheckoutRequest_validate_id. reflexivity.
Qed.

Lemma negative_not_nonneg p :
  Float.ltb p Float.zero = true -> Float.nonneg p = false.
Proof. destruct p as [[]|[]| |[] m e]; vm_compute; congruence. Qed.

(** C6 at the failing input.  A cart of one line, product A with quantity
    0: the request is accepted, the product is fetched from the store, and
    the failure to build the order line is answered with a 500. *)
Lemma quantity_zero_reaches_store :
  post_checkout Fixtures.no_str
    (Fixtures.request [Fixtures.line Fixtures.idA 0]) Fixtures.shop
  = (Raise (HTTPException 500 (StrOf (ValidationError "OrderItem"))),
     record (Find "product" Fixtures.idA) Fixtures.shop).
Proof. vm_compute. reflexivity. Qed.

(** The report of a refused product body renders as JSON unless the
    refused price is a NaN or an infinity. *)
Lemma rejected_inputs_compliant p :
  forallb json_compliant (Product.rejected_inputs p)
  = Product.price_ok (Product.price p) || is_finite (Product.price p).
Proof.
  unfold Product.rejected_inputs. rewrite forallb_app.
  assert (Hw : forallb json_compliant
                 (if Product.warmth_rating_ok (Product.warmth_rating p)
                  then []
                  else match Product.warmth_rating p with
                       | Some n => [VInt n]
                       | None => []
                       end) = true).
  { destruct (Product.warmth_rating_ok _); [reflexivity |].
    destruct (Product.warmth_rating p); reflexivity. }
  rewrite Hw, andb_true_r.
  destruct (Product.price_ok _); simpl; [reflexivity |].
  apply andb_true_r.
Qed.

(** A body that violates a constraint is answered without the handler
    being called: with the 422 when its report renders, and else with the
    [ValueError] of the rendering. *)
Lemma post_products_invalid body w :
  Product.valid body = false ->
  post_products body w
  = (Raise (if Product.price_ok (Product.price body)
               || is_finite (Product.price body)
            then HTTPException 422 (StrOf (ValidationError "ProductCreate"))
            else ValueError), w).
Proof.
  intros Hinvalid.
  unfold post_products, Product.validate, unprocessable.
  rewrite Hinvalid. cbn [check mbind result_bind].
  rewrite rejected_inputs_compliant.
  destruct (_ || _); reflexivity.
Qed.

(** C7.  A product body whose price is negative, or whose warmth rating is
    an integer outside 1..5, is refused and the world is left as it was:
    nothing is sent to the store.  The answer is the 422 of the validation
    error, unless the refused price is a NaN or the negative infinity: the
    report of the error then fails to render and the answer is a 500. *)
Theorem create_product_rejects_invalid body w :
  Float.ltb (Product.price body) Float.zero = true \/
  (exists n, Product.warmth_rating body = Some n /\ (n < 1 \/ 5 < n)) ->
  exists e,
    post_products body w = (Raise e, w) /\
    (status_of e = 422 \/ status_of e = 500) /\
    (Product.price body <> S754_nan ->
     Product.price body <> S754_infinity true ->
     e = HTTPException 422 (StrOf (ValidationError "ProductCreate"))) /\
    (Product.price body = S754_nan \/
     Product.price body = S754_infinity true ->
     e = ValueError).
Proof.
  intros H.
  assert (Hinvalid : Product.valid body = false).
  { unfold Product.valid, Product.price_ok, Product.warmth_rating_ok.
    destruct H as [Hprice | (n & -> & Hn)].
    - rewrite (negative_not_nonneg _ Hprice). reflexivity.
    - apply andb_false_intro2.
      destruct Hn as [Hn | Hn].
      + apply andb_false_intro1, Z.leb_gt. lia.
      + apply andb_false_intro2, Z.leb_gt. lia. }
  eexists. split; [exact (post_products_invalid body w Hinvalid) |].
  unfold Product.price_ok.
  destruct (Product.price body) as [[]|[]| |[] m e]; cbn;
    repeat split; auto; try congruence;
    intros [Hp | Hp]; discriminate Hp.
Qed.

(** ** Unique identifiers *)

Lemma unique_ids_fresh d : unique_ids d -> fresh d (issued d) ∉ product_ids d.
Proof.
  intros (Hinj & _ & Hissued) Hin. unfold product_ids in Hin.
  apply list_elem_of_fmap in Hin as (x & Hx & Hin).
  rewrite Forall_forall in Hissued.
  destruct (Hissued x Hin) as (k & Hk & Hid).
  rewrite Hid in Hx. apply Hinj in Hx. lia.
Qed.

(** Handing out an identifier, for an order, keeps the identifiers
    unique. *)
Lemma unique_ids_issue d orders :
  unique_ids d ->
  unique_ids {| product := product d; order := orders;
                issued := S (issued d); fresh := fresh d |}.
Proof.
  intros (Hinj & Hnodup & Hissued).
  split; [exact Hinj |]. split; [exact Hnodup |]. cbn.
  eapply Forall_impl; [exact Hissued |].
  intros x (k & Hk & Hid). exists k. split; [lia | exact Hid].
Qed.

(** So does storing a product under the identifier handed out. *)
Lemma unique_ids_insert d entries :
  unique_ids d ->
  unique_ids {| product := product d ++ [{| _id := fresh d (issued d);
                                            fields := entries |}];
                order := order d;
                issued := S (issued d); fresh := fresh d |}.
Proof.
  intros Hd. pose proof (unique_ids_fresh d Hd) as Hfresh.
  destruct Hd as (Hinj & Hnodup & Hissued).
  split; [exact Hinj |]. unfold product_ids in *. cbn. split.
  - rewrite fmap_app. apply NoDup_app. split; [exact Hnodup |].
    split; [| apply NoDup_singleton].
    intros i Hi Hi'. apply list_elem_of_singleton in Hi'. subst i.
    exact (Hfresh Hi).
  - apply Forall_app. split.
    + eapply Forall_impl; [exact Hissued |].
      intros x (k & Hk & Hid). exists k. split; [lia | exact Hid].
    + constructor; [| constructor]. exists (issued d). split; [lia |].
      reflexivity.
Qed.

(** A checkout keeps the identifiers of the catalog unique. *)
Lemma unique_ids_checkout float_of_str payload w d r w' :
  db w = Some d -> unique_ids d ->
  checkout float_of_str payload w = (r, w') ->
  exists d', db w' = Some d' /\ unique_ids d'.
Proof.
  intros Hd Hunique. unfold checkout, try_except.
  destruct (checkout_body float_of_str payload w) as [[s0|e0] w0] eqn:Hbody.
  - intros H. injection H as <- <-.
    unfold checkout_body in Hbody.
    apply bind_Ok_inv in Hbody as ([its sub] & w1 & Hloop & Hrest).
    apply bind_Ok_inv in Hrest as (o & w2 & Hnew & Hcreate).
    apply lift_Ok_inv in Hnew as [_ ->].
    apply checkout_loop_frame in Hloop as [Hdb _].
    unfold create_document_order in Hcreate. rewrite Hdb, Hd in Hcreate.
    injection Hcreate as <- <-. eexists. split; [reflexivity |].
    apply unique_ids_issue, Hunique.
  - intros H.
    assert (Hdb : db w0 = Some d).
    { unfold checkout_body, mbind, M_bind in Hbody.
      destruct (checkout_loop float_of_str (CheckoutRequest.items payload)
                  ([], Float.zero) w) as [[[its sub]|e1] w1] eqn:Hloop;
        apply checkout_loop_frame in Hloop as [Hdb _].
      - unfold lift in Hbody.
        destruct (Order.new _ _ _ _ _ _ _ _ _) as [o|e2].
        + unfold create_document_order in Hbody.
          rewrite Hdb, Hd in Hbody. discriminate Hbody.
        + injection Hbody as <- <-. congruence.
      - injection Hbody as <- <-. congruence. }
    exists d. split; [| exact Hunique].
    destruct e0; unfold checkout_handler, internal_error, raise in H;
      injection H as <- <-; exact Hdb.
Qed.

(** ** The catalog round trip *)

Section Listing.

Variable P : parsers.

Lemma strs_of_values_fmap model (l : list string) :
  strs_of_values model (VStr <$> l) = Ok l.
Proof.
  induction l as [|s l IH]; [reflexivity |].
  rewrite fmap_cons.
  cbn [strs_of_values as_str text from_opt mbind result_bind].
  rewrite IH. reflexivity.
Qed.

Lemma as_opt_str_value model o : as_opt_str model (opt_str_value o) = Ok o.
Proof. destruct o; reflexivity. Qed.

Lemma as_opt_int_value model o :
  as_opt_int P model (opt_int_value o) = Ok o.
Proof. destruct o; reflexivity. Qed.

(** A valid product is read back unchanged from the document written for
    it. *)
Lemma Product_of_to_dict model p :
  Product.valid p = true ->
  Product.of_dict P model (Product_to_dict p) = Ok p.
Proof.
  intros Hvalid.
  unfold Product.of_dict, Product_to_dict, dict_get, dict_get_default.
  repeat (rewrite lookup_insert_eq || rewrite lookup_insert_ne by done).
  simpl. rewrite !as_opt_str_value, !strs_of_values_fmap, as_opt_int_value.
  simpl. unfold Product.validate.
  destruct p; simpl in *. rewrite Hvalid. reflexivity.
Qed.

Lemma matches_empty x : matches ∅ x = true.
Proof. unfold matches. rewrite map_to_list_empty. reflexivity. Qed.

Lemma filter_matches_empty (l : list document) :
  List.filter (matches ∅) l = l.
Proof.
  induction l as [|x l IH]; [reflexivity |].
  simpl. rewrite matches_empty, IH. reflexivity.
Qed.

Lemma list_products_loop_Ok docs items w rs :
  Forall2 (fun x r => response_of P x = Ok r) docs rs ->
  list_products_loop P docs items w = (Ok (items ++ rs), w).
Proof.
  intros H. revert items. induction H as [|x r docs rs Hx _ IH]; intros items.
  - simpl. rewrite app_nil_r. reflexivity.
  - simpl. unfold mbind, M_bind, lift. unfold response_of in Hx. rewrite Hx.
    rewrite IH, <- app_assoc. reflexivity.
Qed.

Lemma response_of_id x r :
  response_of P x = Ok r -> ProductResponse.id r = _id x.
Proof.
  unfold response_of, ProductResponse.of_dict.
  destruct (Product.of_dict _ _ _) as [q|]; simpl; [| discriminate].
  intros H. injection H as <-. reflexivity.
Qed.

Lemma responses_exist docs :
  Forall (fun x => exists r, response_of P x = Ok r) docs ->
  exists rs,
    Forall2 (fun x r => response_of P x = Ok r) docs rs /\
    ProductResponse.id <$> rs = _id <$> docs.
Proof.
  induction 1 as [|x docs [r Hr] _ (rs & Hrs & Hids)].
  - exists []. split; [constructor | reflexivity].
  - exists (r :: rs). split; [constructor; assumption |].
    rewrite !fmap_cons, Hids, (response_of_id _ _ Hr). reflexivity.
Qed.

(** Creating a valid product in an available store returns the identifier
    handed out and stores the product under it. *)
Lemma post_products_valid p w d :
  Product.valid p = true ->
  db w = Some d ->
  post_products p w
  = (Ok (str_oid (fresh d (issued d))),
     {| db := Some {| product := product d ++
                        [{| _id := fresh d (issued d);
                            fields := Product_to_dict p |}];
                      order := order d;
                      issued := S (issued d);
                      fresh := fresh d |};
        log := log w ++ [InsertOne "product" (fresh d (issued d))] |}).
Proof.
  intros Hvalid Hd.
  unfold post_products, Product.validate. rewrite Hvalid. simpl.
  unfold create_product, try_except, create_document_product.
  rewrite Hd. reflexivity.
Qed.

(** C9, as the code has it.  With the store available, its identifiers
    unique and its documents all valid as products: creating a valid product
    returns an identifier that no stored product had, and the unfiltered
    listing that follows is the listing of the documents stored before
    followed by one entry with the new identifier and the product's own
    fields; no two entries carry the same identifier, so the product is
    listed exactly once.  The identifiers of the store are unique
    afterwards too. *)
Theorem created_product_is_listed_once p w d :
  Product.valid p = true ->
  db w = Some d ->
  unique_ids d ->
  Forall (fun x => exists r, response_of P x = Ok r) (product d) ->
  exists s w1 old w2,
    post_products p w = (Ok s, w1) /\
    (s ∉ product_ids d) /\
    list_products P None w1
      = (Ok (old ++ [{| ProductResponse.id := s;
                        ProductResponse.product := p |}]), w2) /\
    Forall2 (fun x r => response_of P x = Ok r) (product d) old /\
    Forall (fun r => ProductResponse.id r <> s) old /\
    NoDup (ProductResponse.id
             <$> (old ++ [{| ProductResponse.id := s;
                             ProductResponse.product := p |}])) /\
    exists d1, db w1 = Some d1 /\ unique_ids d1.
Proof.
  intros Hvalid Hd Hunique Hdocs.
  destruct (responses_exist _ Hdocs) as (old & Hold & Hids).
  pose proof (unique_ids_fresh d Hunique) as Hfresh.
  pose proof (unique_ids_insert d (Product_to_dict p) Hunique) as Hunique1.
  set (i := fresh d (issued d)) in *.
  eexists (str_oid i), _, old, _.
  split; [exact (post_products_valid p w d Hvalid Hd) |].
  split; [exact Hfresh |].
  split.
  { unfold list_products, try_except, mbind, M_bind, get_documents_product.
    cbn [db product]. rewrite filter_matches_empty.
    erewrite list_products_loop_Ok; [reflexivity |].
    apply Forall2_app; [exact Hold |].
    constructor; [| constructor].
    unfold response_of, ProductResponse.of_dict. cbn [fields _id].
    rewrite (Product_of_to_dict _ _ Hvalid). reflexivity. }
  split; [exact Hold |].
  split.
  { apply Forall_forall. intros r Hr Heq. apply Hfresh.
    unfold str_oid in Heq. unfold product_ids. rewrite <- Hids, <- Heq.
    apply list_elem_of_fmap. exists r. split; [reflexivity | exact Hr]. }
  split.
  { destruct Hunique1 as (_ & Hnodup & _). unfold product_ids in Hnodup.
    cbn [product] in Hnodup. rewrite fmap_app in Hnodup.
    rewrite fmap_app, Hids. exact Hnodup. }
  eexists. split; [reflexivity | exact Hunique1].
Qed.

(** Creating valid products one after the other, in a store whose
    identifiers are unique, succeeds and appends their documents to the
    catalog, in order. *)
Lemma create_all_appends ps w d :
  db w = Some d ->
  unique_ids d ->
  Forall (fun p => Product.valid p = true) ps ->
  exists ss w1 d1,
    create_all ps w = (Ok ss, w1) /\
    db w1 = Some d1 /\ unique_ids d1 /\
    product d1 = product d ++ zip_with stored_as ss ps /\
    length ss = length ps.
Proof.
  intros Hd Hunique Hvalid. revert w d Hd Hunique.
  induction Hvalid as [|p ps Hp _ IH]; intros w d Hd Hunique.
  - exists [], w, d. rewrite app_nil_r.
    split; [reflexivity |]. split; [exact Hd |]. split; [exact Hunique |].
    split; reflexivity.
  - pose proof (post_products_valid p w d Hp Hd) as Hpost.
    pose proof (unique_ids_insert d (Product_to_dict p) Hunique) as Hunique1.
    match type of Hpost with
    | _ = (_, ?w') =>
        destruct (IH w' _ eq_refl Hunique1)
          as (ss & w1 & d1 & Hall & Hd1 & Hu1 & Hproducts & Hlen)
    end.
    exists (str_oid (fresh d (issued d)) :: ss), w1, d1.
    split.
    { cbn [create_all]. rewrite (bind_Ok _ _ _ _ _ Hpost).
      rewrite (bind_Ok _ _ _ _ _ Hall). reflexivity. }
    split; [exact Hd1 |]. split; [exact Hu1 |].
    split; [| simpl; rewrite Hlen; reflexivity].
    rewrite Hproducts. cbn [product zip_with]. rewrite <- app_assoc.
    reflexivity.
Qed.

Lemma stored_as_listed ss ps :
  Forall (fun p => Product.valid p = true) ps ->
  length ss = length ps ->
  Forall2 (fun x r => response_of P x = Ok r)
          (zip_with stored_as ss ps) (zip_with listed_as ss ps).
Proof.
  intros Hvalid. revert ss.
  induction Hvalid as [|p ps Hp _ IH]; intros [|s ss] Hlen;
    try discriminate Hlen; cbn [zip_with]; constructor.
  - unfold response_of, ProductResponse.of_dict, stored_as. cbn [fields _id].
    rewrite (Product_of_to_dict _ _ Hp). reflexivity.
  - apply IH. simpl in Hlen. lia.
Qed.

Lemma stored_as_ids ss ps :
  length ss = length ps -> _id <$> zip_with stored_as ss ps = ss.
Proof.
  revert ps. induction ss as [|s ss IH]; intros [|p ps] Hlen;
    try discriminate Hlen; [reflexivity |].
  cbn [zip_with]. rewrite fmap_cons, IH by (simpl in Hlen; lia).
  reflexivity.
Qed.

(** X19.  A catalog filled through product creation alone lists what was
    created: in a store that holds no product yet and never hands out an
    identifier twice, creating valid products one after the other returns
    pairwise distinct identifiers, and the unfiltered listing that follows
    is exactly those products, in the order of creation, each under its
    identifier and with its own fields. *)
Theorem created_catalog_is_listed ps w d :
  db w = Some d ->
  product d = [] ->
  (forall m n, fresh d m = fresh d n -> m = n) ->
  Forall (fun p => Product.valid p = true) ps ->
  exists ss w1 w2,
    create_all ps w = (Ok ss, w1) /\
    length ss = length ps /\
    NoDup ss /\
    list_products P None w1 = (Ok (zip_with listed_as ss ps), w2).
Proof.
  intros Hd Hempty Hinj Hvalid.
  assert (Hunique : unique_ids d).
  { split; [exact Hinj |]. unfold product_ids. rewrite Hempty.
    split; constructor. }
  destruct (create_all_appends ps w d Hd Hunique Hvalid)
    as (ss & w1 & d1 & Hall & Hd1 & Hu1 & Hproducts & Hlen).
  rewrite Hempty in Hproducts. cbn [app] in Hproducts.
  eexists ss, w1, _.
  split; [exact Hall |]. split; [exact Hlen |].
  split.
  { destruct Hu1 as (_ & Hnodup & _). unfold product_ids in Hnodup.
    rewrite Hproducts, (stored_as_ids _ _ Hlen) in Hnodup. exact Hnodup. }
  unfold list_products, try_except, mbind, M_bind, get_documents_product.
  rewrite Hd1, filter_matches_empty, Hproducts.
  rewrite (list_products_loop_Ok _ _ _ _ (stored_as_listed _ _ Hvalid Hlen)).
  reflexivity.
Qed.

End Listing.

(** ** Checkouts that succeed *)

Lemma nonneg_shipping_cost subtotal :
  Float.nonneg (Float.of_Z (shipping_cost_of subtotal)) = true.
Proof.
  destruct (shipping_cost_of_cases subtotal) as [[_ ->] | [_ ->]]; reflexivity.
Qed.

(** A sum of non-negative terms is never [-0.0]. *)
Lemma add_not_negative_zero x y :
  Float.nonneg x = true -> x <> S754_zero true -> Float.nonneg y = true ->
  Float.add x y <> S754_zero true.
Proof.
  intros Hx Hnz Hy.
  destruct (nonneg_inv x Hx) as [[sx ->] | [-> | (mx & ex & ->)]];
    destruct (nonneg_inv y Hy) as [[sy ->] | [-> | (my & ey & ->)]];
    try discriminate.
  - destruct sx, sy; try discriminate. congruence.
  - unfold Float.add, SFadd, binary_normalize, binary_round. cbn [cond_Zopp].
    destruct (shl_align mx ex _) as [mx' ex'].
    destruct (shl_align my ey _) as [my' ey']. cbn [fst].
    change (Z.pos mx' + Z.pos my') with (Z.pos (mx' + my')%positive).
    cbv beta iota.
    destruct (shl_align (mx' + my')%positive _ _) as [mz ez].
    pose proof (binary_round_aux_sign false (Z.pos mz) ez loc_Exact
                  ltac:(lia)) as Hs.
    destruct (binary_round_aux _ _ _ _ _ _) as [s|s| |s m e];
      try discriminate. subst s. discriminate.
Qed.

Lemma fold_add_not_negative_zero l acc :
  Float.nonneg acc = true -> acc <> S754_zero true ->
  Forall (fun x => Float.nonneg x = true) l ->
  fold_left Float.add l acc <> S754_zero true.
Proof.
  intros Hacc Hnz Hl. revert acc Hacc Hnz.
  induction Hl as [|x l Hx _ IH]; intros acc Hacc Hnz; simpl.
  - exact Hnz.
  - apply IH; [apply nonneg_add; assumption |].
    apply add_not_negative_zero; assumption.
Qed.

(** A term [0.0] adds nothing to a sum of non-negative terms. *)
Lemma sum_skip_zero l1 l2 :
  Forall (fun x => Float.nonneg x = true) l1 ->
  Float.sum (l1 ++ Float.zero :: l2) = Float.sum (l1 ++ l2).
Proof.
  intros H1. unfold Float.sum. rewrite !fold_left_app. simpl.
  rewrite add_zero_r; [reflexivity |].
  apply fold_add_not_negative_zero; [reflexivity | discriminate | exact H1].
Qed.

Section CheckoutSucceeds.

Variable float_of_str : string -> option float.

(** A turn of the loop on a line whose product is stored without a price
    field, with a title and a quantity of at least 1 that converts to a
    float, succeeds: the order line it appends has price [0.0], the amount
    of the line is [0.0], and the subtotal is the one before plus [0.0],
    which is the one before. *)
Lemma checkout_line_missing_price item its sub w d prod title q :
  db w = Some d ->
  resolve d (CartItem.product_id item) = Some prod ->
  fields prod !! "price" = None ->
  fields prod !! "title" = Some (VStr title) ->
  1 <= CartItem.quantity item ->
  float_of_int (CartItem.quantity item) = Ok q ->
  exists it w',
    checkout_line float_of_str item (its, sub) w
      = (Ok (its ++ [it], Float.add sub (amount it)), w') /\
    db w' = db w /\
    OrderItem.price it = Float.zero /\
    amount it = Float.zero /\
    OrderItem.title it = title /\
    OrderItem.quantity it = CartItem.quantity item /\
    (sub <> S754_zero true -> Float.add sub (amount it) = sub).
Proof.
  intros Hd Hres Hprice Htitle Hqty Hq.
  unfold resolve in Hres.
  destruct (ObjectId (CartItem.product_id item)) as [i|] eqn:Hi;
    [| discriminate].
  assert (Hpos : 0 < CartItem.quantity item) by lia.
  pose proof (zero_mul_quantity _ _ Hpos Hq) as Hmul.
  pose proof (float_of_int_Ok _ _ Hq) as Hof.
  exists {| OrderItem.product_id := CartItem.product_id item;
            OrderItem.title := title;
            OrderItem.price := Float.zero;
            OrderItem.color := CartItem.color item;
            OrderItem.size := CartItem.size item;
            OrderItem.quantity := CartItem.quantity item |},
         (record (Find "product" i) w).
  split.
  { unfold checkout_line, mbind, M_bind, db_getitem, lift, find_product.
    rewrite Hd. cbn beta iota. rewrite Hi. cbn beta iota.
    rewrite Hd, Hres. cbn beta iota.
    unfold dict_get_default, dict_get. rewrite Hprice, Htitle.
    cbn [default float_of_value float_of_int Float.of_Z binary_normalize].
    unfold float_mul_int, mbind, result_bind. rewrite Hq.
    unfold OrderItem.new, as_str, mbind, result_bind, check.
    replace (Float.nonneg (S754_zero false)) with true by reflexivity.
    replace (1 <=? CartItem.quantity item) with true
      by (symmetry; apply Z.leb_le; exact Hqty).
    cbn [andb id]. unfold mret, M_ret, amount.
    cbn [OrderItem.price OrderItem.quantity].
    rewrite <- Hof. reflexivity. }
  unfold amount. cbn [OrderItem.price OrderItem.quantity OrderItem.title].
  rewrite <- Hof. fold Float.zero. rewrite Hmul.
  repeat split; try reflexivity. apply add_zero_r.
Qed.


(** A line whose product is stored without a price can be processed as
    soon as the product has a title and the quantity is in range. *)
Lemma ready_without_price d item prod title q :
  resolve d (CartItem.product_id item) = Some prod ->
  fields prod !! "price" = None ->
  fields prod !! "title" = Some (VStr title) ->
  1 <= CartItem.quantity item ->
  float_of_int (CartItem.quantity item) = Ok q ->
  ready float_of_str d item.
Proof.
  intros Hres Hprice Htitle Hqty Hq.
  exists prod, title, Float.zero, q.
  split; [exact Hres |]. split; [exact (title_of_str _ _ Htitle) |].
  split; [unfold price_of; rewrite Hprice; reflexivity |].
  repeat split; try assumption; reflexivity.
Qed.

Lemma checkout_line_ready item its sub w d :
  db w = Some d ->
  ready float_of_str d item ->
  exists st w',
    checkout_line float_of_str item (its, sub) w = (Ok st, w') /\
    db w' = Some d.
Proof.
  intros Hd (prod & title & price & q & Hres & Htitle & Hprice & Hnonneg
             & Hqty & Hq).
  apply (title_of_as_str "OrderItem") in Htitle.
  apply price_of_float_of_value in Hprice.
  unfold resolve in Hres.
  destruct (ObjectId (CartItem.product_id item)) as [i|] eqn:Hi;
    [| discriminate].
  eexists _, (record (Find "product" i) w).
  split; [| exact Hd].
  unfold checkout_line, mbind, M_bind, db_getitem, lift, find_product.
  rewrite Hd. cbn beta iota. rewrite Hi. cbn beta iota.
  rewrite Hd, Hres. cbn beta iota. rewrite Hprice.
  unfold float_mul_int, mbind, result_bind. rewrite Hq.
  unfold OrderItem.new, mbind, result_bind. rewrite Htitle.
  unfold check. rewrite Hnonneg.
  replace (1 <=? CartItem.quantity item) with true
    by (symmetry; apply Z.leb_le; exact Hqty).
  reflexivity.
Qed.

Lemma checkout_loop_ready items st w d :
  db w = Some d ->
  Forall (ready float_of_str d) items ->
  exists st' w',
    checkout_loop float_of_str items st w = (Ok st', w') /\ db w' = Some d.
Proof.
  intros Hd Hready. revert st w Hd.
  induction Hready as [|item items Hitem _ IH]; intros st w Hd.
  - exists st, w. split; [reflexivity | exact Hd].
  - destruct st as [its sub].
    destruct (checkout_line_ready item its sub w d Hd Hitem)
      as (st1 & w1 & Hline & Hd1).
    destruct (IH st1 w1 Hd1) as (st' & w' & Hloop & Hd').
    exists st', w'. split; [| exact Hd'].
    rewrite checkout_loop_cons, (bind_Ok _ _ _ _ _ Hline). exact Hloop.
Qed.

(** With the store available and every cart line ready, [checkout] returns
    the identifier of the order it persists. *)
Lemma checkout_succeeds payload w d :
  db w = Some d ->
  Forall (ready float_of_str d) (CheckoutRequest.items payload) ->
  exists s w', checkout float_of_str payload w = (Ok s, w').
Proof.
  intros Hd Hready.
  destruct (checkout_loop_ready _ ([], Float.zero) w d Hd Hready)
    as ([its sub] & w1 & Hloop & Hd1).
  destruct (checkout_loop_Ok _ _ _ _ _ _ _ _ d Hd Hloop)
    as (new & _ & Hnonnegs & _ & ->).
  assert (Hsub : Float.nonneg
                   (fold_left Float.add (amount <$> new) Float.zero) = true).
  { apply nonneg_fold_add; [reflexivity |].
    apply Forall_fmap. exact Hnonnegs. }
  unfold checkout, try_except, checkout_body.
  rewrite (bind_Ok _ _ _ _ _ Hloop).
  unfold mbind, M_bind, lift, Order.new, result_bind, check.
  rewrite Hsub, nonneg_shipping_cost.
  rewrite (nonneg_add _ _ Hsub (nonneg_shipping_cost _)).
  cbn [andb]. unfold create_document_order. rewrite Hd1. eauto.
Qed.

(** C10.  A cart with a line whose product is stored without a price field
    (with a title, and a quantity of at least 1 that converts to a float),
    the other lines being ready and the store available: the checkout
    succeeds; in the order it persists the item of that line, at the line's
    position, has price [0.0] and amount [0.0], and the subtotal is the sum
    of the amounts of the other items alone. *)
Theorem missing_price_counts_as_zero payload w d pre item post prod title q :
  db w = Some d ->
  CheckoutRequest.items payload = pre ++ item :: post ->
  Forall (ready float_of_str d) pre ->
  Forall (ready float_of_str d) post ->
  resolve d (CartItem.product_id item) = Some prod ->
  fields prod !! "price" = None ->
  fields prod !! "title" = Some (VStr title) ->
  1 <= CartItem.quantity item ->
  float_of_int (CartItem.quantity item) = Ok q ->
  exists s w' o its1 it its2,
    checkout float_of_str payload w = (Ok s, w') /\
    placed w w' s o /\
    Order.items o = its1 ++ it :: its2 /\
    length its1 = length pre /\
    OrderItem.product_id it = CartItem.product_id item /\
    OrderItem.price it = Float.zero /\
    amount it = Float.zero /\
    Order.subtotal o = Float.sum (amount <$> its1 ++ it :: its2) /\
    Order.subtotal o = Float.sum (amount <$> its1 ++ its2).
Proof.
  intros Hd Hitems Hpre Hpost Hres Hprice Htitle Hqty Hq.
  assert (Hready : Forall (ready float_of_str d)
                          (CheckoutRequest.items payload)).
  { rewrite Hitems. apply Forall_app. split; [exact Hpre |].
    constructor; [| exact Hpost].
    exact (ready_without_price _ _ _ _ _ Hres Hprice Htitle Hqty Hq). }
  destruct (checkout_succeeds payload w d Hd Hready) as (s & w' & Hco).
  pose proof (checkout_Ok _ _ _ _ _ Hco)
    as (d' & new & o & Hd' & Hsnaps & Hnonnegs & -> & Hplaced).
  assert (d' = d) by congruence. subst d'.
  rewrite Hitems in Hsnaps.
  apply Forall2_app_inv_l in Hsnaps as (its1 & rest & Hsnaps1 & Hsnaps2 & ->).
  apply Forall2_cons_inv_l in Hsnaps2 as (it & its2 & Hsnap & _ & ->).
  destruct Hsnap as (prod' & Hres' & _ & Hprice' & Hid & _ & _ & Hquantity).
  assert (prod' = prod) by congruence. subst prod'.
  unfold price_of in Hprice'. rewrite Hprice in Hprice'.
  assert (Hzero : OrderItem.price it = Float.zero) by exact Hprice'.
  assert (Hamount : amount it = Float.zero).
  { unfold amount. rewrite Hzero, Hquantity, <- (float_of_int_Ok _ _ Hq).
    apply (zero_mul_quantity (CartItem.quantity item)); [lia | exact Hq]. }
  exists s, w'. eexists. exists its1, it, its2.
  split; [exact Hco |]. split; [exact Hplaced |]. cbn beta zeta.
  unfold Order.items, Order.subtotal.
  repeat split; try assumption; try reflexivity.
  - exact (eq_sym (Forall2_length _ _ _ Hsnaps1)).
  - rewrite !fmap_app, fmap_cons, Hamount.
    apply sum_skip_zero.
    apply Forall_app in Hnonnegs as [Hnonnegs _].
    apply Forall_fmap. exact Hnonnegs.
Qed.

End CheckoutSucceeds.

(** * The scenarios of the specification, and instances of the theorems *)

Import Fixtures.

(** Two of A at 30 and one of B at 50: subtotal 110, shipping 0, total
    110. *)
Example scenario_free_shipping :
  let r := checkout no_str cart_110 shop in
  r.1 = Ok first_id /\
  orders r.2 = Some [(first_id,
                      order_of [item_of idA "A" 30 2; item_of idB "B" 50 1]
                               110 0 110)] /\
  log r.2 = [Find "product" idA; Find "product" idB;
             InsertOne "order" first_id].
Proof. vm_compute. repeat split; reflexivity. Qed.

(** One of C at 20: subtotal 20, shipping 10, total 30. *)
Example scenario_flat_shipping :
  let r := checkout no_str cart_20 shop in
  r.1 = Ok first_id /\
  orders r.2 = Some [(first_id, order_of [item_of idC "C" 20 1] 20 10 30)].
Proof. vm_compute. split; reflexivity. Qed.

(** A cart naming a product that does not exist: 404, and no order. *)
Example scenario_not_found :
  let r := checkout no_str (request [line idA 1; line missing 1]) shop in
  r.1 = Raise (HTTPException 404
                 (Msg "Product ffffffffffffffffffffffff not found")) /\
  orders r.2 = Some [] /\
  log r.2 = [Find "product" idA; Find "product" missing].
Proof. vm_compute. repeat split; reflexivity. Qed.

(** An identifier that is not 24 characters long is answered with a 500
    before the store is queried. *)
Example malformed_identifier :
  checkout no_str (request [line "leggings-1" 1]) shop
  = (Raise (HTTPException 500 (StrOf (InvalidId "leggings-1"))), shop).
Proof. vm_compute. reflexivity. Qed.

(** Without a database the first cart line already fails. *)
Example no_database_checkout :
  checkout no_str cart_20 no_database
  = (Raise (HTTPException 500 (StrOf TypeError)), no_database).
Proof. vm_compute. reflexivity. Qed.

(** A whole checkout over a product stored without a price: the order is
    persisted with that line at price 0. *)
Example checkout_without_price :
  let r := checkout no_str (request [line idD 3; line idA 1]) odd_shop in
  r.1 = Ok first_id /\
  orders r.2 = Some [(first_id,
                      order_of [item_of idD "D" 0 3; item_of idA "A" 30 1]
                               30 10 40)].
Proof. vm_compute. split; reflexivity. Qed.

(** ** Counterexamples *)

(** C3 as stated fails: the second line of this cart names no stored
    product, yet the answer is the 500 of the first line, whose product is
    stored without the title an order line needs. *)
Lemma earlier_failure_hides_not_found :
  resolve_in odd_shop missing = None /\
  checkout no_str (request [line idE 1; line missing 1]) odd_shop
  = (Raise (HTTPException 500 (StrOf (ValidationError "OrderItem"))),
     record (Find "product" idE) odd_shop).
Proof. vm_compute. split; reflexivity. Qed.

(** C8 as stated fails: a checkout with an empty cart persists an order
    with no items, at subtotal 0, shipping 10 and total 10. *)
Lemma empty_cart_places_empty_order :
  let r := checkout no_str (request []) shop in
  r.1 = Ok first_id /\
  orders r.2 = Some [(first_id, order_of [] 0 10 10)] /\
  Order.items (order_of [] 0 10 10) = [].
Proof. vm_compute. repeat split; reflexivity. Qed.

(** C9 as stated fails: the store holds a document without a title; a
    valid product is created, under a new identifier, and the listing that
    follows shows no product at all, but the 500 of the document that is
    not valid. *)
Lemma unreadable_document_fails_listing :
  let r := post_products (entry "New" 42) store_odd in
  Product.valid (entry "New" 42) = true /\
  r.1 = Ok (numbered 3) /\
  (list_products no_text None r.2).1
  = Raise (HTTPException 500 (StrOf (ValidationError "ProductResponse"))).
Proof. vm_compute. repeat split; reflexivity. Qed.

(** ** Instances *)

Lemma zeros_inj k1 k2 (s1 s2 : string) :
  zeros k1 +:+ String "a" s1 = zeros k2 +:+ String "a" s2 -> s1 = s2.
Proof.
  revert k2. induction k1 as [|k1 IH]; intros [|k2]; simpl; intros H;
    try discriminate H.
  - injection H as ->. reflexivity.
  - injection H as H. exact (IH _ H).
Qed.

Lemma numbered_inj m n : numbered m = numbered n -> m = n.
Proof. intros H. apply zeros_inj in H. exact (pretty_nat_inj _ _ H). Qed.

(** The identifiers are unique in the empty store, and stay so as products
    are created. *)
Lemma unique_ids_store_ab : forall d, db store_ab = Some d -> unique_ids d.
Proof.
  assert (H0 : unique_ids {| product := []; order := []; issued := 0;
                             fresh := numbered |}).
  { split; [exact numbered_inj |]. split; constructor. }
  pose proof (unique_ids_insert _ (Product_to_dict (entry "A" 30)) H0) as H1.
  pose proof (unique_ids_insert _ (Product_to_dict (entry "B" 50)) H1) as H2.
  intros d Hd. injection Hd as <-. exact H2.
Qed.

Lemma shipping_cost_threshold_witness :
  let w' := (checkout no_str cart_110 shop).2 in
  checkout no_str cart_110 shop = (Ok first_id, w') /\
  exists o,
    placed shop w' first_id o /\
    (Order.shipping_cost o = Float.of_Z 0 <->
     Float.leb (Float.of_Z 100) (Order.subtotal o) = true) /\
    (Float.leb (Float.of_Z 100) (Order.subtotal o) = false ->
     Order.shipping_cost o = Float.of_Z 10) /\
    (Order.subtotal o = Float.of_Z 100 ->
     Order.shipping_cost o = Float.of_Z 0).
Proof.
  assert (H : checkout no_str cart_110 shop
              = (Ok first_id, (checkout no_str cart_110 shop).2))
    by (vm_compute; reflexivity).
  split; [exact H |].
  exact (shipping_cost_threshold no_str cart_110 shop first_id _ H).
Defined.

Lemma subtotal_is_sum_of_line_amounts_witness :
  let w' := (checkout no_str cart_110 shop).2 in
  checkout no_str cart_110 shop = (Ok first_id, w') /\
  exists d o prices,
    db shop = Some d /\ placed shop w' first_id o /\
    Forall2 (fun item price =>
               exists prod,
                 resolve d (CartItem.product_id item) = Some prod /\
                 price_of no_str prod price)
            (CheckoutRequest.items cart_110) prices /\
    Order.subtotal o
    = Float.sum (zip_with line_amount (CheckoutRequest.items cart_110)
                   prices) /\
    Order.subtotal o = Float.sum (amount <$> Order.items o).
Proof.
  assert (H : checkout no_str cart_110 shop
              = (Ok first_id, (checkout no_str cart_110 shop).2))
    by (vm_compute; reflexivity).
  split; [exact H |].
  exact (subtotal_is_sum_of_line_amounts no_str cart_110 shop first_id _ H).
Defined.

Lemma total_is_subtotal_plus_shipping_witness :
  let w' := (checkout no_str cart_20 shop).2 in
  checkout no_str cart_20 shop = (Ok first_id, w') /\
  exists o,
    placed shop w' first_id o /\
    Order.total o = Float.add (Order.subtotal o) (Order.shipping_cost o).
Proof.
  assert (H : checkout no_str cart_20 shop
              = (Ok first_id, (checkout no_str cart_20 shop).2))
    by (vm_compute; reflexivity).
  split; [exact H |].
  exact (total_is_subtotal_plus_shipping no_str cart_20 shop first_id _ H).
Defined.

Lemma order_items_are_snapshots_witness :
  let w' := (checkout no_str cart_110 shop).2 in
  checkout no_str cart_110 shop = (Ok first_id, w') /\
  exists d o,
    db shop = Some d /\ placed shop w' first_id o /\
    Order.status o = "pending" /\
    Forall2 (snapshot no_str d)
            (CheckoutRequest.items cart_110) (Order.items o) /\
    Order.customer_name o = CheckoutRequest.customer_name cart_110 /\
    Order.customer_email o = CheckoutRequest.customer_email cart_110 /\
    Order.shipping_address o = CheckoutRequest.shipping_address cart_110 /\
    Order.notes o = CheckoutRequest.notes cart_110.
Proof.
  assert (H : checkout no_str cart_110 shop
              = (Ok first_id, (checkout no_str cart_110 shop).2))
    by (vm_compute; reflexivity).
  split; [exact H |].
  exact (order_items_are_snapshots no_str cart_110 shop first_id _ H).
Defined.

Lemma order_has_one_item_per_line_witness :
  let w' := (checkout no_str cart_20 shop).2 in
  checkout no_str cart_20 shop = (Ok first_id, w') /\
  exists o,
    placed shop w' first_id o /\
    length (Order.items o) = length (CheckoutRequest.items cart_20) /\
    (Order.items o = [] <-> CheckoutRequest.items cart_20 = []).
Proof.
  assert (H : checkout no_str cart_20 shop
              = (Ok first_id, (checkout no_str cart_20 shop).2))
    by (vm_compute; reflexivity).
  split; [exact H |].
  exact (order_has_one_item_per_line no_str cart_20 shop first_id _ H).
Defined.

Lemma unresolvable_line_fails_checkout_witness :
  let payload := request [line idA 1; line missing 1; line idB 1] in
  CheckoutRequest.items payload
  = [line idA 1] ++ line missing 1 :: [line idB 1] /\
  resolve_in shop missing = None /\
  exists status detail w',
    checkout no_str payload shop
      = (Raise (HTTPException status detail), w') /\
    db w' = db shop /\
    (exists ops, log w' = log shop ++ ops /\ forallb is_find ops = true) /\
    (forall st w1 i,
       is_Some (db shop) ->
       ObjectId missing = Ok i ->
       checkout_loop no_str [line idA 1] ([], Float.zero) shop = (Ok st, w1) ->
       status = 404 /\
       detail = Msg ("Product " +:+ missing +:+ " not found")).
Proof.
  assert (H1 : CheckoutRequest.items
                 (request [line idA 1; line missing 1; line idB 1])
               = [line idA 1] ++ line missing 1 :: [line idB 1])
    by reflexivity.
  assert (H2 : resolve_in shop (CartItem.product_id (line missing 1)) = None)
    by (vm_compute; reflexivity).
  split; [exact H1 |]. split; [exact H2 |].
  exact (unresolvable_line_fails_checkout no_str _ shop _ _ _ H1 H2).
Defined.

Lemma create_product_rejects_invalid_witness :
  Float.ltb (Product.price (entry "X" (-5))) Float.zero = true /\
  exists e,
    post_products (entry "X" (-5)) shop = (Raise e, shop) /\
    (status_of e = 422 \/ status_of e = 500) /\
    (Product.price (entry "X" (-5)) <> S754_nan ->
     Product.price (entry "X" (-5)) <> S754_infinity true ->
     e = HTTPException 422 (StrOf (ValidationError "ProductCreate"))) /\
    (Product.price (entry "X" (-5)) = S754_nan \/
     Product.price (entry "X" (-5)) = S754_infinity true ->
     e = ValueError).
Proof.
  assert (H : Float.ltb (Product.price (entry "X" (-5))) Float.zero = true)
    by (vm_compute; reflexivity).
  split; [exact H |].
  exact (create_product_rejects_invalid (entry "X" (-5)) shop (or_introl H)).
Defined.

Lemma created_product_is_listed_once_witness :
  exists s w1 old w2,
    post_products (entry "New" 42) store_ab = (Ok s, w1) /\
    (s ∉ [numbered 0; numbered 1]) /\
    list_products no_text None w1
      = (Ok (old ++ [{| ProductResponse.id := s;
                        ProductResponse.product := entry "New" 42 |}]), w2) /\
    Forall2 (fun x r => response_of no_text x = Ok r)
            (products_of store_ab) old /\
    Forall (fun r => ProductResponse.id r <> s) old /\
    NoDup (ProductResponse.id
             <$> (old ++ [{| ProductResponse.id := s;
                             ProductResponse.product := entry "New" 42 |}]))
    /\ exists d1, db w1 = Some d1 /\ unique_ids d1.
Proof.
  assert (Hvalid : Product.valid (entry "New" 42) = true)
    by (vm_compute; reflexivity).
  assert (Hdocs : Forall (fun x => exists r, response_of no_text x = Ok r)
                         (products_of store_ab)).
  { repeat constructor; eexists; vm_compute; reflexivity. }
  exact (created_product_is_listed_once no_text (entry "New" 42) store_ab _
           Hvalid eq_refl (unique_ids_store_ab _ eq_refl) Hdocs).
Defined.

Lemma created_catalog_is_listed_witness :
  exists ss w1 w2,
    create_all [entry "A" 30; entry "B" 50] empty_store = (Ok ss, w1) /\
    length ss = 2%nat /\
    NoDup ss /\
    list_products no_text None w1
    = (Ok (zip_with listed_as ss [entry "A" 30; entry "B" 50]), w2).
Proof.
  apply (created_catalog_is_listed no_text [entry "A" 30; entry "B" 50]
           empty_store _ eq_refl eq_refl numbered_inj).
  repeat constructor.
Defined.

Lemma missing_price_counts_as_zero_witness :
  let payload := request [line idA 1; line idD 3; line idB 1] in
  fields docD !! "price" = None /\
  exists s w' o its1 it its2,
    checkout no_str payload odd_shop_ab = (Ok s, w') /\
    placed odd_shop_ab w' s o /\
    Order.items o = its1 ++ it :: its2 /\
    length its1 = 1%nat /\
    OrderItem.product_id it = idD /\
    OrderItem.price it = Float.zero /\
    amount it = Float.zero /\
    Order.subtotal o = Float.sum (amount <$> its1 ++ it :: its2) /\
    Order.subtotal o = Float.sum (amount <$> its1 ++ its2).
Proof.
  assert (Hprice : fields docD !! "price" = None) by (vm_compute; reflexivity).
  assert (HA : ready no_str catalog_ab (line idA 1)).
  { apply (ready_of_reads no_str _ _ docA "A" (Float.of_Z 30) (Float.of_Z 1));
      vm_compute; first [reflexivity | discriminate]. }
  assert (HB : ready no_str catalog_ab (line idB 1)).
  { apply (ready_of_reads no_str _ _ docB "B" (Float.of_Z 50) (Float.of_Z 1));
      vm_compute; first [reflexivity | discriminate]. }
  split; [exact Hprice |].
  refine (missing_price_counts_as_zero no_str
            (request [line idA 1; line idD 3; line idB 1]) odd_shop_ab
            catalog_ab [line idA 1] (line idD 3) [line idB 1] docD "D"
            (Float.of_Z 3) eq_refl eq_refl _ _ _ Hprice _ _ _).
  - constructor; [exact HA | constructor].
  - constructor; [exact HB | constructor].
  - vm_compute. reflexivity.
  - vm_compute. reflexivity.
  - simpl. lia.
  - vm_compute. reflexivity.
Defined.

(** * Further properties of the handlers *)

(** ** What a turn of the loop can do *)

Lemma is_hex_not_space c : is_hex c = true -> is_space c = false.
Proof.
  destruct c as [[] [] [] [] [] [] [] []]; vm_compute; intros H;
    first [reflexivity | discriminate H].
Qed.

(** What [fromhex] reads is the hexadecimal text of the string. *)
Lemma fromhex_hex_text s i : fromhex s = Some i -> i = hex_text s.
Proof.
  remember (String.length s) as n eqn:Hn. revert s i Hn.
  induction n as [n IH] using lt_wf_ind. intros s i Hn.
  destruct s as [|c r]; cbn [fromhex].
  - intros H. injection H as <-. reflexivity.
  - unfold hex_text. cbn [string_filter].
    destruct (is_space c) eqn:Hc; cbn [negb].
    + apply (IH (String.length r)); [subst n; simpl; lia | reflexivity].
    + destruct r as [|c' r']; [discriminate |].
      destruct (is_hex c) eqn:Hh; [| discriminate].
      destruct (is_hex c') eqn:Hh'; [| discriminate]. cbn [andb].
      destruct (fromhex r') as [t|] eqn:Hr; [| discriminate].
      intros H. injection H as <-.
      cbn [string_filter]. rewrite (is_hex_not_space _ Hh'). cbn [negb].
      cbn [string_map]. do 2 f_equal.
      apply (IH (String.length r')); [subst n; simpl; lia | reflexivity |].
      exact Hr.
Qed.

Lemma ObjectId_Ok s i : ObjectId s = Ok i -> i = hex_text s.
Proof.
  unfold ObjectId. destruct (_ =? _)%nat; [| discriminate].
  destruct (fromhex s) as [t|] eqn:Ht; intros H; [| discriminate].
  injection H as <-. exact (fromhex_hex_text _ _ Ht).
Qed.

Lemma ObjectId_Raise s e : ObjectId s = Raise e -> e = InvalidId s.
Proof.
  unfold ObjectId. destruct (_ =? _)%nat;
    [destruct (fromhex s) |]; intros H;
    first [discriminate H | injection H as <-; reflexivity].
Qed.

(** [ObjectId] refuses exactly the strings that are not 24 characters
    long or that [fromhex] does not read. *)
Lemma ObjectId_refuses s :
  ObjectId s = Raise (InvalidId s) <->
  String.length s <> 24%nat \/ fromhex s = None.
Proof.
  unfold ObjectId.
  destruct (String.length s =? 24)%nat eqn:Hlen.
  - apply Nat.eqb_eq in Hlen.
    destruct (fromhex s); split; intros H;
      first [discriminate H | right; reflexivity | reflexivity
            | destruct H as [H | H]; [contradiction | discriminate H]].
  - apply Nat.eqb_neq in Hlen. split; auto.
Qed.

Lemma float_of_int_Raise n e : float_of_int n = Raise e -> e = OverflowError.
Proof.
  unfold float_of_int. destruct (Float.of_Z n); intros H;
    first [discriminate H | injection H as <-; reflexivity].
Qed.

Lemma float_of_value_Raise float_of_str v e :
  float_of_value float_of_str v = Raise e ->
  e = TypeError \/ e = ValueError \/ e = OverflowError.
Proof.
  destruct v as [|b|n|f|s|b|l|r]; simpl; intros H; try discriminate H;
    try (injection H as <-; auto).
  - apply float_of_int_Raise in H. auto.
  - destruct (float_of_str s); [discriminate H |]. injection H as <-. auto.
  - destruct (float_of_bytes _ b); [discriminate H |].
    injection H as <-. auto.
Qed.

Lemma OrderItem_new_Raise product_id title price color size quantity e :
  OrderItem.new product_id title price color size quantity = Raise e ->
  e = ValidationError "OrderItem" /\
  ((forall t, ~ text_of title t) \/ Float.nonneg price = false
   \/ quantity < 1).
Proof.
  unfold OrderItem.new.
  destruct (as_str "OrderItem" title) as [t|e0] eqn:Ht; simpl.
  2:{ intros H. injection H as <-. split.
      - unfold as_str, from_opt in Ht. destruct (text title); [discriminate |].
        injection Ht as <-. reflexivity.
      - left. intros t Htext. apply (as_str_text_of "OrderItem") in Htext.
        congruence. }
  destruct (Float.nonneg price) eqn:Hp; simpl.
  - destruct (1 <=? quantity) eqn:Hq; simpl; [discriminate |].
    intros H. injection H as <-. split; [reflexivity |].
    right. right. apply Z.leb_gt in Hq. lia.
  - intros H. injection H as <-. split; [reflexivity |]. right. left.
    reflexivity.
Qed.

Lemma Order_new_Raise items name email address subtotal shipping_cost total
    status notes e :
  Order.new items name email address subtotal shipping_cost total status
    notes = Raise e ->
  e = ValidationError "Order".
Proof.
  unfold Order.new. destruct (_ && _); simpl; intros H; [discriminate |].
  injection H as <-. reflexivity.
Qed.

Section LineOutcomes.

Variable float_of_str : string -> option float.

Lemma checkout_line_outcome item its sub w d r w' :
  db w = Some d ->
  checkout_line float_of_str item (its, sub) w = (r, w') ->
  exists ops,
    line_outcome float_of_str d item its sub r ops /\
    db w' = Some d /\ log w' = log w ++ ops.
Proof.
  intros Hd.
  unfold checkout_line, mbind, M_bind, db_getitem, lift, find_product, raise,
    mret, M_ret.
  rewrite Hd. cbn beta iota.
  destruct (ObjectId (CartItem.product_id item)) as [i|e] eqn:Hi;
    cbn beta iota.
  2:{ intros H. injection H as <- <-. exists [].
      pose proof (ObjectId_Raise _ _ Hi) as ->.
      rewrite app_nil_r. repeat split; try assumption.
      apply line_bad_id. exact Hi. }
  rewrite Hd.
  assert (Hlookup : Find "product" i = lookup_of item).
  { unfold lookup_of. rewrite (ObjectId_Ok _ _ Hi). reflexivity. }
  assert (Hres : resolve d (CartItem.product_id item)
                 = List.find (fun x => String.eqb (_id x) i) (product d)).
  { unfold resolve. rewrite Hi. reflexivity. }
  assert (Hrec : forall x,
             line_outcome float_of_str d item its sub x [lookup_of item] ->
             (x, record (Find "product" i) w) = (r, w') ->
             exists ops,
               line_outcome float_of_str d item its sub r ops /\
               db w' = Some d /\ log w' = log w ++ ops).
  { intros x Hx H. injection H as <- <-. exists [lookup_of item].
    rewrite Hlookup. repeat split; try assumption; reflexivity. }
  destruct (List.find _ (product d)) as [prod|]; cbn beta iota.
  2:{ apply Hrec. apply (line_missing _ _ _ _ _ i); assumption. }
  destruct (float_of_value _ _) as [price|e] eqn:Hprice; cbn beta iota.
  2:{ apply Hrec. apply (line_bad_price _ _ _ _ _ prod); assumption. }
  unfold float_mul_int, mbind, result_bind.
  destruct (float_of_int _) as [q|e] eqn:Hq; cbn beta iota.
  2:{ pose proof (float_of_int_Raise _ _ Hq) as ->. apply Hrec.
      apply (line_overflow _ _ _ _ _ prod price); assumption. }
  destruct (OrderItem.new _ _ _ _ _ _) as [it|e] eqn:Hit; cbn beta iota.
  - apply Hrec. apply (line_ok _ _ _ _ _ prod price q it); assumption.
  - apply OrderItem_new_Raise in Hit as [-> Hwhy]. apply Hrec.
    apply (line_bad_item _ _ _ _ _ prod price q); try assumption.
    destruct Hwhy as [Hno | Hwhy]; [left | right; exact Hwhy].
    intros title Htitle. apply title_of_dict_get in Htitle.
    exact (Hno title Htitle).
Qed.

End LineOutcomes.

(** ** What a checkout can do *)

Section CheckoutOutcomes.

Variable float_of_str : string -> option float.

Lemma line_ok_ready d item its sub st ops :
  line_outcome float_of_str d item its sub (Ok st) ops ->
  ready float_of_str d item /\
  ops = [lookup_of item] /\
  exists it, st.1 = its ++ [it] /\ item_in_bounds it.
Proof.
  intros H. inversion H as [| | | | |prod price q it Hres Hprice Hq Hit]; subst.
  apply OrderItem_new_inv in Hit
    as (Htitle & _ & Hp & _ & _ & Hqty & Hnonneg & Hge).
  split; [| split; [reflexivity |]].
  - exists prod, (OrderItem.title it), price, q.
    split; [exact Hres |].
    split; [apply title_of_dict_get, Htitle |].
    split; [apply price_of_float_of_value, Hprice |].
    repeat split; assumption.
  - exists it. split; [reflexivity |]. unfold item_in_bounds.
    rewrite Hp, Hqty. split; assumption.
Qed.

Lemma line_raise_not_ready d item its sub e ops :
  line_outcome float_of_str d item its sub (Raise e) ops ->
  ~ ready float_of_str d item.
Proof.
  intros H (prod & title & price & q & Hres & Htitle & Hprice & Hnonneg
            & Hqty & Hq).
  apply price_of_float_of_value in Hprice.
  inversion H as [Hi|i Hi Hnone|prod' e' Hres' Hprice'
                  |prod' price' Hres' Hprice' Hq'
                  |prod' price' q' Hres' Hprice' Hq' Hwhy|]; subst.
  - unfold resolve in Hres. rewrite Hi in Hres. discriminate.
  - congruence.
  - congruence.
  - congruence.
  - assert (prod' = prod) by congruence. subst prod'.
    assert (price' = price) by congruence. subst price'.
    destruct Hwhy as [Hno | [Hneg | Hlow]].
    + exact (Hno title Htitle).
    + congruence.
    + lia.
Qed.

(** A failing turn raises the 404 of its line, or an exception that is not
    an HTTP error. *)
Lemma line_raise_kind d item its sub e ops :
  line_outcome float_of_str d item its sub (Raise e) ops ->
  (e = not_found (CartItem.product_id item) /\
   resolve d (CartItem.product_id item) = None /\
   exists i, ObjectId (CartItem.product_id item) = Ok i) \/
  is_http e = false.
Proof.
  intros H.
  inversion H as [Hi|i Hi Hnone|prod' e' Hres' Hprice'
                  |prod' price' Hres' Hprice' Hq'
                  |prod' price' q' Hres' Hprice' Hq' Hwhy|]; subst;
    try (right; reflexivity).
  - left. eauto.
  - right. apply float_of_value_Raise in Hprice' as [-> | [-> | ->]];
      reflexivity.
Qed.

Lemma line_raise_ops d item its sub e ops :
  line_outcome float_of_str d item its sub (Raise e) ops ->
  ops = [] \/ ops = [lookup_of item].
Proof. intros H. inversion H; subst; auto. Qed.

(** The loop either runs to its end, every line being ready, or stops at
    the first line that is not, with what that turn raised. *)
Lemma checkout_loop_outcome items its sub w d r w' :
  db w = Some d ->
  checkout_loop float_of_str items (its, sub) w = (r, w') ->
  db w' = Some d /\
  ((exists new sub',
      r = Ok (its ++ new, sub') /\
      Forall (ready float_of_str d) items /\
      Forall item_in_bounds new /\
      log w' = log w ++ (lookup_of <$> items)) \/
   (exists pre item post its1 sub1 e ops,
      items = pre ++ item :: post /\
      Forall (ready float_of_str d) pre /\
      line_outcome float_of_str d item its1 sub1 (Raise e) ops /\
      r = Raise e /\
      log w' = log w ++ (lookup_of <$> pre) ++ ops)).
Proof.
  revert its sub w. induction items as [|item items IH]; intros its sub w Hd.
  - intros H. injection H as <- <-. split; [exact Hd |]. left.
    exists [], sub. rewrite !app_nil_r. repeat split; constructor.
  - rewrite checkout_loop_cons. unfold mbind, M_bind.
    destruct (checkout_line float_of_str item (its, sub) w)
      as [[[its1 sub1]|e] w1] eqn:Hline;
      apply (checkout_line_outcome _ _ _ _ _ d _ _ Hd) in Hline
        as (ops & Hout & Hd1 & Hlog1).
    + intros Hrest.
      apply line_ok_ready in Hout as (Hready & -> & it & Hits1 & Hit).
      simpl in Hits1. subst its1.
      apply (IH _ _ _ Hd1) in Hrest as [Hd' Hcases]. split; [exact Hd' |].
      destruct Hcases
        as [(new & sub' & -> & Hreadys & Hnew & Hlog)
           |(pre & item' & post & its2 & sub2 & e & ops & -> & Hpre & Hout
             & -> & Hlog)].
      * left. exists (it :: new), sub'. rewrite <- app_assoc.
        repeat split; try (constructor; assumption).
        rewrite Hlog, Hlog1, fmap_cons, <- app_assoc. reflexivity.
      * right. exists (item :: pre), item', post, its2, sub2, e, ops.
        repeat split; try assumption; try (constructor; assumption).
        rewrite Hlog, Hlog1, fmap_cons, <- !app_assoc. reflexivity.
    + intros H. injection H as <- <-. split; [exact Hd1 |]. right.
      exists [], item, items, its, sub, e, ops.
      repeat split; try assumption; constructor.
Qed.

Lemma checkout_handler_answer {A : Type} (e : exn) w :
  @checkout_handler A e w = (Raise (answer_of e), w).
Proof. destruct e; reflexivity. Qed.

(** With the store available, a checkout either persists an order built
    from a cart whose lines are all ready, after one query per line and one
    insertion, or fails at the first line that is not ready, with the
    answer to what that turn raised and the queries made so far. *)
Lemma checkout_outcome payload w d r w' :
  db w = Some d ->
  checkout float_of_str payload w = (r, w') ->
  (exists s o,
     r = Ok s /\ placed w w' s o /\
     Forall (ready float_of_str d) (CheckoutRequest.items payload) /\
     Forall item_in_bounds (Order.items o) /\
     Float.nonneg (Order.subtotal o) = true /\
     Float.nonneg (Order.shipping_cost o) = true /\
     Float.nonneg (Order.total o) = true /\
     log w' = log w ++ (lookup_of <$> CheckoutRequest.items payload)
                    ++ [InsertOne "order" s]) \/
  (exists pre item post its1 sub1 e ops,
     CheckoutRequest.items payload = pre ++ item :: post /\
     Forall (ready float_of_str d) pre /\
     line_outcome float_of_str d item its1 sub1 (Raise e) ops /\
     r = Raise (answer_of e) /\
     db w' = Some d /\
     log w' = log w ++ (lookup_of <$> pre) ++ ops).
Proof.
  intros Hd. unfold checkout, try_except, checkout_body.
  unfold mbind at 1. unfold M_bind at 1.
  destruct (checkout_loop float_of_str (CheckoutRequest.items payload)
              ([], Float.zero) w) as [[[its sub]|e] w1] eqn:Hloop;
    pose proof (checkout_loop_outcome _ _ _ _ _ _ _ Hd Hloop) as [Hd1 Hcases].
  - destruct Hcases
      as [(new & sub' & Heq & Hreadys & Hnew & Hlog)
         |(? & ? & ? & ? & ? & ? & ? & _ & _ & _ & Hne & _)];
      [| discriminate Hne].
    injection Heq as -> ->.
    destruct (checkout_loop_Ok _ _ _ _ _ _ _ _ d Hd Hloop)
      as (new' & _ & Hnonnegs & Hsame & ->).
    simpl in Hsame. subst new'.
    assert (Hsub : Float.nonneg
                     (fold_left Float.add (amount <$> new) Float.zero) = true).
    { apply nonneg_fold_add; [reflexivity |].
      apply Forall_fmap. exact Hnonnegs. }
    unfold mbind, M_bind, lift, Order.new, result_bind, check.
    rewrite Hsub, nonneg_shipping_cost.
    pose proof (nonneg_add _ _ Hsub (nonneg_shipping_cost
                  (fold_left Float.add (amount <$> new) Float.zero)))
      as Htotal.
    rewrite Htotal. cbn [andb]. unfold create_document_order. rewrite Hd1.
    intros H. injection H as <- <-. left.
    eexists _, _. split; [reflexivity |].
    split.
    { exists d. eexists. cbn [db order product].
      repeat split; try reflexivity. exact Hd. }
    cbn [Order.items Order.subtotal Order.shipping_cost Order.total log].
    rewrite Hlog, <- app_assoc.
    repeat split; try assumption; try reflexivity.
    apply nonneg_shipping_cost.
  - destruct Hcases
      as [(? & ? & Hne & _)
         |(pre & item & post & its1 & sub1 & e' & ops & Hitems & Hpre & Hout
           & Heq & Hlog)];
      [discriminate Hne |].
    injection Heq as <-.
    rewrite checkout_handler_answer. intros H. injection H as <- <-.
    right. exists pre, item, post, its1, sub1, e, ops.
    repeat split; assumption.
Qed.

End CheckoutOutcomes.

(** ** Success, failure and store traffic of [checkout] *)

Section CheckoutBehaviour.

Variable float_of_str : string -> option float.

Lemma find_id_None (l : list document) i :
  List.find (fun x => String.eqb (_id x) i) l = None -> i ∉ (_id <$> l).
Proof.
  induction l as [|x l IH]; simpl; [intros _; apply not_elem_of_nil |].
  destruct (String.eqb (_id x) i) eqn:Heq; [discriminate |].
  intros H. apply not_elem_of_cons. split; [| exact (IH H)].
  apply String.eqb_neq in Heq. congruence.
Qed.

Lemma checkout_line_no_database item st w :
  db w = None ->
  checkout_line float_of_str item st w = (Raise TypeError, w).
Proof.
  intros Hd. destruct st as [its sub].
  unfold checkout_line, mbind, M_bind, db_getitem. rewrite Hd. reflexivity.
Qed.

(** Without a database, a cart with a line is answered 500 for the
    [TypeError] of its first turn; the empty cart reaches the insertion. *)
Lemma checkout_no_database payload w :
  db w = None ->
  checkout float_of_str payload w
  = (Raise (HTTPException 500
              (StrOf (match CheckoutRequest.items payload with
                      | [] => StorageError
                      | _ :: _ => TypeError
                      end))), w).
Proof.
  intros Hd. unfold checkout, try_except, checkout_body.
  destruct (CheckoutRequest.items payload) as [|item items].
  - unfold mbind, M_bind, checkout_loop, mret, M_ret, lift,
      create_document_order.
    cbn. rewrite Hd. reflexivity.
  - rewrite (bind_Raise _ _ _ TypeError w); [reflexivity |].
    rewrite checkout_loop_cons.
    apply bind_Raise, checkout_line_no_database, Hd.
Qed.

(** X1.  [checkout] returns an identifier exactly when the store is
    available and every cart line is ready: it resolves to a product that
    has a title (a string, or bytes that decode) and a price (a number, or
    text that reads as one, 0 when absent) that is not negative, and its
    quantity is at least 1 and converts to a float. *)
Theorem checkout_returns_iff_ready payload w :
  (exists s w', checkout float_of_str payload w = (Ok s, w')) <->
  (exists d, db w = Some d /\
             Forall (ready float_of_str d) (CheckoutRequest.items payload)).
Proof.
  split.
  - intros (s & w' & Hco).
    destruct (db w) as [d|] eqn:Hd.
    + exists d. split; [reflexivity |].
      destruct (checkout_outcome _ _ _ _ _ _ Hd Hco)
        as [(s' & o & _ & _ & Hready & _)
           |(? & ? & ? & ? & ? & ? & ? & _ & _ & _ & Hne & _)];
        [exact Hready | discriminate Hne].
    + rewrite (checkout_no_database _ _ Hd) in Hco. discriminate Hco.
  - intros (d & Hd & Hready). exact (checkout_succeeds _ _ _ _ Hd Hready).
Qed.

(** X2.  A checkout that fails is answered 404 or 500 and nothing else.
    The 404 names the [product_id] of a cart line that [ObjectId] accepts,
    24 characters that [bytes.fromhex] reads, and whose identifier no
    stored product carries; a 500 carries an exception that is not an HTTP
    error. *)
Theorem checkout_fails_with_404_or_500 payload w e w' :
  checkout float_of_str payload w = (Raise e, w') ->
  (exists item,
     item ∈ CheckoutRequest.items payload /\
     e = HTTPException 404
           (Msg ("Product " +:+ CartItem.product_id item +:+ " not found")) /\
     String.length (CartItem.product_id item) = 24%nat /\
     fromhex (CartItem.product_id item)
     = Some (hex_text (CartItem.product_id item)) /\
     hex_text (CartItem.product_id item) ∉ (_id <$> products_of w)) \/
  (exists e0, e = HTTPException 500 (StrOf e0) /\ is_http e0 = false).
Proof.
  intros Hco. destruct (db w) as [d|] eqn:Hd.
  - destruct (checkout_outcome _ _ _ _ _ _ Hd Hco)
      as [(? & ? & Hne & _)
         |(pre & item & post & its1 & sub1 & e0 & ops & Hitems & _ & Hout
           & Heq & _)];
      [discriminate Hne |].
    injection Heq as ->.
    destruct (line_raise_kind _ _ _ _ _ _ _ Hout)
      as [(-> & Hnone & i & Hi) | Hkind].
    + left. exists item. split.
      { rewrite Hitems. apply elem_of_app. right. apply elem_of_cons. auto. }
      split; [reflexivity |].
      unfold resolve in Hnone. rewrite Hi in Hnone.
      pose proof (ObjectId_Ok _ _ Hi) as ->.
      unfold ObjectId in Hi.
      destruct (String.length _ =? 24)%nat eqn:Hlen; [| discriminate Hi].
      apply Nat.eqb_eq in Hlen. split; [exact Hlen |].
      destruct (fromhex _) as [t|]; [| discriminate Hi].
      injection Hi as ->. split; [reflexivity |].
      unfold products_of. rewrite Hd. exact (find_id_None _ _ Hnone).
    + right. exists e0. unfold answer_of. rewrite Hkind. auto.
  - rewrite (checkout_no_database _ _ Hd) in Hco. injection Hco as <- _.
    right. eexists. split; [reflexivity |].
    destruct (CheckoutRequest.items payload); reflexivity.
Qed.

(** X3.  The store traffic of a checkout: one product query per cart line,
    in cart order, then one order insertion when it succeeds; when it fails,
    queries for the first lines of the cart only, and no insertion.  A
    line is queried under the hexadecimal digits of its [product_id], in
    lower case and without its whitespace. *)
Theorem checkout_store_traffic payload w r w' :
  checkout float_of_str payload w = (r, w') ->
  match r with
  | Ok s =>
      log w' = log w ++ (lookup_of <$> CheckoutRequest.items payload)
                     ++ [InsertOne "order" s]
  | Raise _ =>
      exists k,
        (k <= length (CheckoutRequest.items payload))%nat /\
        log w' = log w ++ (lookup_of <$> take k (CheckoutRequest.items payload))
  end.
Proof.
  intros Hco. destruct (db w) as [d|] eqn:Hd.
  - destruct (checkout_outcome _ _ _ _ _ _ Hd Hco)
      as [(s & o & -> & _ & _ & _ & _ & _ & _ & Hlog)
         |(pre & item & post & its1 & sub1 & e0 & ops & Hitems & _ & Hout
           & -> & _ & Hlog)].
    + exact Hlog.
    + rewrite Hitems, Hlog, length_app. simpl length.
      destruct (line_raise_ops _ _ _ _ _ _ _ Hout) as [-> | ->].
      * exists (length pre). split; [lia |].
        rewrite take_app_length, app_nil_r. reflexivity.
      * exists (S (length pre)). split; [lia |].
        replace (pre ++ item :: post) with ((pre ++ [item]) ++ post)
          by (rewrite <- app_assoc; reflexivity).
        rewrite take_app_length'
          by (rewrite length_app; simpl; lia).
        rewrite fmap_app. reflexivity.
  - rewrite (checkout_no_database _ _ Hd) in Hco. injection Hco as <- <-.
    exists 0%nat. split; [lia |]. rewrite take_0, app_nil_r. reflexivity.
Qed.

End CheckoutBehaviour.

(** ** What [checkout] leaves in the collections *)

Section CheckoutCollections.

Variable float_of_str : string -> option float.

(** X4.  A checkout never touches the stored products nor the orders
    already there: when it succeeds the orders are the earlier ones followed
    by the new one under the returned identifier, and when it fails they
    are the earlier ones. *)
Theorem checkout_only_appends_an_order payload w r w' :
  checkout float_of_str payload w = (r, w') ->
  products_of w' = products_of w /\
  match r with
  | Ok s => exists o, orders_of w' = orders_of w ++ [(s, o)]
  | Raise _ => orders_of w' = orders_of w
  end.
Proof.
  intros Hco. unfold products_of, orders_of. destruct r as [s|e].
  - apply checkout_Ok in Hco as (d & new & o & _ & _ & _ & _ & Hplaced).
    destruct Hplaced as (d0 & d' & -> & -> & Hproducts & Horders).
    split; [exact Hproducts |]. eexists. exact Horders.
  - apply checkout_Raise in Hco as (_ & -> & _). split; reflexivity.
Qed.

(** X5.  Every order a checkout persists is within the bounds of its
    schema: each item has a price that is not negative and a quantity of at
    least 1, and subtotal, shipping cost and total are not negative (so none
    is a NaN). *)
Theorem persisted_order_in_bounds payload w s w' :
  checkout float_of_str payload w = (Ok s, w') ->
  exists o,
    placed w w' s o /\
    Forall (fun it => Float.nonneg (OrderItem.price it) = true /\
                      1 <= OrderItem.quantity it) (Order.items o) /\
    Float.nonneg (Order.subtotal o) = true /\
    Float.nonneg (Order.shipping_cost o) = true /\
    Float.nonneg (Order.total o) = true.
Proof.
  intros Hco.
  pose proof (checkout_Ok _ _ _ _ _ Hco) as (d & _ & _ & Hd & _).
  destruct (checkout_outcome _ _ _ _ _ _ Hd Hco)
    as [(s' & o & Hs & Hplaced & _ & Hitems & Hsub & Hship & Htotal & _)
       |(? & ? & ? & ? & ? & ? & ? & _ & _ & _ & Hne & _)];
    [| discriminate Hne].
  injection Hs as <-.
  exists o. split; [exact Hplaced |]. split; [exact Hitems |].
  split; [exact Hsub |]. split; [exact Hship | exact Htotal].
Qed.

(** X6.  A cart with a line whose quantity is below 1 is never turned into
    an order and never turned away as invalid: the request reaches the
    handler and is answered 404 or 500, the collections unchanged. *)
Theorem low_quantity_never_ordered body w item :
  item ∈ CheckoutRequest.items body ->
  CartItem.quantity item < 1 ->
  exists status detail w',
    post_checkout float_of_str body w
      = (Raise (HTTPException status detail), w') /\
    (status = 404 \/ status = 500) /\
    db w' = db w.
Proof.
  intros Hin Hlow. rewrite post_checkout_reaches_handler.
  destruct (db w) as [d|] eqn:Hd.
  2:{ rewrite (checkout_no_database _ _ _ Hd).
      eexists _, _, w. repeat split; auto. }
  destruct (checkout float_of_str body w) as [r w'] eqn:Hco.
  destruct (checkout_outcome _ _ _ _ _ _ Hd Hco)
    as [(s & o & _ & _ & Hready & _)
       |(pre & it & post & its1 & sub1 & e & ops & _ & _ & Hout & -> & Hd'
         & _)].
  - exfalso. rewrite Forall_forall in Hready.
    destruct (Hready item Hin) as (? & ? & ? & ? & _ & _ & _ & _ & Hge & _).
    lia.
  - rewrite <- Hd in Hd'.
    destruct (line_raise_kind _ _ _ _ _ _ _ Hout) as [(-> & _) | Hkind].
    + eexists _, _, w'. repeat split; auto; congruence.
    + unfold answer_of. rewrite Hkind.
      eexists _, _, w'. repeat split; auto; congruence.
Qed.

End CheckoutCollections.

(** ** The first line that cannot be processed decides *)

Lemma first_failing_unique {A : Type} (P : A -> Prop)
    (pre pre' : list A) x x' post post' :
  pre ++ x :: post = pre' ++ x' :: post' ->
  Forall P pre -> ~ P x -> Forall P pre' -> ~ P x' ->
  pre = pre' /\ x = x' /\ post = post'.
Proof.
  revert pre'. induction pre as [|a pre IH]; intros pre' Heq Hpre Hx Hpre' Hx'.
  - destruct pre' as [|a' pre'].
    + injection Heq as -> ->. auto.
    + injection Heq as -> _. apply Forall_cons in Hpre' as [Ha _].
      contradiction.
  - destruct pre' as [|a' pre'].
    + injection Heq as <- _. apply Forall_cons in Hpre as [Ha _].
      contradiction.
    + injection Heq as <- Heq.
      apply Forall_cons in Hpre as [_ Hpre].
      apply Forall_cons in Hpre' as [_ Hpre'].
      destruct (IH pre' Heq Hpre Hx Hpre' Hx') as (-> & -> & ->). auto.
Qed.

Section FirstFailure.

Variable float_of_str : string -> option float.

(** With the store available, the lines before it ready and line [item]
    not, the checkout is answered with what the turn on [item] raises; the
    store has been queried for the lines before it and at most for it. *)
Lemma checkout_first_failure payload w d pre item post :
  db w = Some d ->
  CheckoutRequest.items payload = pre ++ item :: post ->
  Forall (ready float_of_str d) pre ->
  ~ ready float_of_str d item ->
  exists its1 sub1 e ops w',
    line_outcome float_of_str d item its1 sub1 (Raise e) ops /\
    checkout float_of_str payload w = (Raise (answer_of e), w') /\
    db w' = db w /\
    log w' = log w ++ (lookup_of <$> pre) ++ ops.
Proof.
  intros Hd Hitems Hpre Hitem.
  destruct (checkout float_of_str payload w) as [r w'] eqn:Hco.
  destruct (checkout_outcome _ _ _ _ _ _ Hd Hco)
    as [(s & o & _ & _ & Hready & _)
       |(pre' & item' & post' & its1 & sub1 & e & ops & Hitems' & Hpre'
         & Hout & -> & Hd' & Hlog)].
  - exfalso. rewrite Hitems in Hready.
    apply Forall_app in Hready as [_ Hready].
    apply Forall_cons in Hready as [Hready _]. contradiction.
  - rewrite Hitems in Hitems'.
    destruct (first_failing_unique _ _ _ _ _ _ _ Hitems' Hpre Hitem Hpre'
                (line_raise_not_ready _ _ _ _ _ _ _ Hout))
      as (<- & <- & <-).
    exists its1, sub1, e, ops, w'.
    repeat split; try assumption; try reflexivity. congruence.
Qed.

(** X7.  A cart line whose [product_id] is not 24 characters long, or is
    not made of pairs of hexadecimal digits with whitespace between pairs
    at most, the lines before it being ready: the checkout is answered 500
    for the [InvalidId] of that identifier, and the store has been queried
    for the lines before it only, not for that line nor for any after
    it. *)
Theorem malformed_identifier_is_500 payload w d pre item post :
  db w = Some d ->
  CheckoutRequest.items payload = pre ++ item :: post ->
  Forall (ready float_of_str d) pre ->
  String.length (CartItem.product_id item) <> 24%nat \/
  fromhex (CartItem.product_id item) = None ->
  exists w',
    checkout float_of_str payload w
      = (Raise (HTTPException 500
                  (StrOf (InvalidId (CartItem.product_id item)))), w') /\
    db w' = db w /\
    log w' = log w ++ (lookup_of <$> pre).
Proof.
  intros Hd Hitems Hpre Hbad.
  assert (Hi : ObjectId (CartItem.product_id item)
               = Raise (InvalidId (CartItem.product_id item))).
  { apply ObjectId_refuses, Hbad. }
  assert (Hnot : ~ ready float_of_str d item).
  { intros (prod & ? & ? & ? & Hres & _). unfold resolve in Hres.
    rewrite Hi in Hres. discriminate. }
  destruct (checkout_first_failure _ _ _ _ _ _ Hd Hitems Hpre Hnot)
    as (its1 & sub1 & e & ops & w' & Hout & Hco & Hdb & Hlog).
  exists w'.
  assert (He : e = InvalidId (CartItem.product_id item) /\ ops = []).
  { inversion Hout as [Hi'|i Hi' Hnone|prod e' Hres Hprice
                       |prod price Hres Hprice Hq
                       |prod price q Hres Hprice Hq Hwhy|]; subst;
      try (split; reflexivity);
      try (unfold resolve in Hres; rewrite Hi in Hres; discriminate).
    congruence. }
  destruct He as [-> ->]. rewrite app_nil_r in Hlog.
  repeat split; assumption.
Qed.

(** X8.  A cart line that resolves to a product whose price is stored as
    null, as a list or as a value of another kind, the lines before it
    being ready: the checkout is answered 500 for a [TypeError], after the
    query for that line.  (A price that is absent counts as 0 instead.) *)
Theorem null_price_is_500 payload w d pre item post prod v :
  db w = Some d ->
  CheckoutRequest.items payload = pre ++ item :: post ->
  Forall (ready float_of_str d) pre ->
  resolve d (CartItem.product_id item) = Some prod ->
  fields prod !! "price" = Some v ->
  (v = VNone \/ (exists l, v = VList l) \/ (exists r, v = VOther r)) ->
  exists w',
    checkout float_of_str payload w
      = (Raise (HTTPException 500 (StrOf TypeError)), w') /\
    db w' = db w /\
    log w' = log w ++ (lookup_of <$> pre) ++ [lookup_of item].
Proof.
  intros Hd Hitems Hpre Hres Hprice Hv.
  assert (Hfloat : float_of_value float_of_str
                     (dict_get_default (fields prod) "price" (VInt 0))
                   = Raise TypeError).
  { unfold dict_get_default. rewrite Hprice.
    destruct Hv as [-> | [[l ->] | [r ->]]]; reflexivity. }
  assert (Hnot : ~ ready float_of_str d item).
  { intros (prod' & ? & ? & ? & Hres' & _ & Hprice' & _).
    apply price_of_float_of_value in Hprice'.
    assert (prod' = prod) by congruence. subst prod'. congruence. }
  destruct (checkout_first_failure _ _ _ _ _ _ Hd Hitems Hpre Hnot)
    as (its1 & sub1 & e & ops & w' & Hout & Hco & Hdb & Hlog).
  exists w'.
  assert (He : e = TypeError /\ ops = [lookup_of item]).
  { inversion Hout as [Hi'|i Hi' Hnone|prod' e' Hres' Hprice'
                       |prod' price Hres' Hprice' Hq
                       |prod' price q Hres' Hprice' Hq Hwhy|]; subst;
      try (unfold resolve in Hres; rewrite Hi' in Hres; discriminate);
      try congruence;
      assert (prod' = prod) by congruence; subst prod'; try congruence.
    split; [congruence | reflexivity]. }
  destruct He as [-> ->]. repeat split; assumption.
Qed.

(** X9.  A cart line that resolves to a product stored without a title, or
    with a title that holds no text (neither a string nor bytes that
    decode), while the product has a price and the quantity converts to a
    float, the lines before it being ready: the checkout is answered 500
    for the [ValidationError] of the order line, after the query for that
    line. *)
Theorem missing_title_is_500 payload w d pre item post prod price q :
  db w = Some d ->
  CheckoutRequest.items payload = pre ++ item :: post ->
  Forall (ready float_of_str d) pre ->
  resolve d (CartItem.product_id item) = Some prod ->
  (forall title, ~ title_of prod title) ->
  price_of float_of_str prod price ->
  float_of_int (CartItem.quantity item) = Ok q ->
  exists w',
    checkout float_of_str payload w
      = (Raise (HTTPException 500 (StrOf (ValidationError "OrderItem"))),
         w') /\
    db w' = db w /\
    log w' = log w ++ (lookup_of <$> pre) ++ [lookup_of item].
Proof.
  intros Hd Hitems Hpre Hres Htitle Hprice Hq.
  apply price_of_float_of_value in Hprice.
  assert (Hnot : ~ ready float_of_str d item).
  { intros (prod' & t & ? & ? & Hres' & Htitle' & _).
    assert (prod' = prod) by congruence. subst prod'.
    exact (Htitle t Htitle'). }
  destruct (checkout_first_failure _ _ _ _ _ _ Hd Hitems Hpre Hnot)
    as (its1 & sub1 & e & ops & w' & Hout & Hco & Hdb & Hlog).
  exists w'.
  assert (He : e = ValidationError "OrderItem" /\ ops = [lookup_of item]).
  { inversion Hout as [Hi'|i Hi' Hnone|prod' e' Hres' Hprice'
                       |prod' price' Hres' Hprice' Hq'
                       |prod' price' q' Hres' Hprice' Hq' Hwhy|]; subst;
      try (unfold resolve in Hres; rewrite Hi' in Hres; discriminate);
      try congruence;
      assert (prod' = prod) by congruence; subst prod'; try congruence.
    split; reflexivity. }
  destruct He as [-> ->]. repeat split; assumption.
Qed.

(** X10.  With no database configured, a checkout with at least one cart
    line is answered 500 for the [TypeError] of subscripting [None]; the
    world is left as it was and the store is not contacted. *)
Theorem checkout_without_database payload w :
  db w = None ->
  CheckoutRequest.items payload <> [] ->
  checkout float_of_str payload w
  = (Raise (HTTPException 500 (StrOf TypeError)), w).
Proof.
  intros Hd Hne. rewrite (checkout_no_database _ _ _ Hd).
  destruct (CheckoutRequest.items payload); [contradiction | reflexivity].
Qed.

End FirstFailure.

(** ** Submitting the same cart twice *)

Section Resubmission.

Variable float_of_str : string -> option float.

Lemma resolve_same_products d d' product_id :
  product d' = product d -> resolve d' product_id = resolve d product_id.
Proof. intros H. unfold resolve. rewrite H. reflexivity. Qed.

Lemma ready_same_products d d' item :
  product d' = product d ->
  ready float_of_str d item -> ready float_of_str d' item.
Proof.
  intros H (prod & title & price & q & Hres & Hrest).
  exists prod, title, price, q.
  rewrite (resolve_same_products _ _ _ H). split; assumption.
Qed.

(** The snapshot of a cart line is determined by the line and the stored
    products. *)
Lemma snapshot_same_products d d' item it it' :
  product d' = product d ->
  snapshot float_of_str d item it -> snapshot float_of_str d' item it' ->
  it = it'.
Proof.
  intros H (prod & Hres & Htitle & Hprice & Hid & Hcolor & Hsize & Hqty)
           (prod' & Hres' & Htitle' & Hprice' & Hid' & Hcolor' & Hsize'
            & Hqty').
  rewrite (resolve_same_products _ _ _ H) in Hres'.
  assert (prod' = prod) by congruence. subst prod'.
  pose proof (title_of_unique _ _ _ Htitle Htitle') as Ht.
  pose proof (price_of_unique _ _ _ _ Hprice Hprice') as Hp.
  destruct it, it'; simpl in *. f_equal; congruence.
Qed.

Lemma snapshots_same_products d d' items new new' :
  product d' = product d ->
  Forall2 (snapshot float_of_str d) items new ->
  Forall2 (snapshot float_of_str d') items new' ->
  new = new'.
Proof.
  intros H Hnew. revert new'.
  induction Hnew as [|item it items new Hit _ IH]; intros new' Hnew'.
  - inversion Hnew'. reflexivity.
  - inversion Hnew' as [|? it' ? new'' Hit' Hrest]; subst. f_equal.
    + exact (snapshot_same_products _ _ _ _ _ H Hit Hit').
    + apply IH. exact Hrest.
Qed.

(** X11.  There is no guard against a duplicate submission: when a
    checkout succeeds, submitting the same request again succeeds too, and
    the orders are then the earlier ones followed by two equal orders, one
    under each of the identifiers returned. *)
Theorem checkout_twice_places_two_orders payload w s1 w1 :
  checkout float_of_str payload w = (Ok s1, w1) ->
  exists s2 w2 o,
    checkout float_of_str payload w1 = (Ok s2, w2) /\
    orders_of w2 = orders_of w ++ [(s1, o); (s2, o)] /\
    products_of w2 = products_of w.
Proof.
  intros Hco.
  pose proof (checkout_Ok _ _ _ _ _ Hco)
    as (d & new & o & Hd & Hsnaps & _ & Ho & Hplaced).
  destruct Hplaced as (d0 & d1 & Hd0 & Hd1 & Hproducts & Horders).
  assert (d0 = d) by congruence. subst d0.
  assert (Hready : Forall (ready float_of_str d)
                          (CheckoutRequest.items payload)).
  { destruct (checkout_outcome _ _ _ _ _ _ Hd Hco)
      as [(? & ? & _ & _ & Hready & _)
         |(? & ? & ? & ? & ? & ? & ? & _ & _ & _ & Hne & _)];
      [exact Hready | discriminate Hne]. }
  assert (Hready1 : Forall (ready float_of_str d1)
                           (CheckoutRequest.items payload)).
  { eapply Forall_impl; [exact Hready |].
    intros item. apply ready_same_products, Hproducts. }
  destruct (checkout_succeeds _ _ _ _ Hd1 Hready1) as (s2 & w2 & Hco2).
  pose proof (checkout_Ok _ _ _ _ _ Hco2)
    as (d1' & new2 & o2 & Hd1' & Hsnaps2 & _ & Ho2 & Hplaced2).
  assert (d1' = d1) by congruence. subst d1'.
  destruct Hplaced2 as (d1' & d2 & Hd1'' & Hd2 & Hproducts2 & Horders2).
  assert (d1' = d1) by congruence. subst d1'.
  assert (new2 = new)
    by (symmetry; exact (snapshots_same_products _ _ _ _ _ Hproducts
                           Hsnaps Hsnaps2)).
  subst new2. assert (Heq : o2 = o) by congruence.
  rewrite Heq in Horders2.
  exists s2, w2, o. split; [exact Hco2 |].
  unfold orders_of, products_of. rewrite Hd2, Hd.
  split; [| congruence].
  rewrite Horders2, Horders, <- app_assoc. reflexivity.
Qed.

End Resubmission.

(** ** Which product bodies are turned away *)

Lemma not_nonneg_inv p :
  Float.nonneg p = false <-> p = S754_nan \/ Float.ltb p Float.zero = true.
Proof.
  destruct p as [[]|[]| |[] m e]; vm_compute; split; intros H; auto;
    try discriminate; destruct H; discriminate.
Qed.

(** [create_product] raises nothing but its own 500. *)
Lemma create_product_Raise product w e w' :
  create_product product w = (Raise e, w') ->
  e = HTTPException 500 (StrOf StorageError).
Proof.
  unfold create_product, try_except, create_document_product.
  destruct (db w); intros H; [discriminate H |].
  injection H as <- _. reflexivity.
Qed.

(** The bodies whose report does not render. *)
Lemma report_renders p :
  Product.price_ok p || is_finite p = false <->
  p = S754_nan \/ p = S754_infinity true.
Proof.
  destruct p as [[]|[]| |[] m e]; vm_compute; split; intros H; auto;
    try discriminate; destruct H; discriminate.
Qed.

(** X12.  [POST /products] treats a body, its fields at their declared
    types, in one of three ways.  It answers 422 exactly when the price is
    negative and finite, or the price is acceptable and the warmth rating
    is an integer outside 1..5.  The validation ends in the [ValueError] of
    a report that does not render, which is answered 500, exactly when the
    price is a NaN or the negative infinity.  Every other body is handed to
    [create_product]; [-0.0] and the positive infinity are accepted
    prices. *)
Theorem post_products_rejects_exactly body w :
  ((exists e w', post_products body w = (Raise (HTTPException 422 e), w')) <->
   (is_finite (Product.price body) = true /\
    Float.ltb (Product.price body) Float.zero = true) \/
   (Float.nonneg (Product.price body) = true /\
    exists n, Product.warmth_rating body = Some n /\ (n < 1 \/ 5 < n))) /\
  (post_products body w = (Raise ValueError, w) <->
   Product.price body = S754_nan \/
   Product.price body = S754_infinity true) /\
  (Product.valid body = true ->
   post_products body w = create_product body w).
Proof.
  destruct (Product.valid body) eqn:Hvalid.
  - assert (Hpost : post_products body w = create_product body w).
    { unfold post_products, Product.validate. rewrite Hvalid. reflexivity. }
    unfold Product.valid, Product.price_ok, Product.warmth_rating_ok
      in Hvalid.
    apply andb_prop in Hvalid as [Hprice Hwarmth].
    rewrite Hpost. split; [| split; [| reflexivity]]; split.
    + intros (e & w' & H). apply create_product_Raise in H. discriminate H.
    + intros [[_ Hneg] | (_ & n & Hn & Hout)]; exfalso.
      * rewrite (negative_not_nonneg _ Hneg) in Hprice. discriminate.
      * rewrite Hn in Hwarmth. apply andb_prop in Hwarmth as [H1 H5].
        apply Z.leb_le in H1. apply Z.leb_le in H5. lia.
    + intros H. apply create_product_Raise in H. discriminate H.
    + intros [Hp | Hp]; rewrite Hp in Hprice; discriminate Hprice.
  - rewrite (post_products_invalid _ _ Hvalid).
    pose proof (report_renders (Product.price body)) as Hrenders.
    unfold Product.valid, Product.warmth_rating_ok in Hvalid.
    unfold Product.price_ok in *.
    destruct (Float.nonneg (Product.price body)) eqn:Hprice;
      cbn [orb andb] in *.
    + split; [| split; [| discriminate]]; split.
      * intros _. right. split; [reflexivity |].
        destruct (Product.warmth_rating body) as [n|]; [| discriminate].
        exists n. split; [reflexivity |].
        apply andb_false_iff in Hvalid as [H | H]; apply Z.leb_gt in H; lia.
      * intros _. eexists _, w. reflexivity.
      * discriminate.
      * intros H. apply Hrenders in H. discriminate H.
    + apply not_nonneg_inv in Hprice.
      destruct (is_finite (Product.price body)) eqn:Hfinite.
      * split; [| split; [| discriminate]]; split.
        -- intros _. left. split; [reflexivity |].
           destruct Hprice as [Hnan | Hneg]; [| exact Hneg].
           rewrite Hnan in Hfinite. discriminate Hfinite.
        -- intros _. eexists _, w. reflexivity.
        -- discriminate.
        -- intros H. apply Hrenders in H. discriminate H.
      * split; [| split; [| discriminate]]; split.
        -- intros (e & w' & H). discriminate H.
        -- intros [[H _] | [H _]]; discriminate H.
        -- intros _. apply Hrenders. reflexivity.
        -- reflexivity.
Qed.

(** ** Listing is all or nothing *)

Lemma from_opt_Raise {A : Type} model (o : option A) e :
  from_opt model o = Raise e -> e = ValidationError model.
Proof. destruct o; simpl; intros H; [discriminate H | congruence]. Qed.

Lemma as_str_Raise model v e :
  as_str model v = Raise e -> e = ValidationError model.
Proof. apply from_opt_Raise. Qed.

Lemma as_opt_str_Raise model v e :
  as_opt_str model v = Raise e -> e = ValidationError model.
Proof.
  unfold as_opt_str, mbind, result_bind.
  destruct v; try discriminate;
    destruct (as_str model _) eqn:H; try discriminate;
    intros Heq; injection Heq as <-; exact (as_str_Raise _ _ _ H).
Qed.

Lemma as_bool_Raise P model v e :
  as_bool P model v = Raise e -> e = ValidationError model.
Proof.
  destruct v; simpl; try discriminate; try apply from_opt_Raise; congruence.
Qed.

Lemma as_float_Raise P model v e :
  as_float P model v = Raise e -> e = ValidationError model.
Proof.
  destruct v; simpl; try discriminate; try apply from_opt_Raise;
    try congruence.
  destruct (float_of_int n); [discriminate | congruence].
Qed.

Lemma as_opt_int_Raise P model v e :
  as_opt_int P model v = Raise e -> e = ValidationError model.
Proof.
  unfold as_opt_int, mbind, result_bind.
  destruct v; try discriminate; try congruence;
    destruct (from_opt model _) eqn:H; try discriminate;
    intros Heq; injection Heq as <-; exact (from_opt_Raise _ _ _ H).
Qed.

Lemma strs_of_values_Raise model l e :
  strs_of_values model l = Raise e -> e = ValidationError model.
Proof.
  induction l as [|v l IH]; simpl; [discriminate |].
  unfold mbind, result_bind.
  destruct (as_str model v) eqn:Hv.
  - destruct (strs_of_values model l); [discriminate |].
    intros H. injection H as <-. apply IH. reflexivity.
  - intros H. injection H as <-. exact (as_str_Raise _ _ _ Hv).
Qed.

Lemma as_str_list_Raise model v e :
  as_str_list model v = Raise e -> e = ValidationError model.
Proof.
  destruct v; simpl; try congruence. apply strs_of_values_Raise.
Qed.

Lemma from_option_Raise {A : Type} (f : value -> result A) model o e :
  (forall v e', f v = Raise e' -> e' = ValidationError model) ->
  from_option f (Raise (ValidationError model)) o = Raise e ->
  e = ValidationError model.
Proof. intros Hf. destruct o; simpl; [apply Hf | congruence]. Qed.

(** A document that is not valid as a product is refused with the
    validation error of the model it was read for. *)
Lemma Product_of_dict_Raise P model d e :
  Product.of_dict P model d = Raise e -> e = ValidationError model.
Proof.
  unfold Product.of_dict, Product.validate, check, mbind, result_bind.
  repeat
    (match goal with
     | |- match ?r with Ok _ => _ | Raise _ => _ end = Raise _ -> _ =>
         let H := fresh "H" in
         destruct r eqn:H;
         [| intros Heq; injection Heq as <-;
            first [ exact (as_str_Raise _ _ _ H)
                  | exact (as_opt_str_Raise _ _ _ H)
                  | exact (as_bool_Raise _ _ _ _ H)
                  | exact (as_float_Raise _ _ _ _ H)
                  | exact (as_opt_int_Raise _ _ _ _ H)
                  | exact (as_str_list_Raise _ _ _ H)
                  | exact (from_option_Raise _ _ _ _
                             (as_str_Raise model) H)
                  | exact (from_option_Raise _ _ _ _
                             (as_float_Raise P model) H) ]]
     end).
  destruct (Product.valid _); [discriminate | congruence].
Qed.

Section ListingOutcomes.

Variable P : parsers.

Lemma response_of_Raise x e :
  response_of P x = Raise e -> e = ValidationError "ProductResponse".
Proof.
  unfold response_of, ProductResponse.of_dict, mbind, result_bind.
  destruct (Product.of_dict _ _ _) eqn:H; [discriminate |].
  intros Heq. injection Heq as <-. exact (Product_of_dict_Raise _ _ _ _ H).
Qed.

Lemma list_products_loop_Raise docs items w pre x post e :
  docs = pre ++ x :: post ->
  Forall (fun y => exists r, response_of P y = Ok r) pre ->
  response_of P x = Raise e ->
  list_products_loop P docs items w = (Raise e, w).
Proof.
  intros -> Hpre Hx. revert items.
  induction Hpre as [|y pre [r Hy] _ IH]; intros items; simpl.
  - unfold mbind, M_bind, lift. unfold response_of in Hx. rewrite Hx.
    reflexivity.
  - unfold mbind, M_bind, lift. unfold response_of in Hy. rewrite Hy.
    apply IH.
Qed.

(** X13.  Whatever documents the store returns for the query of
    [list_products]: when each of them is valid as a [ProductResponse],
    read in lax mode, the answer has one entry per document, in the order
    returned, under the document's identifier; when one of them is not, the
    answer is the 500 of the validation error of [ProductResponse] and no
    entry is returned, not even for the documents before it. *)
Theorem list_products_all_or_nothing featured w docs w1 :
  get_documents_product
    (match featured with
     | Some b => <["featured" := VBool b]> ∅
     | None => ∅
     end) w = (Ok docs, w1) ->
  (forall rs,
     Forall2 (fun x r => response_of P x = Ok r) docs rs ->
     list_products P featured w = (Ok rs, w1) /\
     Forall2 (fun x r => ProductResponse.id r = str_oid (_id x) /\
                         Product.of_dict P "ProductResponse" (fields x)
                         = Ok (ProductResponse.product r)) docs rs) /\
  (forall pre x post e,
     docs = pre ++ x :: post ->
     Forall (fun y => exists r, response_of P y = Ok r) pre ->
     response_of P x = Raise e ->
     list_products P featured w
     = (Raise (HTTPException 500
                 (StrOf (ValidationError "ProductResponse"))), w1)).
Proof.
  intros Hget. split.
  - intros rs Hrs. split.
    + unfold list_products, try_except.
      rewrite (bind_Ok _ _ _ _ _ Hget).
      rewrite (list_products_loop_Ok _ _ _ _ _ Hrs). reflexivity.
    + eapply Forall2_impl; [exact Hrs |].
      intros x r. unfold response_of, ProductResponse.of_dict.
      destruct (Product.of_dict _ _ (fields x)) as [p|]; simpl;
        [| discriminate].
      intros H. injection H as <-. split; reflexivity.
  - intros pre x post e Hdocs Hpre Hx.
    pose proof (response_of_Raise _ _ Hx) as ->.
    unfold list_products, try_except.
    rewrite (bind_Ok _ _ _ _ _ Hget).
    rewrite (list_products_loop_Raise _ _ _ _ _ _ _ Hdocs Hpre Hx).
    reflexivity.
Qed.

End ListingOutcomes.

(** ** The diagnostic endpoint *)

(** X14.  In the answer of [test_database], [database_url] and
    [database_name] tell only whether the environment variables
    [DATABASE_URL] and [DATABASE_NAME] are set to a non-empty string: what
    the handle wrote there, the name of the database included, is always
    overwritten. *)
Theorem test_database_reports_environment db environ :
  let r := Health.test_database db environ in
  Health.database_url r
  = Some (if Health.getenv_set environ "DATABASE_URL"
          then "✅ Set" else "❌ Not Set") /\
  Health.database_name r
  = Some (if Health.getenv_set environ "DATABASE_NAME"
          then "✅ Set" else "❌ Not Set") /\
  Health.database_url r
  = Health.database_url (Health.test_database None environ) /\
  Health.database_name r
  = Health.database_name (Health.test_database None environ) /\
  Health.backend r = "✅ Running".
Proof.
  destruct db as [[name [e|names]]|]; repeat split; reflexivity.
Qed.

(** X15.  [test_database] reports at most ten collections, the first ten
    the store lists, in its order; it reports none when there is no handle
    or when listing them fails.  It says "Connected & Working" exactly when
    the listing succeeded, and "Connected" exactly when there is a
    handle. *)
Theorem test_database_collections db environ :
  let r := Health.test_database db environ in
  (length (Health.collections r) <= 10)%nat /\
  Health.collections r
  = match db with
    | Some h =>
        match Health.list_collection_names h with
        | inr names => take 10 names
        | inl _ => []
        end
    | None => []
    end /\
  (Health.database r = "✅ Connected & Working" <->
   exists h names,
     db = Some h /\ Health.list_collection_names h = inr names) /\
  (Health.connection_status r = "Connected" <-> exists h, db = Some h).
Proof.
  destruct db as [[name [e|names]]|]; cbn.
  - split; [lia |]. split; [reflexivity |]. split; split.
    + intros H. discriminate H.
    + intros (h & names & Hh & Hnames). injection Hh as <-.
      discriminate Hnames.
    + intros _. eauto.
    + intros _. reflexivity.
  - split; [rewrite length_take; lia |]. split; [reflexivity |].
    split; split; eauto.
  - split; [lia |]. split; [reflexivity |]. split; split.
    + intros H. discriminate H.
    + intros (h & names & Hh & _). discriminate Hh.
    + intros H. discriminate H.
    + intros (h & Hh). discriminate Hh.
Qed.

(** ** Prices the order line refuses, choices it does not check *)

Section MoreCheckout.

Variable float_of_str : string -> option float.

(** X16.  A cart line that resolves to a product whose stored price
    converts to a float that is negative or a NaN, its quantity converting
    too and the lines before it being ready: the checkout is answered 500
    for the [ValidationError] of the order line, after the query for that
    line. *)
Theorem negative_stored_price_is_500 payload w d pre item post prod price q :
  db w = Some d ->
  CheckoutRequest.items payload = pre ++ item :: post ->
  Forall (ready float_of_str d) pre ->
  resolve d (CartItem.product_id item) = Some prod ->
  float_of_value float_of_str
    (dict_get_default (fields prod) "price" (VInt 0)) = Ok price ->
  Float.nonneg price = false ->
  float_of_int (CartItem.quantity item) = Ok q ->
  exists w',
    checkout float_of_str payload w
      = (Raise (HTTPException 500 (StrOf (ValidationError "OrderItem"))),
         w') /\
    db w' = db w /\
    log w' = log w ++ (lookup_of <$> pre) ++ [lookup_of item].
Proof.
  intros Hd Hitems Hpre Hres Hprice Hneg Hq.
  assert (Hnot : ~ ready float_of_str d item).
  { intros (prod' & ? & price' & ? & Hres' & _ & Hprice' & Hnonneg & _).
    apply price_of_float_of_value in Hprice'.
    assert (prod' = prod) by congruence. subst prod'.
    assert (price' = price) by congruence. subst price'. congruence. }
  destruct (checkout_first_failure _ _ _ _ _ _ _ Hd Hitems Hpre Hnot)
    as (its1 & sub1 & e & ops & w' & Hout & Hco & Hdb & Hlog).
  exists w'.
  assert (He : e = ValidationError "OrderItem" /\ ops = [lookup_of item]).
  { inversion Hout as [Hi'|i Hi' Hnone|prod' e' Hres' Hprice'
                       |prod' price' Hres' Hprice' Hq'
                       |prod' price' q' Hres' Hprice' Hq' Hwhy|]; subst;
      try (unfold resolve in Hres; rewrite Hi' in Hres; discriminate);
      try congruence;
      assert (prod' = prod) by congruence; subst prod'; try congruence.
    split; reflexivity. }
  destruct He as [-> ->]. repeat split; assumption.
Qed.

Lemma ready_ignores_choices d item item' :
  CartItem.product_id item' = CartItem.product_id item ->
  CartItem.quantity item' = CartItem.quantity item ->
  ready float_of_str d item -> ready float_of_str d item'.
Proof.
  intros Hid Hqty (prod & title & price & q & H).
  exists prod, title, price, q. rewrite Hid, Hqty. exact H.
Qed.

(** X17.  The colour and the size chosen on a cart line are not checked
    against the product: two requests whose lines name the same products
    in the same quantities, line by line, are both accepted or both
    refused, whatever colours and sizes they choose and whoever the
    customer is. *)
Theorem checkout_does_not_check_choices payload payload' w :
  Forall2 (fun item item' =>
             CartItem.product_id item' = CartItem.product_id item /\
             CartItem.quantity item' = CartItem.quantity item)
          (CheckoutRequest.items payload) (CheckoutRequest.items payload') ->
  (exists s w1, checkout float_of_str payload w = (Ok s, w1)) ->
  exists s' w1', checkout float_of_str payload' w = (Ok s', w1').
Proof.
  intros Hsame (s & w1 & Hco).
  pose proof (checkout_Ok _ _ _ _ _ Hco) as (d & _ & _ & Hd & _).
  destruct (checkout_outcome _ _ _ _ _ _ Hd Hco)
    as [(? & ? & _ & _ & Hready & _)
       |(? & ? & ? & ? & ? & ? & ? & _ & _ & _ & Hne & _)];
    [| discriminate Hne].
  apply (checkout_succeeds _ _ _ d Hd).
  clear Hco. induction Hsame as [|item item' items items' [Hid Hqty] _ IH].
  - constructor.
  - apply Forall_cons in Hready as [Hitem Hready].
    constructor; [| exact (IH Hready)].
    exact (ready_ignores_choices _ _ _ Hid Hqty Hitem).
Qed.

End MoreCheckout.

(** ** Creating a product, then buying it *)

Lemma find_after_fresh (l : list document) (x : document) :
  _id x ∉ (_id <$> l) ->
  List.find (fun y => String.eqb (_id y) (_id x)) (l ++ [x]) = Some x.
Proof.
  induction l as [|y l IH]; intros Hfresh; simpl.
  - rewrite String.eqb_refl. reflexivity.
  - rewrite fmap_cons in Hfresh.
    apply not_elem_of_cons in Hfresh as [Hne Hrest].
    destruct (String.eqb (_id y) (_id x)) eqn:Heq.
    + apply String.eqb_eq in Heq. congruence.
    + exact (IH Hrest).
Qed.

Lemma Product_to_dict_title p :
  Product_to_dict p !! "title" = Some (VStr (Product.title p)).
Proof. unfold Product_to_dict. apply lookup_insert_eq. Qed.

Lemma Product_to_dict_price p :
  Product_to_dict p !! "price" = Some (VFloat (Product.price p)).
Proof.
  unfold Product_to_dict.
  repeat (rewrite lookup_insert_eq || rewrite lookup_insert_ne by done).
  reflexivity.
Qed.

(** X18.  A product created through [POST /products] can be bought at once:
    with the store available and handing out a well-formed identifier that
    no stored product has, a cart of one line naming the identifier
    returned, in a quantity of at least 1 that converts to a float, is
    turned into an order whose only item carries the product's title and
    price and the line's quantity. *)
Theorem created_product_can_be_bought float_of_str body w d payload item q :
  Product.valid body = true ->
  db w = Some d ->
  fresh d (issued d) ∉ product_ids d ->
  ObjectId (fresh d (issued d)) = Ok (fresh d (issued d)) ->
  CheckoutRequest.items payload = [item] ->
  CartItem.product_id item = str_oid (fresh d (issued d)) ->
  1 <= CartItem.quantity item ->
  float_of_int (CartItem.quantity item) = Ok q ->
  exists s1 w1 s2 w2 o it,
    post_products body w = (Ok s1, w1) /\
    s1 = CartItem.product_id item /\
    checkout float_of_str payload w1 = (Ok s2, w2) /\
    placed w1 w2 s2 o /\
    Order.items o = [it] /\
    OrderItem.product_id it = s1 /\
    OrderItem.title it = Product.title body /\
    OrderItem.price it = Product.price body /\
    OrderItem.quantity it = CartItem.quantity item /\
    Order.subtotal o = Float.sum [Float.mul (Product.price body) q].
Proof.
  intros Hvalid Hd Hfresh Hoid Hitems Hid Hqty Hq.
  set (i := fresh d (issued d)) in *.
  set (x := {| _id := i; fields := Product_to_dict body |}).
  set (d1 := {| product := product d ++ [x]; order := order d;
                issued := S (issued d); fresh := fresh d |}).
  set (w1 := {| db := Some d1; log := log w ++ [InsertOne "product" i] |}).
  assert (Hpost : post_products body w = (Ok (str_oid i), w1)).
  { unfold post_products, Product.validate. rewrite Hvalid. simpl.
    unfold create_product, try_except, create_document_product.
    rewrite Hd. reflexivity. }
  assert (Hres : resolve d1 (CartItem.product_id item) = Some x).
  { unfold resolve. rewrite Hid. unfold str_oid. rewrite Hoid.
    apply (find_after_fresh (product d) x). exact Hfresh. }
  assert (Hprice : Float.nonneg (Product.price body) = true).
  { unfold Product.valid, Product.price_ok in Hvalid.
    apply andb_prop in Hvalid as [Hp _]. exact Hp. }
  assert (Hready : Forall (ready float_of_str d1)
                          (CheckoutRequest.items payload)).
  { rewrite Hitems. constructor; [| constructor].
    exists x, (Product.title body), (Product.price body), q.
    split; [exact Hres |].
    split; [apply title_of_str, Product_to_dict_title |].
    split.
    { unfold price_of. cbn [fields x].
      rewrite Product_to_dict_price. constructor. }
    repeat split; assumption. }
  destruct (checkout_succeeds float_of_str payload w1 d1 eq_refl Hready)
    as (s2 & w2 & Hco).
  pose proof (checkout_Ok _ _ _ _ _ Hco)
    as (d1' & new & o & Hd1 & Hsnaps & _ & Ho & Hplaced).
  injection Hd1 as <-.
  rewrite Hitems in Hsnaps.
  apply Forall2_cons_inv_l in Hsnaps as (it & rest & Hsnap & Hrest & ->).
  apply Forall2_nil_inv_l in Hrest. subst rest.
  destruct Hsnap as (x' & Hres' & Htitle & Hprice' & Hpid & _ & _ & Hquantity).
  assert (x' = x) by congruence. subst x'.
  assert (Ht : OrderItem.title it = Product.title body).
  { apply (title_of_unique x); [exact Htitle |].
    apply title_of_str, Product_to_dict_title. }
  assert (Hp : OrderItem.price it = Product.price body).
  { unfold price_of in Hprice'. cbn [fields x] in Hprice'.
    rewrite Product_to_dict_price in Hprice'.
    inversion Hprice'. reflexivity. }
  exists (str_oid i), w1, s2, w2, o, it.
  split; [exact Hpost |]. split; [symmetry; exact Hid |].
  split; [exact Hco |]. split; [exact Hplaced |].
  rewrite Ho. cbn [Order.items Order.subtotal].
  split; [reflexivity |]. split; [congruence |].
  split; [exact Ht |]. split; [exact Hp |].
  split; [exact Hquantity |].
  unfold amount. cbn [fmap list_fmap].
  rewrite Hquantity, <- (float_of_int_Ok _ _ Hq), Hp.
  reflexivity.
Qed.

(** ** Instances of the further properties *)

Import MoreFixtures.

(** A [product_id] of 24 characters with whitespace is accepted by
    [ObjectId]: the store is queried, under the eleven bytes read, and the
    answer is the 404. *)
Example spaced_identifier_is_queried :
  checkout no_str (request [line spaced 1]) shop
  = (Raise (HTTPException 404
              (Msg ("Product " +:+ spaced +:+ " not found"))),
     record (Find "product" "aaaaaaaaaaaaaaaaaaaaaa") shop).
Proof. vm_compute. reflexivity. Qed.

(** A product whose title is stored as bytes is bought under the text they
    encode. *)
Example bytes_title_is_decoded :
  let r := checkout no_str (request [line idT 1]) bytes_world in
  r.1 = Ok first_id /\
  orders r.2 = Some [(first_id, order_of [item_of idT "T" 7 1] 7 10 17)].
Proof. vm_compute. split; reflexivity. Qed.

(** A price stored as bytes is read as the number written there: two at
    12.5 make 25. *)
Example bytes_price_is_read :
  let r := checkout reads_12_5 (request [line idP 2]) bytes_world in
  r.1 = Ok first_id /\
  exists o,
    orders r.2 = Some [(first_id, o)] /\
    OrderItem.price <$> Order.items o = [twelve_and_a_half] /\
    Order.subtotal o = Float.of_Z 25 /\ Order.total o = Float.of_Z 35.
Proof.
  split; [vm_compute; reflexivity |].
  eexists. split; [vm_compute; reflexivity |].
  vm_compute. repeat split; reflexivity.
Qed.

(** A stored price that is the text of a number is listed as that
    number. *)
Example text_price_is_listed :
  (list_products reads_price None (base [docS])).1
  = Ok [{| ProductResponse.id := idS;
           ProductResponse.product :=
             {| Product.title := "S"; Product.description := None;
                Product.price := twelve_and_a_half;
                Product.category := "leggings"; Product.in_stock := true;
                Product.images := []; Product.colors := [];
                Product.sizes := []; Product.featured := false;
                Product.warmth_rating := Some 5; Product.fabric := None;
                Product.sku := None |} |}].
Proof. vm_compute. reflexivity. Qed.

(** A body whose price is the negative infinity, or a NaN, is refused, and
    the report of the refusal does not render: the answer is a 500.  A
    finite negative price is answered 422. *)
Example unrenderable_refusals :
  post_products (priced (S754_infinity true)) shop = (Raise ValueError, shop)
  /\ post_products (priced S754_nan) shop = (Raise ValueError, shop)
  /\ status_of ValueError = 500
  /\ post_products (priced (Float.of_Z (-5))) shop
     = (Raise (HTTPException 422 (StrOf (ValidationError "ProductCreate"))),
        shop).
Proof. vm_compute. repeat split; reflexivity. Qed.

Lemma ready_A : ready no_str catalog (line idA 1).
Proof.
  apply (ready_of_reads no_str _ _ docA "A" (Float.of_Z 30) (Float.of_Z 1));
    vm_compute; first [reflexivity | discriminate].
Defined.

Lemma ready_A_odd : ready no_str odd_catalog (line idA 1).
Proof.
  apply (ready_of_reads no_str _ _ docA "A" (Float.of_Z 30) (Float.of_Z 1));
    vm_compute; first [reflexivity | discriminate].
Defined.

Lemma checkout_fails_with_404_or_500_witness :
  let payload := request [line idA 1; line spaced 1] in
  let e := HTTPException 404 (Msg ("Product " +:+ spaced +:+ " not found")) in
  (exists item,
     item ∈ CheckoutRequest.items payload /\
     e = HTTPException 404
           (Msg ("Product " +:+ CartItem.product_id item +:+ " not found")) /\
     String.length (CartItem.product_id item) = 24%nat /\
     fromhex (CartItem.product_id item)
     = Some (hex_text (CartItem.product_id item)) /\
     hex_text (CartItem.product_id item) ∉ (_id <$> products_of shop)) \/
  (exists e0, e = HTTPException 500 (StrOf e0) /\ is_http e0 = false).
Proof.
  apply (checkout_fails_with_404_or_500 no_str
           (request [line idA 1; line spaced 1]) shop _
           (after (checkout no_str (request [line idA 1; line spaced 1])
                     shop))).
  vm_compute. reflexivity.
Defined.

Lemma checkout_store_traffic_witness :
  log (after (checkout no_str cart_110 shop))
  = log shop ++ (lookup_of <$> CheckoutRequest.items cart_110)
             ++ [InsertOne "order" first_id].
Proof.
  apply (checkout_store_traffic no_str cart_110 shop (Ok first_id)
           (after (checkout no_str cart_110 shop))).
  vm_compute. reflexivity.
Defined.

Lemma checkout_only_appends_an_order_witness :
  products_of (after (checkout no_str cart_110 shop)) = products_of shop /\
  exists o,
    orders_of (after (checkout no_str cart_110 shop))
    = orders_of shop ++ [(first_id, o)].
Proof.
  apply (checkout_only_appends_an_order no_str cart_110 shop (Ok first_id)
           (after (checkout no_str cart_110 shop))).
  vm_compute. reflexivity.
Defined.

Lemma persisted_order_in_bounds_witness :
  exists o,
    placed shop (after (checkout no_str cart_110 shop)) first_id o /\
    Forall (fun it => Float.nonneg (OrderItem.price it) = true /\
                      1 <= OrderItem.quantity it) (Order.items o) /\
    Float.nonneg (Order.subtotal o) = true /\
    Float.nonneg (Order.shipping_cost o) = true /\
    Float.nonneg (Order.total o) = true.
Proof.
  apply (persisted_order_in_bounds no_str cart_110 shop first_id
           (after (checkout no_str cart_110 shop))).
  vm_compute. reflexivity.
Defined.

Lemma low_quantity_never_ordered_witness :
  exists status detail w',
    post_checkout no_str (request [line idA 1; line idB 0]) shop
      = (Raise (HTTPException status detail), w') /\
    (status = 404 \/ status = 500) /\
    db w' = db shop.
Proof.
  apply (low_quantity_never_ordered no_str
           (request [line idA 1; line idB 0]) shop (line idB 0)).
  - apply list_elem_of_further, list_elem_of_here.
  - simpl. lia.
Defined.

Lemma malformed_identifier_is_500_witness :
  exists w',
    checkout no_str (request [line idA 1; line "leggings-1" 1]) shop
      = (Raise (HTTPException 500 (StrOf (InvalidId "leggings-1"))), w') /\
    db w' = db shop /\
    log w' = log shop ++ (lookup_of <$> [line idA 1]).
Proof.
  apply (malformed_identifier_is_500 no_str
           (request [line idA 1; line "leggings-1" 1]) shop catalog
           [line idA 1] (line "leggings-1" 1) []).
  - reflexivity.
  - reflexivity.
  - constructor; [exact ready_A | constructor].
  - left. vm_compute. discriminate.
Defined.

Lemma null_price_is_500_witness :
  exists w',
    checkout no_str (request [line idA 1; line idN 1]) odd_world
      = (Raise (HTTPException 500 (StrOf TypeError)), w') /\
    db w' = db odd_world /\
    log w' = log odd_world ++ (lookup_of <$> [line idA 1])
                           ++ [lookup_of (line idN 1)].
Proof.
  apply (null_price_is_500 no_str (request [line idA 1; line idN 1])
           odd_world odd_catalog [line idA 1] (line idN 1) [] docN VNone).
  - reflexivity.
  - reflexivity.
  - constructor; [exact ready_A_odd | constructor].
  - vm_compute. reflexivity.
  - vm_compute. reflexivity.
  - left. reflexivity.
Defined.

Lemma missing_title_is_500_witness :
  exists w',
    checkout no_str (request [line idA 1; line idE 1]) odd_world
      = (Raise (HTTPException 500 (StrOf (ValidationError "OrderItem"))),
         w') /\
    db w' = db odd_world /\
    log w' = log odd_world ++ (lookup_of <$> [line idA 1])
                           ++ [lookup_of (line idE 1)].
Proof.
  apply (missing_title_is_500 no_str (request [line idA 1; line idE 1])
           odd_world odd_catalog [line idA 1] (line idE 1) [] docE
           (Float.of_Z 5) (Float.of_Z 1)).
  - reflexivity.
  - reflexivity.
  - constructor; [exact ready_A_odd | constructor].
  - vm_compute. reflexivity.
  - intros title (v & Hv & _). vm_compute in Hv. discriminate Hv.
  - apply (proj1 (price_of_float_of_value no_str docE (Float.of_Z 5))).
    vm_compute. reflexivity.
  - vm_compute. reflexivity.
Defined.

Lemma checkout_without_database_witness :
  checkout no_str cart_20 no_database
  = (Raise (HTTPException 500 (StrOf TypeError)), no_database).
Proof.
  apply (checkout_without_database no_str cart_20 no_database).
  - reflexivity.
  - discriminate.
Defined.

Lemma checkout_twice_places_two_orders_witness :
  exists s2 w2 o,
    checkout no_str cart_20 (after (checkout no_str cart_20 shop))
      = (Ok s2, w2) /\
    orders_of w2 = orders_of shop ++ [(first_id, o); (s2, o)] /\
    products_of w2 = products_of shop.
Proof.
  apply (checkout_twice_places_two_orders no_str cart_20 shop first_id
           (after (checkout no_str cart_20 shop))).
  vm_compute. reflexivity.
Defined.

Lemma list_products_all_or_nothing_witness :
  (forall rs,
     Forall2 (fun x r => response_of no_text x = Ok r) [docA; docB; docC] rs ->
     list_products no_text None shop
       = (Ok rs, after (get_documents_product ∅ shop)) /\
     Forall2 (fun x r => ProductResponse.id r = str_oid (_id x) /\
                         Product.of_dict no_text "ProductResponse" (fields x)
                         = Ok (ProductResponse.product r))
             [docA; docB; docC] rs) /\
  (forall pre x post e,
     [docA; docB; docC] = pre ++ x :: post ->
     Forall (fun y => exists r, response_of no_text y = Ok r) pre ->
     response_of no_text x = Raise e ->
     list_products no_text None shop
     = (Raise (HTTPException 500
                 (StrOf (ValidationError "ProductResponse"))),
        after (get_documents_product ∅ shop))).
Proof.
  apply (list_products_all_or_nothing no_text None shop [docA; docB; docC]
           (after (get_documents_product ∅ shop))).
  vm_compute. reflexivity.
Defined.

Lemma negative_stored_price_is_500_witness :
  exists w',
    checkout no_str (request [line idA 1; line idM 1]) odd_world
      = (Raise (HTTPException 500 (StrOf (ValidationError "OrderItem"))),
         w') /\
    db w' = db odd_world /\
    log w' = log odd_world ++ (lookup_of <$> [line idA 1])
                           ++ [lookup_of (line idM 1)].
Proof.
  apply (negative_stored_price_is_500 no_str
           (request [line idA 1; line idM 1])
           odd_world odd_catalog [line idA 1] (line idM 1) [] docM
           (Float.of_Z (-5)) (Float.of_Z 1)).
  - reflexivity.
  - reflexivity.
  - constructor; [exact ready_A_odd | constructor].
  - vm_compute. reflexivity.
  - vm_compute. reflexivity.
  - vm_compute. reflexivity.
  - vm_compute. reflexivity.
Defined.

Lemma checkout_does_not_check_choices_witness :
  exists s' w1',
    checkout no_str (request [line' idA 2; line' idB 1]) shop = (Ok s', w1').
Proof.
  apply (checkout_does_not_check_choices no_str cart_110
           (request [line' idA 2; line' idB 1]) shop).
  - repeat constructor.
  - eexists _, _. vm_compute. reflexivity.
Defined.

Lemma created_product_can_be_bought_witness :
  exists s1 w1 s2 w2 o it,
    post_products (entry "New" 42) shop = (Ok s1, w1) /\
    s1 = first_id /\
    checkout no_str (request [line first_id 2]) w1 = (Ok s2, w2) /\
    placed w1 w2 s2 o /\
    Order.items o = [it] /\
    OrderItem.product_id it = s1 /\
    OrderItem.title it = "New" /\
    OrderItem.price it = Float.of_Z 42 /\
    OrderItem.quantity it = 2 /\
    Order.subtotal o = Float.sum [Float.mul (Float.of_Z 42) (Float.of_Z 2)].
Proof.
  apply (created_product_can_be_bought no_str (entry "New" 42) shop catalog
           (request [line first_id 2]) (line first_id 2) (Float.of_Z 2)).
  - vm_compute. reflexivity.
  - reflexivity.
  - unfold product_ids. cbn. rewrite !not_elem_of_cons.
    repeat split; try discriminate. apply not_elem_of_nil.
  - vm_compute. reflexivity.
  - reflexivity.
  - reflexivity.
  - simpl. lia.
  - vm_compute. reflexivity.
Defined.
